(** * FreshMart product service: pricing and discount rules engine

    A shallow embedding of the pricing part of
    [src/services/api/productService.js] (class [ProductService]) and the
    properties of its price, margin, discount and history operations.

    Numbers.  A JavaScript number is modelled as an exact rational ([Q]);
    NaN, the infinities and the rounding error of binary64 arithmetic are
    outside the model.  Fields that may be [undefined] are [option]s, with
    [None] for an absent property.  Two JavaScript numbers are [===] when
    they are [Qeq]-equal, so strict equality is [Qeq_bool], never Leibniz
    equality on [Q].  Every concrete input evaluated below is chosen so
    that the binary64 evaluation of the source gives the same result as the
    rational one.

    Time.  Dates are epoch milliseconds ([Z]); the store carries the clock,
    and [delay ms] advances it by [ms].

    Effects.  The service owns one mutable array, [this.products].  Its
    methods are computations in a state-and-exception monad over that
    store: a [throw] keeps the store as it was at the point of the throw,
    as in JavaScript. *)

From Stdlib Require Import ZArith QArith Qround Qabs Qminmax.
From Stdlib Require Import List String Bool Lia Lqa Permutation Sorted.
Import ListNotations.

Local Open Scope Q_scope.
Local Open Scope string_scope.

(** ** JavaScript primitives used by the service *)

Module JS.

(** [x < y] on numbers. *)
Definition ltb (x y : Q) : bool := negb (Qle_bool y x).

(** [x <= y] on numbers. *)
Definition leb (x y : Q) : bool := Qle_bool x y.

(** [x === y] on numbers. *)
Definition eqb (x y : Q) : bool := Qeq_bool x y.

(** Truthiness of a property that is absent or holds a number:
    [undefined] and [0] are falsy. *)
Definition truthy (v : option Q) : bool :=
  match v with
  | Some q => negb (eqb q 0)
  | None => false
  end.

(** Truthiness of a number. *)
Definition truthy_num (q : Q) : bool := negb (eqb q 0).

(** Truthiness of a property that is absent or holds a date string. *)
Definition truthy_date (v : option Z) : bool :=
  match v with Some _ => true | None => false end.

(** [parseFloat(v) || d]: the number itself, or [d] when the property is
    absent (parseFloat gives NaN) or is [0]. *)
Definition parseFloat_or (v : option Q) (d : Q) : Q :=
  match v with
  | Some q => if eqb q 0 then d else q
  | None => d
  end.

(** [parseInt(v) || d]. *)
Definition parseInt_or (v : option Z) (d : Z) : Z :=
  match v with
  | Some k => if (k =? 0)%Z then d else k
  | None => d
  end.

(** [v > 0] where [v] may be [undefined] ([undefined > 0] is false). *)
Definition gt0 (v : option Q) : bool :=
  match v with
  | Some q => ltb 0 q
  | None => false
  end.

(** [v <= y] / [v !== undefined && x <= v] helpers on optional numbers. *)
Definition opt_leb_l (v : option Q) (y : Q) : bool :=
  match v with
  | Some q => leb q y
  | None => false
  end.

Definition opt_leb_r (x : Q) (v : option Q) : bool :=
  match v with
  | Some q => leb x q
  | None => false
  end.

(** [s === 'lit'] for a property that is absent or holds a string. *)
Definition str_is (s : option string) (lit : string) : bool :=
  match s with
  | Some t => String.eqb t lit
  | None => false
  end.

(** [Math.round]: the nearest integer, an exact half going up. *)
Definition Math_round (x : Q) : Z := Qfloor (x + (1 # 2)).

(** [Math.round(x * 100) / 100], the service's 2-decimal rounding. *)
Definition round2 (x : Q) : Q := inject_Z (Math_round (x * 100)) / 100.

(** [Math.max], [Math.min], [Math.abs]. *)
Definition Math_max (x y : Q) : Q := Qmax x y.
Definition Math_min (x y : Q) : Q := Qmin x y.
Definition Math_abs (x : Q) : Q := Qabs x.

(** [arr.findIndex(pred)]; [None] stands for [-1]. *)
Fixpoint findIndex {A : Type} (pred : A -> bool) (arr : list A) : option nat :=
  match arr with
  | [] => None
  | x :: rest =>
      if pred x then Some 0%nat
      else match findIndex pred rest with
           | Some i => Some (S i)
           | None => None
           end
  end.

(** [arr[i] = v] for an index inside the array. *)
Fixpoint set_nth {A : Type} (i : nat) (v : A) (arr : list A) : list A :=
  match arr, i with
  | [], _ => []
  | _ :: rest, O => v :: rest
  | x :: rest, S j => x :: set_nth j v rest
  end.

(** [arr.sort(cmp)] is a stable sort; [before x y] says [cmp(x, y) <= 0],
    that is, [x] may stay in front of [y]. *)
Section Sort.
Context {A : Type} (before : A -> A -> bool).

Fixpoint insert_sorted (x : A) (l : list A) : list A :=
  match l with
  | [] => [x]
  | y :: rest =>
      if before x y then x :: y :: rest
      else y :: insert_sorted x rest
  end.

Fixpoint sort (l : list A) : list A :=
  match l with
  | [] => []
  | x :: rest => insert_sorted x (sort rest)
  end.
End Sort.

End JS.

(** ** Data model *)

(** An entry of [product.priceHistory]. *)
Record PriceChangeEntry := mkEntry {
  date : Z;
  oldPrice : Q;
  newPrice : Q;
  user : string;
  reason : string
}.

(** A product record of the catalog. *)
Record Product := mkProduct {
  id : Z;
  name : string;
  category : string;
  stock : Q;
  price : Q;
  purchasePrice : option Q;
  previousPrice : option Q;
  profitMargin : option Q;
  minSellingPrice : option Q;
  discountType : option string;
  discountValue : option Q;
  discountStartDate : option Z;
  discountEndDate : option Z;
  discountPriority : option Z;
  lastUpdated : option Z;
  priceHistory : option (list PriceChangeEntry)
}.

(** ** Margin and discount calculator *)

Module Metrics.
Record t := mk {
  minSellingPrice : Q;
  profitMargin : Q;
  finalPrice : Q
}.
End Metrics.

(** [calculateProfitMetrics(productData)]. *)
Definition calculateProfitMetrics (productData : Product) : Metrics.t :=
  let price := JS.parseFloat_or (Some (price productData)) 0 in
  let purchasePrice := JS.parseFloat_or (purchasePrice productData) 0 in
  let discountValue := JS.parseFloat_or (discountValue productData) 0 in
  let finalPrice :=
    if JS.ltb 0 discountValue then
      if JS.str_is (discountType productData) "Percentage"
      then price - (price * discountValue / 100)
      else price - discountValue
    else price in
  let finalPrice := JS.Math_max 0 finalPrice in
  let minSellingPrice :=
    if JS.ltb 0 purchasePrice then purchasePrice * (11 # 10) else 0 in
  let profitMargin :=
    if JS.ltb 0 purchasePrice && JS.ltb 0 finalPrice
    then ((finalPrice - purchasePrice) / purchasePrice) * 100
    else 0 in
  {| Metrics.minSellingPrice := JS.round2 minSellingPrice;
     Metrics.profitMargin := JS.round2 profitMargin;
     Metrics.finalPrice := JS.round2 finalPrice |}.

(** ** Bulk-update request validation *)

(** The [updateData] object of a bulk price update. *)
Module Req.
Record t := mk {
  strategy : option string;
  value : option Q;
  minPrice : option Q;
  maxPrice : option Q;
  category : string;
  applyToLowStock : bool;
  stockThreshold : option Q;
  activeTab : option string;
  categoryDiscount : bool;
  discountType : option string;
  discountValue : option Q;
  discountStartDate : option Z;
  discountEndDate : option Z;
  conflictResolution : option string
}.
End Req.

(** The [{ isValid, error }] object returned by the validators. *)
Record Validation := mkValidation {
  isValid : bool;
  error : option string
}.

Definition invalid (msg : string) : Validation :=
  {| isValid := false; error := Some msg |}.

Definition valid : Validation :=
  {| isValid := true; error := None |}.

(** [parseFloat(a) >= parseFloat(b)]; false when either side is NaN. *)
Definition parseFloat_geb (a b : option Q) : bool :=
  match a, b with
  | Some x, Some y => JS.leb y x
  | _, _ => false
  end.

(** [isNaN(parseFloat(v))]. *)
Definition isNaN_parseFloat (v : option Q) : bool :=
  match v with Some _ => false | None => true end.

(** [validateBulkPriceUpdate(updateData)]. *)
Definition validateBulkPriceUpdate (updateData : Req.t) : Validation :=
  match Req.strategy updateData with
  | None => invalid "Update strategy is required"
  | Some strategy =>
      if String.eqb strategy "" then invalid "Update strategy is required"
      else if String.eqb strategy "range" then
        if negb (JS.truthy (Req.minPrice updateData))
           || negb (JS.truthy (Req.maxPrice updateData))
        then invalid "Both minimum and maximum prices are required for range strategy"
        else if parseFloat_geb (Req.minPrice updateData) (Req.maxPrice updateData)
        then invalid "Minimum price must be less than maximum price"
        else valid
      else
        if negb (JS.truthy (Req.value updateData))
        then invalid "Update value is required"
        else if isNaN_parseFloat (Req.value updateData)
        then invalid "Update value must be a valid number"
        else valid
  end.

(** ** The store and its effects *)

(** [this.products] together with the clock read by [new Date()]. *)
Record Store := mkStore {
  products : list Product;
  clock : Z
}.

(** How a method call ends: with a value, or with a thrown [Error]. *)
Inductive completion (A : Type) : Type :=
| Normal (a : A)
| Thrown (message : string).
Arguments Normal {A} a.
Arguments Thrown {A} message.

(** A computation over the store.  The store comes back in both cases. *)
Definition Eff (A : Type) : Type := Store -> completion A * Store.

Definition ret {A : Type} (a : A) : Eff A := fun st => (Normal a, st).

Definition bind {A B : Type} (c : Eff A) (k : A -> Eff B) : Eff B :=
  fun st =>
    match c st with
    | (Normal a, st') => k a st'
    | (Thrown msg, st') => (Thrown msg, st')
    end.

Definition throw {A : Type} (msg : string) : Eff A :=
  fun st => (Thrown msg, st).

(** [try { c } catch (error) { handler(error.message) }]. *)
Definition try_catch {A : Type} (c : Eff A) (handler : string -> Eff A) : Eff A :=
  fun st =>
    match c st with
    | (Normal a, st') => (Normal a, st')
    | (Thrown msg, st') => handler msg st'
    end.

Definition get_products : Eff (list Product) :=
  fun st => (Normal (products st), st).

Definition set_products (ps : list Product) : Eff unit :=
  fun st => (Normal tt, {| products := ps; clock := clock st |}).

(** [new Date()] / [Date.now()]. *)
Definition now : Eff Z := fun st => (Normal (clock st), st).

(** [await this.delay(ms)]. *)
Definition delay (ms : Z) : Eff unit :=
  fun st => (Normal tt, {| products := products st; clock := (clock st + ms)%Z |}).

Declare Scope eff_scope.
Delimit Scope eff_scope with eff.
Notation "x <- c ;; k" := (bind c (fun x => k))
  (at level 61, c at next level, right associativity) : eff_scope.
Notation "c ;; k" := (bind c (fun _ => k))
  (at level 61, right associativity) : eff_scope.
Local Open Scope eff_scope.

(** [for (const x of xs) { s = body(x, s) }], with the loop's local
    variables gathered in [s]. *)
Fixpoint for_of {A S : Type} (xs : list A) (body : A -> S -> Eff S) (s : S) : Eff S :=
  match xs with
  | [] => ret s
  | x :: rest => s' <- body x s ;; for_of rest body s'
  end.

(** ** Single-record update *)

(** The [productData] patch of [update]: the fields a caller supplies, and
    the three that [update] writes into it before the spread. *)
Module Patch.
Record t := mk {
  price : option Q;
  purchasePrice : option Q;
  stock : option Q;
  previousPrice : option Q;
  lastUpdated : option Z;
  priceHistory : option (list PriceChangeEntry)
}.
End Patch.

(** A property of [{ ...earlier, ...later }]: the later object's when it
    has one, the earlier object's otherwise. *)
Definition over {A : Type} (later earlier : option A) : option A :=
  match later with
  | Some v => Some v
  | None => earlier
  end.

(** [{ ...current, ...productData, id: current.id }]. *)
Definition spread (current : Product) (productData : Patch.t) : Product :=
  {| id := id current;
     name := name current;
     category := category current;
     stock := match Patch.stock productData with Some s => s | None => stock current end;
     price := match Patch.price productData with Some p => p | None => price current end;
     purchasePrice := over (Patch.purchasePrice productData) (purchasePrice current);
     previousPrice := over (Patch.previousPrice productData) (previousPrice current);
     profitMargin := profitMargin current;
     minSellingPrice := minSellingPrice current;
     discountType := discountType current;
     discountValue := discountValue current;
     discountStartDate := discountStartDate current;
     discountEndDate := discountEndDate current;
     discountPriority := discountPriority current;
     lastUpdated := over (Patch.lastUpdated productData) (lastUpdated current);
     priceHistory := over (Patch.priceHistory productData) (priceHistory current) |}.

Definition with_profitMargin (p : Product) (m : Q) : Product :=
  {| id := id p; name := name p; category := category p; stock := stock p;
     price := price p; purchasePrice := purchasePrice p;
     previousPrice := previousPrice p; profitMargin := Some m;
     minSellingPrice := minSellingPrice p; discountType := discountType p;
     discountValue := discountValue p;
     discountStartDate := discountStartDate p;
     discountEndDate := discountEndDate p;
     discountPriority := discountPriority p; lastUpdated := lastUpdated p;
     priceHistory := priceHistory p |}.

(** [productData.price !== undefined && productData.price !== current]. *)
Definition price_changes (productData : Patch.t) (currentProduct : Product) : bool :=
  match Patch.price productData with
  | Some p => negb (JS.eqb p (price currentProduct))
  | None => false
  end.

(** The price-tracking block of [update]: the patch after it, carrying the
    previous price, the timestamp and the current product's history with
    one entry pushed. *)
Definition track_price_change (t : Z) (currentProduct : Product)
    (productData : Patch.t) : Patch.t :=
  match Patch.price productData with
  | Some p =>
      if negb (JS.eqb p (price currentProduct)) then
        let history :=
          match priceHistory currentProduct with
          | Some h => h
          | None => []
          end in
        let history := (history ++
          [ {| date := t; oldPrice := price currentProduct; newPrice := p;
               user := "Admin"; reason := "Manual update" |} ])%list in
        {| Patch.price := Patch.price productData;
           Patch.purchasePrice := Patch.purchasePrice productData;
           Patch.stock := Patch.stock productData;
           Patch.previousPrice := Some (price currentProduct);
           Patch.lastUpdated := Some t;
           Patch.priceHistory := Some history |}
      else productData
  | None => productData
  end.

(** The margin block of [update]. *)
Definition recompute_margin (updatedProduct : Product) : Product :=
  match purchasePrice updatedProduct with
  | Some pp =>
      if JS.truthy_num (price updatedProduct) && JS.truthy_num pp then
        let margin := ((price updatedProduct - pp) / pp) * 100 in
        with_profitMargin updatedProduct (JS.round2 margin)
      else updatedProduct
  | None => updatedProduct
  end.

(** [update(id, productData)]. *)
Definition update (id' : Z) (productData : Patch.t) : Eff Product :=
  delay 150 ;;
  ps <- get_products ;;
  match JS.findIndex (fun p => (id p =? id')%Z) ps with
  | None => throw "Product not found"
  | Some index =>
      if JS.opt_leb_l (Patch.price productData) 0
      then throw "Price must be greater than 0"
      else if match Patch.stock productData with
              | Some s => JS.ltb s 0
              | None => false
              end
      then throw "Stock cannot be negative"
      else if match Patch.price productData, Patch.purchasePrice productData with
              | Some p, Some pp => JS.leb p pp
              | _, _ => false
              end
      then throw "Selling price must be greater than purchase price"
      else
        match nth_error ps index with
        | None => throw "Product not found"
        | Some currentProduct =>
            t <- now ;;
            let productData := track_price_change t currentProduct productData in
            let updatedProduct := recompute_margin (spread currentProduct productData) in
            set_products (JS.set_nth index updatedProduct ps) ;;
            ret updatedProduct
        end
  end.

(** ** Bulk price update

    The class declares [bulkUpdatePrices] twice; the second declaration
    (the one with category discounts and conflict resolution) replaces the
    first and is the method the service has.  It is the one embedded. *)

Module Bulk.
(** The loop's local variables. *)
Record locals := mkLocals {
  updatedCount : nat;
  conflictProducts : list Product
}.

(** The summary the method returns. *)
Module Report.
Record t := mk {
  updatedCount : nat;
  totalFiltered : nat;
  conflictCount : nat;
  strategy : string;
  conflictProducts : list Product
}.
End Report.
End Bulk.

(** A number known to be present (read after a [> 0] test on it). *)
Definition number_of (v : option Q) : Q :=
  match v with Some q => q | None => 0 end.

(** "Handle pricing updates": the price the strategy asks for. *)
Definition pricing_update (updateData : Req.t) (originalPrice : Q) : Q :=
  if JS.str_is (Req.activeTab updateData) "pricing" then
    match Req.strategy updateData with
    | Some strategy =>
        if String.eqb strategy "percentage" then
          let percentage := JS.parseFloat_or (Req.value updateData) 0 in
          originalPrice * (1 + percentage / 100)
        else if String.eqb strategy "fixed" then
          let fixedAmount := JS.parseFloat_or (Req.value updateData) 0 in
          originalPrice + fixedAmount
        else if String.eqb strategy "range" then
          let minPrice := JS.parseFloat_or (Req.minPrice updateData) 0 in
          let maxPrice := JS.parseFloat_or (Req.maxPrice updateData) originalPrice in
          JS.Math_min (JS.Math_max originalPrice minPrice) maxPrice
        else originalPrice
    | None => originalPrice
    end
  else originalPrice.

(** The [switch (updateData.conflictResolution)] on a product that already
    carries a discount: [(shouldUpdate, pushed)] where [pushed] says that
    the product went into [conflictProducts]. *)
Definition resolve_conflict (updateData : Req.t) (product : Product) : bool * bool :=
  let originalPrice := price product in
  let existingDiscountValue := number_of (discountValue product) in
  let discountValue := JS.parseFloat_or (Req.discountValue updateData) 0 in
  match Req.conflictResolution updateData with
  | Some resolution =>
      if String.eqb resolution "skip" then (false, true)
      else if String.eqb resolution "override" then (true, false)
      else if String.eqb resolution "merge" then
        if JS.str_is (Req.discountType updateData) "percentage" then
          let newDiscountAmount := originalPrice * discountValue / 100 in
          let existingDiscountAmount :=
            if JS.str_is (discountType product) "Percentage"
            then originalPrice * existingDiscountValue / 100
            else existingDiscountValue in
          if JS.leb newDiscountAmount existingDiscountAmount
          then (false, false)
          else (true, false)
        else (true, false)
      else (true, false)
  | None => (true, false)
  end.

(** "Handle category-wide discounts": [(newPrice, shouldUpdate, pushed)]
    after the block, entered with the price of the pricing block. *)
Definition category_discount (updateData : Req.t) (product : Product)
    (newPrice : Q) : Q * bool * bool :=
  let originalPrice := price product in
  if JS.str_is (Req.activeTab updateData) "discounts"
     && Req.categoryDiscount updateData
  then
    let '(shouldUpdate, pushed) :=
      if JS.gt0 (discountValue product)
      then resolve_conflict updateData product
      else (true, false) in
    let discountValue := JS.parseFloat_or (Req.discountValue updateData) 0 in
    let newPrice :=
      if shouldUpdate && JS.ltb 0 discountValue then
        if JS.str_is (Req.discountType updateData) "percentage"
        then originalPrice * (1 - discountValue / 100)
        else originalPrice - discountValue
      else newPrice in
    (newPrice, shouldUpdate, pushed)
  else (newPrice, true, false).

(** "Apply min/max price guards", then "Ensure price is within acceptable
    range". *)
Definition price_guards (updateData : Req.t) (newPrice : Q) : Q :=
  let newPrice :=
    match Req.minPrice updateData with
    | Some m => if JS.truthy_num m && JS.ltb newPrice m then m else newPrice
    | None => newPrice
    end in
  let newPrice :=
    match Req.maxPrice updateData with
    | Some m => if JS.truthy_num m && JS.ltb m newPrice then m else newPrice
    | None => newPrice
    end in
  JS.Math_max 1 (JS.Math_min newPrice 100000).

(** The record written back on a commit:
    [{ ...current, previousPrice: originalPrice, price: round2(newPrice) }],
    with the request's discount fields when a category discount is applied. *)
Definition committed_record (updateData : Req.t) (current : Product)
    (originalPrice newPrice : Q) : Product :=
  let discounting :=
    JS.str_is (Req.activeTab updateData) "discounts"
    && Req.categoryDiscount updateData in
  {| id := id current;
     name := name current;
     category := category current;
     stock := stock current;
     price := JS.round2 newPrice;
     purchasePrice := purchasePrice current;
     previousPrice := Some originalPrice;
     profitMargin := profitMargin current;
     minSellingPrice := minSellingPrice current;
     discountType :=
       if discounting then Req.discountType updateData
       else discountType current;
     discountValue :=
       if discounting
       then Some (JS.parseFloat_or (Req.discountValue updateData) 0)
       else discountValue current;
     discountStartDate :=
       if discounting then Req.discountStartDate updateData
       else discountStartDate current;
     discountEndDate :=
       if discounting then Req.discountEndDate updateData
       else discountEndDate current;
     discountPriority := discountPriority current;
     lastUpdated := lastUpdated current;
     priceHistory := priceHistory current |}.

(** The price the loop body settles on for [product], and whether it may
    be written: [(newPrice, shouldUpdate, pushed)]. *)
Definition decide_price (updateData : Req.t) (product : Product) : Q * bool * bool :=
  let originalPrice := price product in
  let newPrice := pricing_update updateData originalPrice in
  let '(newPrice, shouldUpdate, pushed) :=
    category_discount updateData product newPrice in
  (price_guards updateData newPrice, shouldUpdate, pushed).

(** One iteration of [for (const product of filteredProducts)]. *)
Definition bulk_iteration (updateData : Req.t) (product : Product)
    (s : Bulk.locals) : Eff Bulk.locals :=
  let originalPrice := price product in
  let '(newPrice, shouldUpdate, pushed) := decide_price updateData product in
  let conflictProducts :=
    if pushed then (Bulk.conflictProducts s ++ [product])%list
    else Bulk.conflictProducts s in
  if shouldUpdate && JS.ltb (1 # 100) (JS.Math_abs (newPrice - originalPrice)) then
    ps <- get_products ;;
    match JS.findIndex (fun p => (id p =? id product)%Z) ps with
    | Some productIndex =>
        match nth_error ps productIndex with
        | Some current =>
            let updatedProduct :=
              committed_record updateData current originalPrice newPrice in
            set_products (JS.set_nth productIndex updatedProduct ps) ;;
            ret {| Bulk.updatedCount := S (Bulk.updatedCount s);
                   Bulk.conflictProducts := conflictProducts |}
        | None =>
            ret {| Bulk.updatedCount := Bulk.updatedCount s;
                   Bulk.conflictProducts := conflictProducts |}
        end
    | None =>
        ret {| Bulk.updatedCount := Bulk.updatedCount s;
               Bulk.conflictProducts := conflictProducts |}
    end
  else
    ret {| Bulk.updatedCount := Bulk.updatedCount s;
           Bulk.conflictProducts := conflictProducts |}.

(** The two filters applied to [[...this.products]]. *)
Definition filter_products (updateData : Req.t) (ps : list Product) : list Product :=
  let filteredProducts := ps in
  let filteredProducts :=
    if negb (String.eqb (Req.category updateData) "all")
    then filter (fun p => String.eqb (category p) (Req.category updateData))
                filteredProducts
    else filteredProducts in
  if Req.applyToLowStock updateData
  then filter (fun p => JS.opt_leb_r (stock p) (Req.stockThreshold updateData))
              filteredProducts
  else filteredProducts.

(** [bulkUpdatePrices(updateData)]. *)
Definition bulkUpdatePrices (updateData : Req.t) : Eff Bulk.Report.t :=
  delay 500 ;;
  let validation := validateBulkPriceUpdate updateData in
  if negb (isValid validation) then
    throw (match error validation with Some msg => msg | None => "" end)
  else
    ps <- get_products ;;
    let filteredProducts := filter_products updateData ps in
    s <- for_of filteredProducts (bulk_iteration updateData)
           {| Bulk.updatedCount := 0; Bulk.conflictProducts := [] |} ;;
    ret {| Bulk.Report.updatedCount := Bulk.updatedCount s;
           Bulk.Report.totalFiltered := List.length filteredProducts;
           Bulk.Report.conflictCount := List.length (Bulk.conflictProducts s);
           Bulk.Report.strategy :=
             match Req.strategy updateData with
             | Some strategy =>
                 if String.eqb strategy "" then "category_discount" else strategy
             | None => "category_discount"
             end;
           Bulk.Report.conflictProducts := firstn 5 (Bulk.conflictProducts s) |}.

(** ** Offer-conflict detection *)

Inductive ConflictType : Type :=
| overlapping_dates
| excessive_discount
| invalid_discount
| low_profit_margin.

(** A pushed conflict.  Its [details] text is formatted from the fields
    kept here and is not modelled. *)
Module Conflict.
Record t := mk {
  type : ConflictType;
  productId : option Z;
  productName : option string
}.
End Conflict.

(** The two warning texts, with the values their templates interpolate. *)
Inductive Warning : Type :=
| very_low_final_price
| same_priority_level (count : nat) (category : string).

Module Offer.
Record t := mk {
  isValid : bool;
  conflicts : list Conflict.t;
  warnings : list Warning;
  error : option string
}.
End Offer.

(** [p.id !== excludeId]. *)
Definition id_differs (p : Product) (excludeId : option Z) : bool :=
  match excludeId with
  | Some e => negb (id p =? e)%Z
  | None => true
  end.

(** [newStart <= existingEnd && newEnd >= existingStart] on the four
    dates, all present where this is evaluated. *)
Definition windows_overlap (newStart newEnd existingStart existingEnd : option Z) : bool :=
  match newStart, newEnd, existingStart, existingEnd with
  | Some ns, Some ne, Some es, Some ee => (ns <=? ee)%Z && (es <=? ne)%Z
  | _, _, _, _ => false
  end.

(** The price after the discount, as both discount blocks compute it. *)
Definition discounted_price (price' discountValue' : Q) (discountType' : string) : Q :=
  if String.eqb discountType' "Percentage"
  then price' - (price' * discountValue' / 100)
  else price' - discountValue'.

(** "Check for overlapping date ranges with same category products": the
    conflicts that block pushes. *)
Definition date_overlap_conflicts (productData : Product)
    (allProducts : list Product) (excludeId : option Z) : list Conflict.t :=
  let discountValue' := JS.parseFloat_or (discountValue productData) 0 in
  let category' := category productData in
  let discountStartDate' := discountStartDate productData in
  let discountEndDate' := discountEndDate productData in
  if JS.ltb 0 discountValue'
     && JS.truthy_date discountStartDate'
     && JS.truthy_date discountEndDate'
  then
    let categoryProducts :=
      filter (fun p =>
                String.eqb (category p) category'
                && id_differs p excludeId
                && JS.gt0 (discountValue p)
                && JS.truthy_date (discountStartDate p)
                && JS.truthy_date (discountEndDate p))
             allProducts in
    flat_map (fun product =>
                if windows_overlap discountStartDate' discountEndDate'
                     (discountStartDate product) (discountEndDate product)
                then [ {| Conflict.type := overlapping_dates;
                          Conflict.productId := Some (id product);
                          Conflict.productName := Some (name product) |} ]
                else [])
             categoryProducts
  else [].

(** The body of [validateOfferConflicts] on a product object. *)
Definition offer_conflicts (productData : Product) (allProducts : list Product)
    (excludeId : option Z) : Offer.t :=
  let price := JS.parseFloat_or (Some (price productData)) 0 in
  let discountValue' := JS.parseFloat_or (discountValue productData) 0 in
  let discountType' :=
    match discountType productData with
    | Some t => if String.eqb t "" then "Fixed Amount" else t
    | None => "Fixed Amount"
    end in
  let category' := category productData in
  let conflicts := date_overlap_conflicts productData allProducts excludeId in
  (* excessive discount stacking *)
  let '(conflicts, warnings) :=
    if JS.ltb 0 discountValue' then
      let finalPrice := discounted_price price discountValue' discountType' in
      let warnings :=
        if JS.ltb finalPrice (price * (1 # 10))
        then [very_low_final_price] else [] in
      let conflicts :=
        if String.eqb discountType' "Percentage" && JS.ltb 90 discountValue'
        then (conflicts ++ [ {| Conflict.type := excessive_discount;
                                Conflict.productId := None;
                                Conflict.productName := None |} ])%list
        else conflicts in
      let conflicts :=
        if String.eqb discountType' "Fixed Amount" && JS.leb price discountValue'
        then (conflicts ++ [ {| Conflict.type := invalid_discount;
                                Conflict.productId := None;
                                Conflict.productName := None |} ])%list
        else conflicts in
      (conflicts, warnings)
    else (conflicts, []) in
  (* priority conflicts in the same category *)
  let priority := JS.parseInt_or (discountPriority productData) 1 in
  let samePriorityProducts :=
    filter (fun p =>
              String.eqb (category p) category'
              && id_differs p excludeId
              && match discountPriority p with
                 | Some k => (k =? priority)%Z
                 | None => false
                 end
              && JS.gt0 (discountValue p))
           allProducts in
  let warnings :=
    if (0 <? List.length samePriorityProducts)%nat
    then (warnings ++ [same_priority_level (List.length samePriorityProducts) category'])%list
    else warnings in
  (* minimum profit margin compliance *)
  let purchasePrice := JS.parseFloat_or (purchasePrice productData) 0 in
  let conflicts :=
    if JS.ltb 0 purchasePrice && JS.ltb 0 discountValue' then
      let finalPrice := discounted_price price discountValue' discountType' in
      let profitMargin := ((finalPrice - purchasePrice) / purchasePrice) * 100 in
      if JS.ltb profitMargin 5
      then (conflicts ++ [ {| Conflict.type := low_profit_margin;
                              Conflict.productId := None;
                              Conflict.productName := None |} ])%list
      else conflicts
    else conflicts in
  let isValid := (List.length conflicts =? 0)%nat in
  {| Offer.isValid := isValid;
     Offer.conflicts := conflicts;
     Offer.warnings := warnings;
     Offer.error := if isValid then None else Some "Offer conflicts detected" |}.

(** [validateOfferConflicts(productData, allProducts, excludeId)];
    [productData] is [None] for a falsy argument. *)
Definition validateOfferConflicts (productData : option Product)
    (allProducts : list Product) (excludeId : option Z) : Eff Offer.t :=
  delay 200 ;;
  match productData with
  | None =>
      ret {| Offer.isValid := false; Offer.conflicts := []; Offer.warnings := [];
             Offer.error := Some "Invalid product data" |}
  | Some productData => ret (offer_conflicts productData allProducts excludeId)
  end.

(** Whether a result reports an [overlapping_dates] conflict. *)
Definition reports_overlap (r : Offer.t) : bool :=
  existsb (fun c => match Conflict.type c with
                    | overlapping_dates => true
                    | _ => false
                    end)
          (Offer.conflicts r).

(** ** Price history *)

(** The comparator [(a, b) => new Date(b.date) - new Date(a.date)] leaves
    [a] in front of [b] when [b] is not more recent. *)
Definition newest_first (a b : PriceChangeEntry) : bool := (date b <=? date a)%Z.

Definition with_priceHistory (p : Product) (h : list PriceChangeEntry) : Product :=
  {| id := id p; name := name p; category := category p; stock := stock p;
     price := price p; purchasePrice := purchasePrice p;
     previousPrice := previousPrice p; profitMargin := profitMargin p;
     minSellingPrice := minSellingPrice p; discountType := discountType p;
     discountValue := discountValue p;
     discountStartDate := discountStartDate p;
     discountEndDate := discountEndDate p;
     discountPriority := discountPriority p; lastUpdated := lastUpdated p;
     priceHistory := Some h |}.

Definition day_ms : Z := 24 * 60 * 60 * 1000.

(** "Generate mock price history if none exists", before the final sort;
    [t] is [Date.now()]. *)
Definition mockHistory (t : Z) (product : Product) : list PriceChangeEntry :=
  let first :=
    match previousPrice product with
    | Some pp =>
        if JS.truthy_num pp && negb (JS.eqb pp (price product))
        then [ {| date := (t - day_ms)%Z; oldPrice := pp;
                  newPrice := price product;
                  user := "Admin"; reason := "Price adjustment" |} ]
        else []
    | None => []
    end in
  let second :=
    if JS.ltb 100 (price product)
    then [ {| date := (t - 7 * day_ms)%Z;
              oldPrice := price product * (9 # 10);
              newPrice := if JS.truthy (previousPrice product)
                          then number_of (previousPrice product)
                          else price product;
              user := "System"; reason := "Seasonal adjustment" |} ]
    else [] in
  (first ++ second)%list.

(** [getPriceHistory(productId)].  [Array.prototype.sort] sorts the stored
    array in place, so the store keeps the sorted history. *)
Definition getPriceHistory (productId : Z) : Eff (list PriceChangeEntry) :=
  delay 300 ;;
  ps <- get_products ;;
  match JS.findIndex (fun p => (id p =? productId)%Z) ps with
  | None => throw "Product not found"
  | Some index =>
      match nth_error ps index with
      | None => throw "Product not found"
      | Some product =>
          match priceHistory product with
          | Some (e :: h) =>
              let sorted := JS.sort newest_first (e :: h) in
              set_products (JS.set_nth index (with_priceHistory product sorted) ps) ;;
              ret sorted
          | _ =>
              t <- now ;;
              ret (JS.sort newest_first (mockHistory t product))
          end
      end
  end.

(** ** Partial batch update *)

Module PartialUpdate.
(** An element of the [updates] list. *)
Record t := mk {
  productId : Z;
  basePrice : option Q;
  costPrice : option Q
}.
End PartialUpdate.

Module Batch.
(** An element of the [errors] list. *)
Record failure := mkFailure {
  productId : Z;
  error : string
}.

(** The loop's local variables. *)
Record locals := mkLocals {
  successCount : nat;
  errors : list failure
}.

(** The summary the method returns. *)
Module Summary.
Record t := mk {
  successCount : nat;
  totalUpdates : nat;
  errors : list failure
}.
End Summary.

Definition fail (s : locals) (pid : Z) (msg : string) : locals :=
  {| successCount := successCount s;
     errors := (errors s ++ [ {| productId := pid; error := msg |} ])%list |}.

Definition succeed (s : locals) : locals :=
  {| successCount := S (successCount s); errors := errors s |}.
End Batch.

(** One iteration of [for (const update of updates)], the [try] and its
    [catch]. *)
Definition partial_iteration (update' : PartialUpdate.t) (s : Batch.locals)
    : Eff Batch.locals :=
  try_catch
    (let productId := PartialUpdate.productId update' in
     let updateData :=
       {| Patch.price := PartialUpdate.basePrice update';
          Patch.purchasePrice := PartialUpdate.costPrice update';
          Patch.stock := None;
          Patch.previousPrice := None;
          Patch.lastUpdated := None;
          Patch.priceHistory := None |} in
     if JS.opt_leb_l (Patch.price updateData) 0 then
       ret (Batch.fail s productId "Base price must be greater than 0")
     else if match Patch.purchasePrice updateData, Patch.price updateData with
             | Some pp, Some p => JS.leb p pp
             | _, _ => false
             end
     then ret (Batch.fail s productId "Base price must be greater than cost price")
     else
       update productId updateData ;;
       ret (Batch.succeed s))
    (fun message =>
       ret (Batch.fail s (PartialUpdate.productId update') message)).

(** [bulkPartialUpdate(updates)]. *)
Definition bulkPartialUpdate (updates : list PartialUpdate.t) : Eff Batch.Summary.t :=
  delay 800 ;;
  s <- for_of updates partial_iteration
         {| Batch.successCount := 0; Batch.errors := [] |} ;;
  ret {| Batch.Summary.successCount := Batch.successCount s;
         Batch.Summary.totalUpdates := List.length updates;
         Batch.Summary.errors := Batch.errors s |}.


(** ** Profit rules and financial health *)

(** [productData.discountType || 'Fixed Amount']. *)
Definition discountType_or_fixed (productData : Product) : string :=
  match discountType productData with
  | Some t => if String.eqb t "" then "Fixed Amount" else t
  | None => "Fixed Amount"
  end.

(** [validateProfitRules(productData)]. *)
Definition validateProfitRules (productData : Product) : Validation :=
  let purchasePrice := JS.parseFloat_or (purchasePrice productData) 0 in
  let price := JS.parseFloat_or (Some (price productData)) 0 in
  let discountValue := JS.parseFloat_or (discountValue productData) 0 in
  let discountType := discountType_or_fixed productData in
  if JS.ltb price 1 then invalid "Price cannot be less than Rs. 1"
  else if JS.ltb 100000 price then invalid "Price cannot exceed Rs. 100,000"
  else if JS.ltb 0 purchasePrice && JS.leb price purchasePrice
  then invalid "Selling price must be greater than purchase price"
  else if JS.ltb 0 discountValue then
    if String.eqb discountType "Percentage" && JS.ltb 90 discountValue
    then invalid "Percentage discount cannot exceed 90%"
    else if String.eqb discountType "Fixed Amount" && JS.leb price discountValue
    then invalid "Fixed discount cannot be equal to or greater than the product price"
    else
      let finalPrice := discounted_price price discountValue discountType in
      if JS.ltb 0 purchasePrice && JS.leb finalPrice purchasePrice
      then invalid "Discounted price cannot be equal to or less than purchase price"
      else if JS.ltb 0 purchasePrice then
        let margin := ((finalPrice - purchasePrice) / purchasePrice) * 100 in
        if JS.ltb margin 5
        then invalid "Profit margin after discount should be at least 5% for sustainable business"
        else valid
      else valid
  else if JS.ltb 0 purchasePrice then
    let margin := ((price - purchasePrice) / purchasePrice) * 100 in
    if JS.ltb margin 5
    then invalid "Profit margin should be at least 5% for sustainable business"
    else valid
  else valid.

(** [getFinancialHealth(product)]; [None] is a falsy argument. *)
Definition getFinancialHealth (product : option Product) : string :=
  match product with
  | None => "unknown"
  | Some product =>
      let margin := JS.parseFloat_or (profitMargin product) 0 in
      if JS.leb 25 margin then "excellent"
      else if JS.leb 15 margin then "good"
      else if JS.leb 5 margin then "fair"
      else if JS.ltb 0 margin then "poor"
      else "loss"
  end.

(** The object [getDisplayMetrics] returns: the computed metrics and the
    three flags. *)
Module Display.
Record t := mk {
  metrics : Metrics.t;
  hasMetrics : bool;
  isHealthyMargin : bool;
  isProfitable : bool
}.
End Display.

(** [getDisplayMetrics(product)]; the result [None] is [null]. *)
Definition getDisplayMetrics (product : option Product) : option Display.t :=
  match product with
  | None => None
  | Some product =>
      let metrics := calculateProfitMetrics product in
      Some {| Display.metrics := metrics;
              Display.hasMetrics :=
                JS.truthy (profitMargin product)
                || JS.truthy (minSellingPrice product)
                || JS.truthy (purchasePrice product);
              Display.isHealthyMargin :=
                JS.ltb 15 (JS.parseFloat_or (profitMargin product) 0);
              Display.isProfitable :=
                JS.ltb 0 (JS.parseFloat_or (profitMargin product) 0) |}
  end.

(** ** Catalog store: create, read, delete *)

(** The binary64 number nearest to the integer [z], an exact tie going to
    the even significand.  Integers up to [2^53] in magnitude are numbers
    themselves; above, the numbers are [2^(log2 |z| - 52)] apart.  The
    overflow to [Infinity] is outside the model. *)
Definition binary64_round (z : Z) : Z :=
  let a := Z.abs z in
  if (a <=? 2 ^ 53)%Z then z
  else
    let ulp := (2 ^ (Z.log2 a - 52))%Z in
    let q := (a / ulp)%Z in
    let r := (a mod ulp)%Z in
    let q' :=
      if (2 * r <? ulp)%Z then q
      else if (ulp <? 2 * r)%Z then (q + 1)%Z
      else if Z.even q then q else (q + 1)%Z in
    (Z.sgn z * (q' * ulp))%Z.

(** [x + y] on two integer-valued numbers: the exact sum, rounded to a
    number. *)
Definition number_add (x y : Z) : Z := binary64_round (x + y).

(** [getNextId()]: the largest of 0 and the ids, plus one. *)
Definition getNextId : Eff Z :=
  ps <- get_products ;;
  let maxId :=
    fold_left (fun max product => if (max <? id product)%Z then id product else max)
              ps 0%Z in
  ret (number_add maxId 1).

(** The [productData] object of [create].  The stock is an integer, so
    [parseInt] gives it back; a property [id] of the data, when present,
    overrides the generated one in the object literal.  Properties the
    [Product] record does not carry (sku, barcode, images, minStock,
    isActive) are not modelled. *)
Module NewProduct.
Record t := mk {
  id : option Z;
  name : option string;
  category : string;
  price : option Q;
  stock : option Z;
  purchasePrice : option Q;
  discountValue : option Q;
  minSellingPrice : option Q;
  profitMargin : option Q;
  discountType : option string;
  discountStartDate : option Z;
  discountEndDate : option Z;
  discountPriority : option Z
}.
End NewProduct.

(** [!productData.name]. *)
Definition falsy_string (s : option string) : bool :=
  match s with
  | Some t => String.eqb t ""
  | None => true
  end.

(** [create(productData)]. *)
Definition create (productData : NewProduct.t) : Eff Product :=
  delay 150 ;;
  match NewProduct.price productData, NewProduct.stock productData with
  | Some price', Some stock' =>
      if falsy_string (NewProduct.name productData) || negb (JS.truthy_num price')
      then throw "Name, price, and stock are required fields"
      else if JS.leb price' 0 then throw "Price must be greater than 0"
      else if (stock' <? 0)%Z then throw "Stock cannot be negative"
      else
        nextId <- getNextId ;;
        let newProduct :=
          {| id := match NewProduct.id productData with
                   | Some own => own
                   | None => nextId
                   end;
             name := match NewProduct.name productData with
                     | Some n => n
                     | None => ""
                     end;
             category := NewProduct.category productData;
             stock := inject_Z stock';
             price := price';
             purchasePrice :=
               Some (JS.parseFloat_or (NewProduct.purchasePrice productData) 0);
             previousPrice := None;
             profitMargin :=
               Some (JS.parseFloat_or (NewProduct.profitMargin productData) 0);
             minSellingPrice :=
               Some (JS.parseFloat_or (NewProduct.minSellingPrice productData) 0);
             discountType := NewProduct.discountType productData;
             discountValue :=
               Some (JS.parseFloat_or (NewProduct.discountValue productData) 0);
             discountStartDate := NewProduct.discountStartDate productData;
             discountEndDate := NewProduct.discountEndDate productData;
             discountPriority := NewProduct.discountPriority productData;
             lastUpdated := None;
             priceHistory := None |} in
        ps <- get_products ;;
        set_products (ps ++ [newProduct])%list ;;
        ret newProduct
  | _, _ => throw "Name, price, and stock are required fields"
  end.

(** The rest pattern [{ purchasePrice, minSellingPrice, profitMargin,
    ...filteredProduct }]: the product without its financial fields. *)
Definition filteredProduct (p : Product) : Product :=
  {| id := id p; name := name p; category := category p; stock := stock p;
     price := price p; purchasePrice := None;
     previousPrice := previousPrice p; profitMargin := None;
     minSellingPrice := None; discountType := discountType p;
     discountValue := discountValue p;
     discountStartDate := discountStartDate p;
     discountEndDate := discountEndDate p;
     discountPriority := discountPriority p; lastUpdated := lastUpdated p;
     priceHistory := priceHistory p |}.

(** [getById(id, userRole)]. *)
Definition getById (id' : Z) (userRole : string) : Eff Product :=
  delay 150 ;;
  ps <- get_products ;;
  match find (fun p => (id p =? id')%Z) ps with
  | None => throw "Product not found"
  | Some product =>
      if negb (String.eqb userRole "admin")
      then ret (filteredProduct product)
      else ret product
  end.

(** [arr.splice(index, 1)]: the array without the element at [index]. *)
Fixpoint splice1 {A : Type} (index : nat) (arr : list A) : list A :=
  match arr, index with
  | [], _ => []
  | _ :: rest, O => rest
  | x :: rest, S i => x :: splice1 i rest
  end.

(** [delete(id)]. *)
Definition delete (id' : Z) : Eff bool :=
  delay 150 ;;
  ps <- get_products ;;
  match JS.findIndex (fun p => (id p =? id')%Z) ps with
  | None => throw "Product not found"
  | Some index =>
      set_products (splice1 index ps) ;;
      ret true
  end.

(** ** Image dimensions and cropping *)

Module Dims.
(** [{ width, height, aspectRatio }]; [aspectRatio] is absent in some
    results. *)
Record t := mk {
  width : Q;
  height : Q;
  aspectRatio : option string
}.
End Dims.

(** [calculateOptimalDimensions(originalWidth, originalHeight, targetWidth,
    targetHeight, enforceSquare)].  Division is the exact one; the
    JavaScript quotients by zero (Infinity, NaN) are outside the model. *)
Definition calculateOptimalDimensions
    (originalWidth originalHeight targetWidth targetHeight : Q)
    (enforceSquare : bool) : Dims.t :=
  let aspectRatio := originalWidth / originalHeight in
  let targetAspectRatio := targetWidth / targetHeight in
  if enforceSquare then
    let size := JS.Math_min targetWidth targetHeight in
    let constrainedSize := JS.Math_max 400 (JS.Math_min size 1200) in
    {| Dims.width := constrainedSize;
       Dims.height := constrainedSize;
       Dims.aspectRatio := Some "1:1" |}
  else
    let '(width, height) :=
      if JS.ltb targetAspectRatio aspectRatio
      then (targetWidth, targetWidth / aspectRatio)
      else (targetHeight * aspectRatio, targetHeight) in
    {| Dims.width := inject_Z (JS.Math_round width);
       Dims.height := inject_Z (JS.Math_round height);
       Dims.aspectRatio := None |}.

(** [getDynamicImageDimensions(viewportWidth, enforceSquare)]. *)
Definition getDynamicImageDimensions (viewportWidth : Q) (enforceSquare : bool)
    : Dims.t :=
  let baseSize :=
    if JS.ltb viewportWidth 640
    then JS.Math_max 400 (JS.Math_min (viewportWidth - 32) 500)
    else if JS.ltb viewportWidth 1024
    then JS.Math_max 500 (JS.Math_min (viewportWidth * (4 # 10)) 700)
    else JS.Math_max 600 (JS.Math_min (viewportWidth * (3 # 10)) 1200) in
  let constrainedSize := JS.Math_max 400 (JS.Math_min baseSize 1200) in
  if enforceSquare then
    {| Dims.width := constrainedSize;
       Dims.height := constrainedSize;
       Dims.aspectRatio := Some "1:1" |}
  else
    {| Dims.width := constrainedSize;
       Dims.height := constrainedSize;
       Dims.aspectRatio := None |}.

Module Region.
(** A detected region of interest. *)
Record t := mk {
  x : Q;
  y : Q;
  width : Q;
  height : Q;
  confidence : Q;
  type : string
}.
End Region.

Module Crop.
(** A crop rectangle. *)
Record t := mk {
  x : Q;
  y : Q;
  width : Q;
  height : Q
}.
End Crop.

(** [regions.reduce((max, region) =>
      region.confidence > max.confidence ? region : max)] on a non-empty
    array, whose first element starts the reduction. *)
Definition mainRegion (first : Region.t) (rest : list Region.t) : Region.t :=
  fold_left (fun max region =>
               if JS.ltb (Region.confidence max) (Region.confidence region)
               then region else max)
            rest first.

(** [calculateOptimalCrop(regions, targetDimensions)]. *)
Definition calculateOptimalCrop (regions : list Region.t)
    (targetDimensions : Dims.t) : Crop.t :=
  match regions with
  | [] =>
      {| Crop.x := 0; Crop.y := 0;
         Crop.width := Dims.width targetDimensions;
         Crop.height := Dims.height targetDimensions |}
  | first :: rest =>
      let mainRegion := mainRegion first rest in
      {| Crop.x := JS.Math_max 0 (Region.x mainRegion - 50);
         Crop.y := JS.Math_max 0 (Region.y mainRegion - 50);
         Crop.width :=
           JS.Math_min (Dims.width targetDimensions) (Region.width mainRegion + 100);
         Crop.height :=
           JS.Math_min (Dims.height targetDimensions) (Region.height mainRegion + 100) |}
  end.

(** ** The bulk price page's margin *)

(** [calculateMargin(basePrice, costPrice)] of the BulkPriceUpdate page. *)
Definition calculateMargin (basePrice costPrice : option Q) : Q :=
  let base := JS.parseFloat_or basePrice 0 in
  let cost := JS.parseFloat_or costPrice 0 in
  if JS.leb cost 0 || JS.leb base cost then 0
  else ((base - cost) / cost) * 100.
(** ** Definitions that follow the specification's words *)


(** [r] is [x] rounded to 2 decimals with an exact half going up: the
    multiple of 0.01 with [x - 0.005 < r <= x + 0.005]. *)
Definition rounds_half_up (x r : Q) : Prop :=
  (exists n : Z, r == inject_Z n / 100)
  /\ x - (1 # 200) < r /\ r <= x + (1 # 200).




(** A property that holds the number zero. *)
Definition is_zero (v : option Q) : Prop :=
  match v with
  | Some q => q == 0
  | None => False
  end.

(** A price inside the guard range. *)
Definition in_price_range (p : Q) : Prop := 1 <= p /\ p <= 100000.

(** Two products whose discount windows overlap, in the specification's
    words: same category, both carry a discount, both windows [s1, e1] and
    [s2, e2] are defined, and [s1 <= e2] and [s2 <= e1]. *)
Definition spec_windows_overlap (A B : Product) : Prop :=
  category A = category B
  /\ (exists dA, discountValue A = Some dA /\ 0 < dA)
  /\ (exists dB, discountValue B = Some dB /\ 0 < dB)
  /\ exists s1 e1 s2 e2,
       discountStartDate A = Some s1 /\ discountEndDate A = Some e1
       /\ discountStartDate B = Some s2 /\ discountEndDate B = Some e2
       /\ (s1 <= e2)%Z /\ (s2 <= e1)%Z.

(** [validateOfferConflicts(A, [B], null)], called in store [st], reports
    an [overlapping_dates] conflict. *)
Definition flags_overlap (A B : Product) (st : Store) : Prop :=
  exists r st',
    validateOfferConflicts (Some A) [B] None st = (Normal r, st')
    /\ reports_overlap r = true.

(** What a bulk price update may do to a stored record: leave it as it
    is or give it a price inside the guard range; the identity, the
    purchase price, the stored margin and the history stay. *)
Definition bulk_rewrite (old new : Product) : Prop :=
  (new = old \/ in_price_range (price new))
  /\ id new = id old
  /\ purchasePrice new = purchasePrice old
  /\ profitMargin new = profitMargin old
  /\ priceHistory new = priceHistory old.

(** [this.products.find(p => p.id === productId)] is [product]. *)
Definition found (productId : Z) (st : Store) (product : Product) : Prop :=
  exists index,
    JS.findIndex (fun p => (id p =? productId)%Z) (products st) = Some index
    /\ nth_error (products st) index = Some product.

(** [a] is not older than [b]. *)
Definition not_older (a b : PriceChangeEntry) : Prop := (date b <= date a)%Z.

(** A history listed most recent first: no entry is followed, anywhere
    later in the list, by a more recent one. *)
Definition most_recent_first (l : list PriceChangeEntry) : Prop :=
  StronglySorted not_older l.

(** A product with no recorded price-history entries. *)
Definition no_recorded_history (product : Product) : Prop :=
  priceHistory product = None \/ priceHistory product = Some [].

(** The filter of a bulk update on one record: the category test unless
    the request says "all", and the stock test when it is enabled. *)
Definition selected (updateData : Req.t) (p : Product) : bool :=
  (String.eqb (Req.category updateData) "all"
   || String.eqb (category p) (Req.category updateData))
  && (negb (Req.applyToLowStock updateData)
      || JS.opt_leb_r (stock p) (Req.stockThreshold updateData)).

(** The record a bulk update leaves in the place of [q] when its loop
    body runs on [q] and the store still holds [q]: the committed record
    when the body decides to write, [q] itself otherwise. *)
Definition bulk_outcome (updateData : Req.t) (q : Product) : Product :=
  let '(np, shouldUpdate, _) := decide_price updateData q in
  if shouldUpdate && JS.ltb (1 # 100) (JS.Math_abs (np - price q))
  then committed_record updateData q (price q) np
  else q.

(** A category-discount request on the discounts tab that resolves
    conflicts by [merge], brings a percentage discount, and passes
    [validateBulkPriceUpdate]. *)
Definition merge_percentage_request (updateData : Req.t) : Prop :=
  Req.activeTab updateData = Some "discounts"
  /\ Req.categoryDiscount updateData = true
  /\ Req.conflictResolution updateData = Some "merge"
  /\ Req.discountType updateData = Some "percentage"
  /\ isValid (validateBulkPriceUpdate updateData) = true.

(** The price reduction of the request's percentage discount on [p]
    ([newDiscountAmount]). *)
Definition new_reduction (updateData : Req.t) (p : Product) : Q :=
  price p * JS.parseFloat_or (Req.discountValue updateData) 0 / 100.

(** The price reduction of the discount [p] carries
    ([existingDiscountAmount]). *)
Definition existing_reduction (p : Product) : Q :=
  if JS.str_is (discountType p) "Percentage"
  then price p * number_of (discountValue p) / 100
  else number_of (discountValue p).

(** The price of [p] under the request's percentage discount, after the
    request's guards and the range clamp. *)
Definition merged_price (updateData : Req.t) (p : Product) : Q :=
  let discountValue := JS.parseFloat_or (Req.discountValue updateData) 0 in
  price_guards updateData
    (if JS.ltb 0 discountValue
     then price p * (1 - discountValue / 100)
     else price p).


(** The [updateData] object the batch loop builds for an entry: the base
    price as [price] and the cost price as [purchasePrice], each only
    when the entry has it. *)
Definition entry_patch (u : PartialUpdate.t) : Patch.t :=
  {| Patch.price := PartialUpdate.basePrice u;
     Patch.purchasePrice := PartialUpdate.costPrice u;
     Patch.stock := None;
     Patch.previousPrice := None;
     Patch.lastUpdated := None;
     Patch.priceHistory := None |}.

(** The error with which the batch loop turns an entry down before it
    calls [update]: a base price that is not positive, or one that is not
    above the cost price. *)
Definition entry_rejection (u : PartialUpdate.t) : option string :=
  match PartialUpdate.basePrice u with
  | Some b =>
      if JS.leb b 0 then Some "Base price must be greater than 0"
      else
        match PartialUpdate.costPrice u with
        | Some c =>
            if JS.leb b c
            then Some "Base price must be greater than cost price"
            else None
        | None => None
        end
  | None => None
  end.

(** The summary of a batch of one entry that failed with [msg], and of
    one that succeeded. *)
Definition one_failure (u : PartialUpdate.t) (msg : string) : Batch.Summary.t :=
  {| Batch.Summary.successCount := 0;
     Batch.Summary.totalUpdates := 1;
     Batch.Summary.errors :=
       [ {| Batch.productId := PartialUpdate.productId u;
            Batch.error := msg |} ] |}.

Definition one_success : Batch.Summary.t :=
  {| Batch.Summary.successCount := 1;
     Batch.Summary.totalUpdates := 1;
     Batch.Summary.errors := [] |}.

(** Two summaries put together: the counts added, the errors of the first
    before those of the second. *)
Definition joined (s1 s2 : Batch.Summary.t) : Batch.Summary.t :=
  {| Batch.Summary.successCount :=
       Batch.Summary.successCount s1 + Batch.Summary.successCount s2;
     Batch.Summary.totalUpdates :=
       Batch.Summary.totalUpdates s1 + Batch.Summary.totalUpdates s2;
     Batch.Summary.errors :=
       (Batch.Summary.errors s1 ++ Batch.Summary.errors s2)%list |}.

(** The store in which a batch has to be started in order to stand at
    [st] once its initial delay of 800 ms is over. *)
Definition before_delay (st : Store) : Store :=
  {| products := products st; clock := (clock st - 800)%Z |}.

(** The store once the initial delay of a batch is over. *)
Definition after_delay (st : Store) : Store :=
  {| products := products st; clock := (clock st + 800)%Z |}.
(** The price on which [validateProfitRules] checks the margin: the
    discounted price when the data carries a discount, the price itself
    otherwise. *)
Definition effective_price (productData : Product) : Q :=
  let discountValue := JS.parseFloat_or (discountValue productData) 0 in
  if JS.ltb 0 discountValue
  then discounted_price (price productData) discountValue
                        (discountType_or_fixed productData)
  else price productData.

(** The order of the health labels, worst first. *)
Definition health_rank (label : string) : nat :=
  if String.eqb label "excellent" then 4
  else if String.eqb label "good" then 3
  else if String.eqb label "fair" then 2
  else if String.eqb label "poor" then 1
  else 0.

(** What a bulk price update leaves in the place of a record: the record
    itself, or one whose price is more than half a hundredth away from
    the previous price it remembers. *)
Definition price_moved (old new : Product) : Prop :=
  new = old
  \/ exists o, previousPrice new = Some o /\ 1 # 200 < Qabs (price new - o).

(** The same, with the remembered price being the one the record had
    before. *)
Definition price_replaced (old new : Product) : Prop :=
  new = old
  \/ (previousPrice new = Some (price old)
      /\ 1 # 200 < Qabs (price new - price old)).


(** What a bulk price update with the guards [lo] and [hi] leaves in the
    place of a record: the record itself, or one priced between the two
    guards as the final rounding shows them. *)
Definition price_within (lo hi : Q) (old new : Product) : Prop :=
  new = old \/ (JS.round2 lo <= price new /\ price new <= JS.round2 hi).

(** The products a bulk update sets aside as conflicts: a category-wide
    discount on the discounts tab meets a product that already carries a
    discount, and the request resolves conflicts by skipping. *)
Definition skipped (updateData : Req.t) (product : Product) : bool :=
  JS.str_is (Req.activeTab updateData) "discounts"
  && Req.categoryDiscount updateData
  && JS.gt0 (discountValue product)
  && JS.str_is (Req.conflictResolution updateData) "skip".
(** ** Sample records and requests *)

(** A product with the given identity and prices and nothing else set. *)
Definition plain_product (id' : Z) (category' : string) (price' : Q)
    (purchasePrice' : option Q) : Product :=
  {| id := id'; name := "item"; category := category'; stock := 20;
     price := price'; purchasePrice := purchasePrice';
     previousPrice := None; profitMargin := None; minSellingPrice := None;
     discountType := None; discountValue := None;
     discountStartDate := None; discountEndDate := None;
     discountPriority := None; lastUpdated := None; priceHistory := None |}.

(** A request with only [strategy], [value] and [category] set. *)
Definition bare_request (strategy' : string) (value' : option Q)
    (category' : string) : Req.t :=
  {| Req.strategy := Some strategy'; Req.value := value';
     Req.minPrice := None; Req.maxPrice := None;
     Req.category := category';
     Req.applyToLowStock := false; Req.stockThreshold := None;
     Req.activeTab := None; Req.categoryDiscount := false;
     Req.discountType := None; Req.discountValue := None;
     Req.discountStartDate := None; Req.discountEndDate := None;
     Req.conflictResolution := None |}.

(** [{strategy:'range', minPrice:0, maxPrice:80, category:'all'}]. *)
Definition range_request_zero_min : Req.t :=
  {| Req.strategy := Some "range"; Req.value := None;
     Req.minPrice := Some 0; Req.maxPrice := Some 80;
     Req.category := "all";
     Req.applyToLowStock := false; Req.stockThreshold := None;
     Req.activeTab := Some "pricing"; Req.categoryDiscount := false;
     Req.discountType := None; Req.discountValue := None;
     Req.discountStartDate := None; Req.discountEndDate := None;
     Req.conflictResolution := None |}.

(** A product priced 100, bought at 80, with its stored margin of 25%. *)
Definition margin_product : Product :=
  {| id := 1; name := "item"; category := "Dairy"; stock := 20;
     price := 100; purchasePrice := Some 80;
     previousPrice := None; profitMargin := Some 25; minSellingPrice := None;
     discountType := None; discountValue := None;
     discountStartDate := None; discountEndDate := None;
     discountPriority := None; lastUpdated := None; priceHistory := None |}.

Definition margin_store : Store :=
  {| products := [margin_product]; clock := 0 |}.

(** The patch [{ price: x }]. *)
Definition price_patch (x : Q) : Patch.t :=
  {| Patch.price := Some x; Patch.purchasePrice := None; Patch.stock := None;
     Patch.previousPrice := None; Patch.lastUpdated := None;
     Patch.priceHistory := None |}.

(** The patch [{ price: x, purchasePrice: c }]. *)
Definition prices_patch (x c : Q) : Patch.t :=
  {| Patch.price := Some x; Patch.purchasePrice := Some c; Patch.stock := None;
     Patch.previousPrice := None; Patch.lastUpdated := None;
     Patch.priceHistory := None |}.

(** A pricing-tab request: [strategy], [value], [category] and
    [activeTab: 'pricing']. *)
Definition pricing_request (strategy' : string) (value' : option Q)
    (category' : string) : Req.t :=
  {| Req.strategy := Some strategy'; Req.value := value';
     Req.minPrice := None; Req.maxPrice := None;
     Req.category := category';
     Req.applyToLowStock := false; Req.stockThreshold := None;
     Req.activeTab := Some "pricing"; Req.categoryDiscount := false;
     Req.discountType := None; Req.discountValue := None;
     Req.discountStartDate := None; Req.discountEndDate := None;
     Req.conflictResolution := None |}.

(** A catalog of two products priced 100 and 200. *)
Definition two_products : Store :=
  {| products := [ plain_product 1 "Dairy" 100 None;
                   plain_product 2 "Bakery" 200 None ];
     clock := 0 |}.

(** A product priced 150 that has never had its price changed. *)
Definition unchanged_product : Product := plain_product 7 "Dairy" 150 None.

Definition unchanged_store : Store :=
  {| products := [unchanged_product]; clock := 1000000000 |}.

(** A merge request on the discounts tab bringing the discount
    [discountType'] / [discountValue']. *)
Definition merge_request (discountType' : string) (discountValue' : Q) : Req.t :=
  {| Req.strategy := Some "percentage"; Req.value := Some 10;
     Req.minPrice := None; Req.maxPrice := None;
     Req.category := "all";
     Req.applyToLowStock := false; Req.stockThreshold := None;
     Req.activeTab := Some "discounts"; Req.categoryDiscount := true;
     Req.discountType := Some discountType';
     Req.discountValue := Some discountValue';
     Req.discountStartDate := None; Req.discountEndDate := None;
     Req.conflictResolution := Some "merge" |}.

(** A product with the given price that carries a discount. *)
Definition discounted_product (id' : Z) (price' : Q) (discountType' : string)
    (discountValue' : Q) : Product :=
  {| id := id'; name := "item"; category := "Dairy"; stock := 20;
     price := price'; purchasePrice := None;
     previousPrice := None; profitMargin := None; minSellingPrice := None;
     discountType := Some discountType'; discountValue := Some discountValue';
     discountStartDate := None; discountEndDate := None;
     discountPriority := None; lastUpdated := None; priceHistory := None |}.

(** Price 100 at 50% off: an existing reduction of 50. *)
Definition half_price_store : Store :=
  {| products := [discounted_product 1 100 "Percentage" 50]; clock := 0 |}.

(** One product priced 1000 that carries no discount. *)
Definition thousand_store : Store :=
  {| products := [plain_product 1 "Dairy" 1000 None]; clock := 0 |}.

(** Price 100 with a fixed discount of 5, and price 100 at 50% off. *)
Definition merge_store : Store :=
  {| products := [ discounted_product 1 100 "Fixed Amount" 5;
                   discounted_product 2 100 "Percentage" 50 ];
     clock := 0 |}.

(** A product whose price went 100 -> 110 -> 120, with both changes
    recorded, oldest first. *)
Definition history_product : Product :=
  {| id := 3; name := "item"; category := "Dairy"; stock := 20;
     price := 120; purchasePrice := None;
     previousPrice := Some 110; profitMargin := None; minSellingPrice := None;
     discountType := None; discountValue := None;
     discountStartDate := None; discountEndDate := None;
     discountPriority := None; lastUpdated := Some 2000%Z;
     priceHistory :=
       Some [ {| date := 1000; oldPrice := 100; newPrice := 110;
                 user := "Admin"; reason := "Manual update" |};
              {| date := 2000; oldPrice := 110; newPrice := 120;
                 user := "Admin"; reason := "Manual update" |} ] |}.

Definition history_store : Store :=
  {| products := [history_product]; clock := 5000 |}.

(** [{strategy:'range', minPrice:50, maxPrice:80}] on the pricing tab. *)
Definition range_request_50_80 : Req.t :=
  {| Req.strategy := Some "range"; Req.value := None;
     Req.minPrice := Some 50; Req.maxPrice := Some 80;
     Req.category := "all";
     Req.applyToLowStock := false; Req.stockThreshold := None;
     Req.activeTab := Some "pricing"; Req.categoryDiscount := false;
     Req.discountType := None; Req.discountValue := None;
     Req.discountStartDate := None; Req.discountEndDate := None;
     Req.conflictResolution := None |}.

(** A 10% discount running over the given window, in a category. *)
Definition campaign_product (id' : Z) (start' end' : Z) : Product :=
  {| id := id'; name := "item"; category := "Dairy"; stock := 20;
     price := 100; purchasePrice := None;
     previousPrice := None; profitMargin := None; minSellingPrice := None;
     discountType := Some "Percentage"; discountValue := Some 10;
     discountStartDate := Some start'; discountEndDate := Some end';
     discountPriority := None; lastUpdated := None; priceHistory := None |}.

(** 1, 5, 10 and 15 January 2024, 00:00 UTC. *)
Definition jan1 : Z := 1704067200000.
Definition jan5 : Z := 1704412800000.
Definition jan10 : Z := 1704844800000.
Definition jan15 : Z := 1705276800000.

(** [[{productId: 1, basePrice: 120}, {productId: 9, basePrice: 50},
      {productId: 1, basePrice: -5}]]: a good entry, an unknown product,
    and a negative price. *)
Definition sample_updates : list PartialUpdate.t :=
  [ {| PartialUpdate.productId := 1; PartialUpdate.basePrice := Some 120;
       PartialUpdate.costPrice := None |};
    {| PartialUpdate.productId := 9; PartialUpdate.basePrice := Some 50;
       PartialUpdate.costPrice := None |};
    {| PartialUpdate.productId := 1; PartialUpdate.basePrice := Some (-5);
       PartialUpdate.costPrice := None |} ].

(** Price 120 bought at 100 with a 10% discount: a discounted price of 108,
    a margin of 8%. *)
Definition discounted_margin_product : Product :=
  {| id := 4; name := "item"; category := "Dairy"; stock := 20;
     price := 120; purchasePrice := Some 100;
     previousPrice := None; profitMargin := Some 8; minSellingPrice := Some 110;
     discountType := Some "Percentage"; discountValue := Some 10;
     discountStartDate := None; discountEndDate := None;
     discountPriority := None; lastUpdated := None; priceHistory := None |}.

(** A product priced 100 that carries no discount. *)
Definition undiscounted_product : Product := plain_product 5 "Dairy" 100 (Some 99).

(** The data [{ name: 'Milk', category: 'Dairy', price: 120, stock: 10,
    purchasePrice: 100 }], without an id of its own. *)
Definition milk_data : NewProduct.t :=
  {| NewProduct.id := None; NewProduct.name := Some "Milk";
     NewProduct.category := "Dairy"; NewProduct.price := Some 120;
     NewProduct.stock := Some 10%Z; NewProduct.purchasePrice := Some 100;
     NewProduct.discountValue := None; NewProduct.minSellingPrice := None;
     NewProduct.profitMargin := None; NewProduct.discountType := None;
     NewProduct.discountStartDate := None; NewProduct.discountEndDate := None;
     NewProduct.discountPriority := None |}.

(** The patch [{}]. *)
Definition no_changes : Patch.t :=
  {| Patch.price := None; Patch.purchasePrice := None; Patch.stock := None;
     Patch.previousPrice := None; Patch.lastUpdated := None;
     Patch.priceHistory := None |}.

(** Two detected regions, the first with the higher confidence. *)
Definition product_region : Region.t :=
  {| Region.x := 120; Region.y := 80; Region.width := 360;
     Region.height := 440; Region.confidence := 95 # 100;
     Region.type := "product" |}.

Definition subject_region : Region.t :=
  {| Region.x := 200; Region.y := 150; Region.width := 200;
     Region.height := 300; Region.confidence := 88 # 100;
     Region.type := "main_subject" |}.


(** A category-wide 20% discount that skips products already discounted. *)
Definition skip_request : Req.t :=
  {| Req.strategy := Some "percentage"; Req.value := Some 10;
     Req.minPrice := None; Req.maxPrice := None;
     Req.category := "all";
     Req.applyToLowStock := false; Req.stockThreshold := None;
     Req.activeTab := Some "discounts"; Req.categoryDiscount := true;
     Req.discountType := Some "percentage";
     Req.discountValue := Some 20;
     Req.discountStartDate := None; Req.discountEndDate := None;
     Req.conflictResolution := Some "skip" |}.

(** A product with a discount next to one without. *)
Definition mixed_store : Store :=
  {| products := [ discounted_product 1 100 "Percentage" 50;
                   plain_product 2 "Bakery" 200 None ];
     clock := 0 |}.

(** A 10% campaign of priority 1 in the Dairy category. *)
Definition priority_campaign : Product :=
  {| id := 8; name := "item"; category := "Dairy"; stock := 20;
     price := 100; purchasePrice := None;
     previousPrice := None; profitMargin := None; minSellingPrice := None;
     discountType := Some "Percentage"; discountValue := Some 10;
     discountStartDate := Some jan1; discountEndDate := Some jan10;
     discountPriority := Some 1%Z; lastUpdated := None; priceHistory := None |}.

(** Two records that share the id 1, priced 100 and 200. *)
Definition twin_store : Store :=
  {| products := [ plain_product 1 "Dairy" 100 None;
                   plain_product 1 "Dairy" 200 None ];
     clock := 0 |}.
(** * Properties *)

(** Runs a computation on a concrete store and puts the value and the
    store it ends with in place of the call. *)
Ltac run_call c :=
  let E := fresh "E" in
  destruct c as [[? | ?] ?] eqn:E; vm_compute in E;
  [ injection E as <- <- | discriminate E ].

(** ** Comparison and truthiness *)

Lemma ltb_lt x y : JS.ltb x y = true <-> x < y.
Proof.
  unfold JS.ltb. rewrite negb_true_iff.
  split; intros H.
  - apply Qnot_le_lt. intros Hle. apply Qle_bool_iff in Hle. congruence.
  - apply not_true_is_false. intros Hle. apply Qle_bool_iff in Hle. lra.
Qed.

Lemma ltb_ge x y : JS.ltb x y = false <-> y <= x.
Proof.
  unfold JS.ltb. rewrite negb_false_iff. apply Qle_bool_iff.
Qed.

Lemma leb_le x y : JS.leb x y = true <-> x <= y.
Proof. apply Qle_bool_iff. Qed.

Lemma leb_gt x y : JS.leb x y = false <-> y < x.
Proof.
  unfold JS.leb. split; intros H.
  - apply Qnot_le_lt. intros Hle. apply Qle_bool_iff in Hle. congruence.
  - apply not_true_is_false. intros Hle. apply Qle_bool_iff in Hle. lra.
Qed.

Lemma eqb_eq x y : JS.eqb x y = true <-> x == y.
Proof. apply Qeq_bool_iff. Qed.

Lemma eqb_neq x y : JS.eqb x y = false <-> ~ x == y.
Proof.
  unfold JS.eqb. split; intros H.
  - intros E. apply Qeq_bool_iff in E. congruence.
  - apply not_true_is_false. intros E. apply Qeq_bool_iff in E. tauto.
Qed.

Lemma truthy_zero v : is_zero v -> JS.truthy v = false.
Proof.
  destruct v as [q|]; simpl; [|tauto].
  intros E. apply eqb_eq in E. now rewrite E.
Qed.

(** ** Rounding *)

Lemma round2_bounds x :
  x - (1 # 200) < JS.round2 x /\ JS.round2 x <= x + (1 # 200).
Proof.
  unfold JS.round2, JS.Math_round.
  pose proof (Qfloor_le (x * 100 + (1 # 2))) as Hlo.
  pose proof (Qlt_floor (x * 100 + (1 # 2))) as Hhi.
  rewrite inject_Z_plus in Hhi.
  change (inject_Z 1) with 1 in Hhi.
  generalize dependent (inject_Z (Qfloor (x * 100 + (1 # 2)))).
  intros n Hlo Hhi.
  assert (E : n / 100 == n * (1 # 100)) by (unfold Qdiv; reflexivity).
  rewrite E. split; lra.
Qed.

Lemma Qfloor_unique (x : Q) (n : Z) :
  inject_Z n <= x -> x < inject_Z n + 1 -> Qfloor x = n.
Proof.
  intros Hlo Hhi.
  pose proof (Qfloor_le x) as Flo.
  pose proof (Qlt_floor x) as Fhi.
  rewrite inject_Z_plus in Fhi. change (inject_Z 1) with 1 in Fhi.
  assert (H1 : inject_Z (Qfloor x) < inject_Z (n + 1)).
  { rewrite inject_Z_plus. change (inject_Z 1) with 1. lra. }
  assert (H2 : inject_Z n < inject_Z (Qfloor x + 1)).
  { rewrite inject_Z_plus. change (inject_Z 1) with 1. lra. }
  rewrite <- Zlt_Qlt in H1, H2. lia.
Qed.

Lemma round2_tie (k : Z) :
  JS.round2 (inject_Z (2 * k + 1) / 200) == inject_Z (k + 1) / 100.
Proof.
  unfold JS.round2, JS.Math_round.
  rewrite (Qfloor_unique _ (k + 1)); [reflexivity | |].
  - rewrite !inject_Z_plus, inject_Z_mult.
    change (inject_Z 1) with 1. change (inject_Z 2) with 2.
    setoid_replace ((2 * inject_Z k + 1) / 200 * 100)
      with (inject_Z k + (1 # 2)) by field.
    lra.
  - rewrite !inject_Z_plus, inject_Z_mult.
    change (inject_Z 1) with 1. change (inject_Z 2) with 2.
    setoid_replace ((2 * inject_Z k + 1) / 200 * 100)
      with (inject_Z k + (1 # 2)) by field.
    lra.
Qed.


Lemma round2_comp x y : x == y -> JS.round2 x == JS.round2 y.
Proof.
  intros E. unfold JS.round2, JS.Math_round.
  assert (F : Qfloor (x * 100 + (1 # 2)) = Qfloor (y * 100 + (1 # 2)))
    by (apply Qfloor_comp; rewrite E; reflexivity).
  rewrite F. reflexivity.
Qed.


(** ** Request validation *)

(** C10.  [validateBulkPriceUpdate] takes the number zero for an absent
    field: a range request whose [minPrice] or [maxPrice] is 0 is refused
    as lacking a bound, and a percentage or fixed request whose [value] is
    0 is refused as lacking a value. *)
Theorem validateBulkPriceUpdate_zero_as_absent (updateData : Req.t) :
  (Req.strategy updateData = Some "range" ->
   is_zero (Req.minPrice updateData) \/ is_zero (Req.maxPrice updateData) ->
   validateBulkPriceUpdate updateData
   = invalid "Both minimum and maximum prices are required for range strategy")
  /\ (Req.strategy updateData = Some "percentage"
      \/ Req.strategy updateData = Some "fixed" ->
      is_zero (Req.value updateData) ->
      validateBulkPriceUpdate updateData = invalid "Update value is required").
Proof.
  unfold validateBulkPriceUpdate. split.
  - intros -> Hz. simpl.
    destruct Hz as [Hz|Hz]; rewrite (truthy_zero _ Hz); simpl;
      [reflexivity | now rewrite orb_true_r].
  - intros [-> | ->] Hz; simpl; now rewrite (truthy_zero _ Hz).
Qed.

Lemma validateBulkPriceUpdate_zero_as_absent_witness :
  (Req.strategy range_request_zero_min = Some "range"
   /\ (is_zero (Req.minPrice range_request_zero_min)
       \/ is_zero (Req.maxPrice range_request_zero_min))
   /\ validateBulkPriceUpdate range_request_zero_min
      = invalid "Both minimum and maximum prices are required for range strategy")
  /\ ((Req.strategy (bare_request "percentage" (Some 0) "all") = Some "percentage"
       \/ Req.strategy (bare_request "percentage" (Some 0) "all") = Some "fixed")
      /\ is_zero (Req.value (bare_request "percentage" (Some 0) "all"))
      /\ validateBulkPriceUpdate (bare_request "percentage" (Some 0) "all")
         = invalid "Update value is required").
Proof.
  split.
  - split; [reflexivity|]. split; [left; reflexivity|].
    apply (proj1 (validateBulkPriceUpdate_zero_as_absent range_request_zero_min)).
    + reflexivity.
    + left. reflexivity.
  - split; [left; reflexivity|]. split; [reflexivity|].
    apply (proj2 (validateBulkPriceUpdate_zero_as_absent
                    (bare_request "percentage" (Some 0) "all"))).
    + left. reflexivity.
    + reflexivity.
Defined.

(** ** Partial batch update *)

(** An iteration always completes, and it either counts a success or
    pushes one error for the entry's product. *)
Lemma partial_iteration_outcome (u : PartialUpdate.t) (s : Batch.locals) (st : Store) :
  exists s' st',
    partial_iteration u s st = (Normal s', st')
    /\ (s' = Batch.succeed s
        \/ exists msg, s' = Batch.fail s (PartialUpdate.productId u) msg)
    /\ (forall b, PartialUpdate.basePrice u = Some b -> b <= 0 ->
        s' = Batch.fail s (PartialUpdate.productId u)
               "Base price must be greater than 0").
Proof.
  unfold partial_iteration, try_catch. cbn [Patch.price Patch.purchasePrice].
  destruct (JS.opt_leb_l (PartialUpdate.basePrice u) 0) eqn:Hneg.
  - exists (Batch.fail s (PartialUpdate.productId u) "Base price must be greater than 0"), st.
    split; [reflexivity|]. split; [right; eauto|]. reflexivity.
  - assert (Hpos : forall b, PartialUpdate.basePrice u = Some b -> b <= 0 -> False).
    { intros b Hb Hle. rewrite Hb in Hneg. simpl in Hneg.
      apply leb_gt in Hneg. lra. }
    match goal with
    | |- context [if ?c then _ else _] => destruct c
    end.
    + eexists _, st. split; [reflexivity|]. split; [right; eauto|].
      intros b Hb Hle. destruct (Hpos b Hb Hle).
    + unfold bind.
      match goal with
      | |- context [update ?i ?d st] => destruct (update i d st) as [[p|msg] st1]
      end.
      * eexists _, st1. split; [reflexivity|]. split; [left; reflexivity|].
        intros b Hb Hle. destruct (Hpos b Hb Hle).
      * eexists _, st1. split; [reflexivity|]. split; [right; eauto|].
        intros b Hb Hle. destruct (Hpos b Hb Hle).
Qed.

(** The loop over any list of entries: it completes, the two tallies grow
    by the number of entries together, errors pushed earlier stay, and
    every entry with a non-positive base price has its error in the list. *)
Lemma partial_loop_tally (updates : list PartialUpdate.t) :
  forall (s : Batch.locals) (st : Store),
  exists s' st',
    for_of updates partial_iteration s st = (Normal s', st')
    /\ (Batch.successCount s' + List.length (Batch.errors s')
        = Batch.successCount s + List.length (Batch.errors s)
          + List.length updates)%nat
    /\ (exists pushed, Batch.errors s' = (Batch.errors s ++ pushed)%list)
    /\ (forall u b, In u updates ->
          PartialUpdate.basePrice u = Some b -> b <= 0 ->
          In {| Batch.productId := PartialUpdate.productId u;
                Batch.error := "Base price must be greater than 0" |}
             (Batch.errors s')).
Proof.
  induction updates as [|u rest IH]; intros s st.
  - exists s, st. split; [reflexivity|]. split; [simpl; lia|].
    split; [exists []; now rewrite app_nil_r|]. intros u b [].
  - destruct (partial_iteration_outcome u s st) as (s1 & st1 & Hrun & Hcase & Hneg).
    destruct (IH s1 st1) as (s2 & st2 & Hrest & Hcount & (pushed & Hpre) & Hin).
    exists s2, st2. cbn [for_of]. unfold bind at 1. rewrite Hrun.
    split; [exact Hrest|].
    assert (Hstep : (Batch.successCount s1 + List.length (Batch.errors s1)
                     = S (Batch.successCount s + List.length (Batch.errors s)))%nat
                    /\ exists one, Batch.errors s1 = (Batch.errors s ++ one)%list).
    { destruct Hcase as [-> | [msg ->]]; simpl.
      - split; [lia | exists []; now rewrite app_nil_r].
      - rewrite length_app. simpl. split; [lia | eauto]. }
    destruct Hstep as [Hone [one Hone']].
    split; [simpl; lia|].
    split.
    + exists (one ++ pushed)%list. now rewrite Hpre, Hone', app_assoc.
    + intros v b [<- | Hv] Hb Hle.
      * rewrite Hpre, (Hneg b Hb Hle). apply in_or_app. left.
        simpl. apply in_or_app. right. now left.
      * eapply Hin; eauto.
Qed.

(** ** Offer conflicts *)

Lemma gt0_parseFloat_or (v : option Q) :
  JS.ltb 0 (JS.parseFloat_or v 0) = JS.gt0 v.
Proof.
  destruct v as [q|]; simpl; [|reflexivity].
  destruct (JS.eqb q 0) eqn:E; [|reflexivity].
  apply eqb_eq in E. symmetry. apply ltb_ge. lra.
Qed.

Lemma gt0_spec (v : option Q) :
  JS.gt0 v = true <-> exists d, v = Some d /\ 0 < d.
Proof.
  destruct v as [q|]; simpl.
  - rewrite ltb_lt. split; [eauto|]. now intros (d & [= ->] & H).
  - split; [discriminate|]. now intros (d & [=] & _).
Qed.

Lemma truthy_date_spec (v : option Z) :
  JS.truthy_date v = true <-> exists t, v = Some t.
Proof.
  destruct v; simpl; split; eauto; try discriminate. now intros [t [=]].
Qed.

(** Only the date block pushes [overlapping_dates] conflicts. *)
Lemma reports_overlap_date_block (A : Product) (all : list Product) (ex : option Z) :
  reports_overlap (offer_conflicts A all ex)
  = existsb (fun c => match Conflict.type c with
                      | overlapping_dates => true
                      | _ => false
                      end)
            (date_overlap_conflicts A all ex).
Proof.
  unfold reports_overlap, offer_conflicts.
  repeat match goal with
         | |- context [if ?c then _ else _] => destruct c
         end;
    cbn [Offer.conflicts]; rewrite ?existsb_app; cbn [existsb Conflict.type];
    rewrite ?orb_false_r; reflexivity.
Qed.

Lemma date_block_pair (A B : Product) :
  existsb (fun c => match Conflict.type c with
                    | overlapping_dates => true
                    | _ => false
                    end)
          (date_overlap_conflicts A [B] None) = true
  <-> spec_windows_overlap A B.
Proof.
  unfold date_overlap_conflicts, spec_windows_overlap.
  rewrite gt0_parseFloat_or. cbn [filter id_differs].
  rewrite andb_true_r.
  destruct (JS.gt0 (discountValue A)) eqn:HdA; cbn [andb].
  2:{ split; [discriminate|]. intros (_ & HA & _).
      apply gt0_spec in HA. congruence. }
  destruct (discountStartDate A) as [s1|]; cbn [JS.truthy_date andb].
  2:{ split; [discriminate|]. intros (_ & _ & _ & s1 & e1 & s2 & e2 & [=] & _). }
  destruct (discountEndDate A) as [e1|]; cbn [JS.truthy_date andb].
  2:{ split; [discriminate|]. intros (_ & _ & _ & s1' & e1 & s2 & e2 & _ & [=] & _). }
  destruct (String.eqb_spec (category B) (category A)) as [Hc|Hc]; cbn [andb].
  2:{ split; [discriminate|]. intros (Hc' & _). congruence. }
  destruct (JS.gt0 (discountValue B)) eqn:HdB; cbn [andb].
  2:{ split; [discriminate|]. intros (_ & _ & HB & _).
      apply gt0_spec in HB. congruence. }
  destruct (discountStartDate B) as [s2|] eqn:HsB; cbn [JS.truthy_date andb].
  2:{ split; [discriminate|]. intros (_ & _ & _ & s1' & e1' & s2 & e2 & _ & _ & [=] & _). }
  destruct (discountEndDate B) as [e2|] eqn:HeB; cbn [JS.truthy_date andb].
  2:{ split; [discriminate|]. intros (_ & _ & _ & s1' & e1' & s2' & e2 & _ & _ & _ & [=] & _). }
  cbn [flat_map]. rewrite HsB, HeB. cbn [windows_overlap].
  destruct (Z.leb_spec s1 e2) as [H1|H1], (Z.leb_spec s2 e1) as [H2|H2];
    cbn [andb app existsb Conflict.type orb].
  - split; [|reflexivity]. intros _. split; [congruence|].
    split; [now apply gt0_spec|]. split; [now apply gt0_spec|].
    exists s1, e1, s2, e2. repeat split; assumption.
  - split; [discriminate|].
    intros (_ & _ & _ & ? & ? & ? & ? & [= <-] & [= <-] & [= <-] & [= <-] & ? & ?). lia.
  - split; [discriminate|].
    intros (_ & _ & _ & ? & ? & ? & ? & [= <-] & [= <-] & [= <-] & [= <-] & ? & ?). lia.
  - split; [discriminate|].
    intros (_ & _ & _ & ? & ? & ? & ? & [= <-] & [= <-] & [= <-] & [= <-] & ? & ?). lia.
Qed.

Lemma flags_overlap_iff (A B : Product) (st : Store) :
  flags_overlap A B st <-> spec_windows_overlap A B.
Proof.
  unfold flags_overlap, validateOfferConflicts, bind, delay, ret.
  rewrite <- date_block_pair, <- reports_overlap_date_block.
  split.
  - intros (r & st' & [= <- _] & Hr). exact Hr.
  - intros Hr. eexists _, _. split; [reflexivity | exact Hr].
Qed.

Lemma spec_windows_overlap_sym (A B : Product) :
  spec_windows_overlap A B -> spec_windows_overlap B A.
Proof.
  intros (Hc & HA & HB & s1 & e1 & s2 & e2 & ? & ? & ? & ? & ? & ?).
  split; [congruence|]. split; [exact HB|]. split; [exact HA|].
  exists s2, e2, s1, e1. repeat split; assumption.
Qed.

(** C6.  Detection of overlapping dates is symmetric:
    [validateOfferConflicts(A, [B], null)] reports an [overlapping_dates]
    conflict exactly when [validateOfferConflicts(B, [A], null)] does, and
    that is exactly when A and B share a category, both carry a discount
    with defined windows [s1, e1] and [s2, e2], and [s1 <= e2] and
    [s2 <= e1]. *)
Theorem overlapping_dates_symmetric (A B : Product) (stA stB : Store) :
  (flags_overlap A B stA <-> flags_overlap B A stB)
  /\ (flags_overlap A B stA <-> spec_windows_overlap A B).
Proof.
  split; [|apply flags_overlap_iff].
  rewrite !flags_overlap_iff.
  split; apply spec_windows_overlap_sym.
Qed.

(** The windows [1 Jan, 10 Jan] and [5 Jan, 15 Jan] of two products of
    one category: each reports the other. *)
Lemma overlapping_dates_symmetric_witness :
  spec_windows_overlap (campaign_product 1 jan1 jan10) (campaign_product 2 jan5 jan15)
  /\ flags_overlap (campaign_product 1 jan1 jan10) (campaign_product 2 jan5 jan15)
                   {| products := []; clock := 0 |}
  /\ flags_overlap (campaign_product 2 jan5 jan15) (campaign_product 1 jan1 jan10)
                   {| products := []; clock := 0 |}.
Proof.
  assert (S : spec_windows_overlap (campaign_product 1 jan1 jan10)
                                   (campaign_product 2 jan5 jan15)).
  { split; [reflexivity|].
    split; [exists 10; split; reflexivity|].
    split; [exists 10; split; reflexivity|].
    exists jan1, jan10, jan5, jan15.
    repeat split; try reflexivity; discriminate. }
  destruct (overlapping_dates_symmetric
              (campaign_product 1 jan1 jan10) (campaign_product 2 jan5 jan15)
              {| products := []; clock := 0 |} {| products := []; clock := 0 |})
    as [Hsym Hspec].
  split; [exact S|].
  split; [apply Hspec, S | apply Hsym, Hspec, S].
Defined.


(** ** Bulk price update *)

Lemma price_guards_in_range (updateData : Req.t) (newPrice : Q) :
  in_price_range (price_guards updateData newPrice).
Proof.
  unfold price_guards, in_price_range, JS.Math_max, JS.Math_min.
  match goal with |- context [Qmin ?a ?b] => generalize a; intros x end.
  pose proof (Q.min_spec x 100000) as Hm.
  pose proof (Q.max_spec 1 (Qmin x 100000)) as HM.
  revert HM. generalize (Qmax 1 (Qmin x 100000)).
  revert Hm. generalize (Qmin x 100000).
  intros m [[H2 F]|[H2 F]] M [[H1 E]|[H1 E]]; lra.
Qed.

Lemma round2_in_range (x : Q) :
  in_price_range x -> in_price_range (JS.round2 x).
Proof.
  unfold in_price_range, JS.round2, JS.Math_round. intros [Hlo Hhi].
  assert (L : (Qfloor 100 <= Qfloor (x * 100 + (1 # 2)))%Z)
    by (apply Qfloor_resp_le; lra).
  assert (U : (Qfloor (x * 100 + (1 # 2)) <= Qfloor (10000000 + (1 # 2)))%Z)
    by (apply Qfloor_resp_le; lra).
  change (Qfloor 100) with 100%Z in L.
  change (Qfloor (10000000 + (1 # 2))) with 10000000%Z in U.
  rewrite Zle_Qle in L, U.
  generalize dependent (inject_Z (Qfloor (x * 100 + (1 # 2)))). intros n L U.
  change (inject_Z 100) with 100 in L. change (inject_Z 10000000) with 10000000 in U.
  assert (E : n / 100 == n * (1 # 100)) by (unfold Qdiv; reflexivity).
  rewrite E. split; lra.
Qed.

Lemma bulk_rewrite_refl (p : Product) : bulk_rewrite p p.
Proof. unfold bulk_rewrite. tauto. Qed.

Lemma bulk_rewrite_trans (p q r : Product) :
  bulk_rewrite p q -> bulk_rewrite q r -> bulk_rewrite p r.
Proof.
  unfold bulk_rewrite.
  intros (H1 & I1 & P1 & M1 & K1) (H2 & I2 & P2 & M2 & K2).
  repeat split; try congruence.
  destruct H2 as [-> | H2]; [exact H1 | right; exact H2].
Qed.

Lemma Forall2_bulk_rewrite_refl (ps : list Product) : Forall2 bulk_rewrite ps ps.
Proof. induction ps; constructor; auto using bulk_rewrite_refl. Qed.

Lemma Forall2_bulk_rewrite_trans (ps qs rs : list Product) :
  Forall2 bulk_rewrite ps qs -> Forall2 bulk_rewrite qs rs ->
  Forall2 bulk_rewrite ps rs.
Proof.
  intros H. revert rs. induction H; intros rs H2; inversion H2; subst;
    constructor; eauto using bulk_rewrite_trans.
Qed.

Lemma Forall2_set_nth (ps : list Product) :
  forall (i : nat) (current v : Product),
    nth_error ps i = Some current -> bulk_rewrite current v ->
    Forall2 bulk_rewrite ps (JS.set_nth i v ps).
Proof.
  induction ps as [|p ps IH]; intros [|i] current v Hn Hr; simpl in *;
    try discriminate.
  - injection Hn as ->. constructor; auto using Forall2_bulk_rewrite_refl.
  - constructor; eauto using bulk_rewrite_refl.
Qed.

Lemma committed_record_rewrite (updateData : Req.t) (current : Product)
    (originalPrice newPrice : Q) :
  in_price_range newPrice ->
  bulk_rewrite current (committed_record updateData current originalPrice newPrice).
Proof.
  intros H. unfold bulk_rewrite. simpl.
  repeat split; trivial. right. apply round2_in_range, H.
Qed.

Lemma decide_price_in_range (updateData : Req.t) (product : Product) :
  in_price_range (fst (fst (decide_price updateData product))).
Proof.
  unfold decide_price.
  destruct (category_discount _ _ _) as [[np su] pushed]. simpl.
  apply price_guards_in_range.
Qed.

(** One iteration completes, keeps the clock, and rewrites the store only
    in the way [bulk_rewrite] allows. *)
Lemma bulk_iteration_rewrites (updateData : Req.t) (product : Product)
    (s : Bulk.locals) (st : Store) :
  exists s' st',
    bulk_iteration updateData product s st = (Normal s', st')
    /\ Forall2 bulk_rewrite (products st) (products st')
    /\ clock st' = clock st.
Proof.
  unfold bulk_iteration.
  pose proof (decide_price_in_range updateData product) as Hr.
  destruct (decide_price updateData product) as [[np su] pushed]. simpl in Hr.
  destruct (su && _)%bool.
  - unfold bind, get_products, set_products, ret.
    destruct (JS.findIndex _ (products st)) as [i|].
    + destruct (nth_error (products st) i) as [current|] eqn:Hn.
      * eexists _, _. split; [reflexivity|]. simpl. split; [|reflexivity].
        eapply Forall2_set_nth; eauto using committed_record_rewrite.
      * eexists _, _. split; [reflexivity|].
        split; [apply Forall2_bulk_rewrite_refl | reflexivity].
    + eexists _, _. split; [reflexivity|].
      split; [apply Forall2_bulk_rewrite_refl | reflexivity].
  - eexists _, _. split; [reflexivity|].
    split; [apply Forall2_bulk_rewrite_refl | reflexivity].
Qed.

Lemma bulk_loop_rewrites (updateData : Req.t) (l : list Product) :
  forall (s : Bulk.locals) (st : Store),
  exists s' st',
    for_of l (bulk_iteration updateData) s st = (Normal s', st')
    /\ Forall2 bulk_rewrite (products st) (products st')
    /\ clock st' = clock st.
Proof.
  induction l as [|p l IH]; intros s st.
  - exists s, st. split; [reflexivity|].
    split; [apply Forall2_bulk_rewrite_refl | reflexivity].
  - destruct (bulk_iteration_rewrites updateData p s st)
      as (s1 & st1 & Hrun & Hrw & Hck).
    destruct (IH s1 st1) as (s2 & st2 & Hrest & Hrw2 & Hck2).
    exists s2, st2. cbn [for_of]. unfold bind at 1. rewrite Hrun.
    split; [exact Hrest|].
    split; [eapply Forall2_bulk_rewrite_trans; eauto | congruence].
Qed.

(** Every run of [bulkUpdatePrices] that returns rewrites the catalog
    record by record within [bulk_rewrite]; a refused request throws and
    leaves the catalog as it was. *)
Lemma bulkUpdatePrices_rewrites (updateData : Req.t) (st : Store) :
  exists r st',
    bulkUpdatePrices updateData st = (r, st')
    /\ Forall2 bulk_rewrite (products st) (products st')
    /\ (isValid (validateBulkPriceUpdate updateData) = true ->
        exists report, r = Normal report).
Proof.
  unfold bulkUpdatePrices, bind at 1, delay.
  destruct (isValid (validateBulkPriceUpdate updateData)); cbn [negb].
  - unfold bind at 1, get_products. cbn [products].
    unfold bind at 1.
    match goal with
    | |- context [for_of ?l _ ?s ?t] =>
        destruct (bulk_loop_rewrites updateData l s t)
          as (s' & st' & Hrun & Hrw & _)
    end.
    rewrite Hrun. eexists _, _. split; [reflexivity|].
    split; [exact Hrw | eauto].
  - eexists _, _. split; [reflexivity|].
    split; [apply Forall2_bulk_rewrite_refl | discriminate].
Qed.

(** C5.  Whatever the request, every record a bulk price update writes
    has its committed price in [1, 100000]: each record of the catalog
    after the call is the record that stood there before, or has a price
    in that range.  The request's [minPrice]/[maxPrice] guards and the
    final 2-decimal rounding are part of the run. *)
Theorem bulk_committed_price_in_range (updateData : Req.t) (st st' : Store)
    (report : Bulk.Report.t) :
  bulkUpdatePrices updateData st = (Normal report, st') ->
  Forall2 (fun old new => new = old \/ (1 <= price new /\ price new <= 100000))
          (products st) (products st').
Proof.
  intros Hrun.
  destruct (bulkUpdatePrices_rewrites updateData st) as (r & st1 & Hrun' & Hrw & _).
  rewrite Hrun in Hrun'. injection Hrun' as _ <-.
  eapply Forall2_impl; [|exact Hrw].
  intros old new (H & _). exact H.
Qed.

(** The range request [50, 80] on the product priced 100. *)
Lemma bulk_committed_price_in_range_witness :
  exists report st',
    bulkUpdatePrices range_request_50_80 margin_store = (Normal report, st')
    /\ Forall2 (fun old new => new = old \/ (1 <= price new /\ price new <= 100000))
               (products margin_store) (products st').
Proof.
  destruct (bulkUpdatePrices range_request_50_80 margin_store)
    as [[report|msg] st'] eqn:E.
  - exists report, st'. split; [reflexivity|].
    exact (bulk_committed_price_in_range _ _ _ _ E).
  - vm_compute in E. discriminate E.
Defined.


(** ** Single-record update *)

Lemma findIndex_Some {A : Type} (pred : A -> bool) (l : list A) :
  forall i, JS.findIndex pred l = Some i ->
  exists x, nth_error l i = Some x /\ pred x = true.
Proof.
  induction l as [|y l IH]; intros i; simpl; [discriminate|].
  destruct (pred y) eqn:Hy.
  - intros [= <-]. exists y. auto.
  - destruct (JS.findIndex pred l) as [j|]; [|discriminate].
    intros [= <-]. simpl. apply IH. reflexivity.
Qed.

Lemma set_nth_In {A : Type} (l : list A) :
  forall i x v, nth_error l i = Some x -> In v (JS.set_nth i v l).
Proof.
  induction l as [|y l IH]; intros [|i] x v; simpl; try discriminate.
  - intros _. now left.
  - intros H. right. eapply IH, H.
Qed.

Lemma track_price_change_prices (t : Z) (current : Product) (pd : Patch.t) :
  Patch.price (track_price_change t current pd) = Patch.price pd
  /\ Patch.purchasePrice (track_price_change t current pd) = Patch.purchasePrice pd.
Proof.
  unfold track_price_change.
  destruct (Patch.price pd) as [p|] eqn:Hp; [|now rewrite Hp].
  destruct (negb (JS.eqb p (price current))); simpl; now rewrite ?Hp.
Qed.

Lemma recompute_margin_prices (p : Product) :
  price (recompute_margin p) = price p
  /\ purchasePrice (recompute_margin p) = purchasePrice p.
Proof.
  unfold recompute_margin.
  destruct (purchasePrice p) as [c|] eqn:Hc; [|now rewrite Hc].
  destruct (JS.truthy_num (price p) && JS.truthy_num c)%bool; simpl; auto.
Qed.

Lemma recompute_margin_rule (p : Product) (c : Q) :
  purchasePrice (recompute_margin p) = Some c ->
  ~ price (recompute_margin p) == 0 -> ~ c == 0 ->
  profitMargin (recompute_margin p)
  = Some (JS.round2 (((price (recompute_margin p) - c) / c) * 100)).
Proof.
  destruct (recompute_margin_prices p) as [Hp Hc]. rewrite Hp, Hc.
  intros Hc' Hx Hnz. unfold recompute_margin. rewrite Hc'.
  unfold JS.truthy_num.
  apply eqb_neq in Hx, Hnz. rewrite Hx, Hnz. reflexivity.
Qed.

(** What a successful [update] returns and stores. *)
Lemma update_returns (id' : Z) (productData : Patch.t) (st st' : Store) (p : Product) :
  update id' productData st = (Normal p, st') ->
  exists index current,
    JS.findIndex (fun q => (id q =? id')%Z) (products st) = Some index
    /\ nth_error (products st) index = Some current
    /\ (forall x c, Patch.price productData = Some x ->
                    Patch.purchasePrice productData = Some c -> c < x)
    /\ p = recompute_margin
             (spread current
                (track_price_change (clock st + 150) current productData))
    /\ st' = {| products := JS.set_nth index p (products st);
                clock := (clock st + 150)%Z |}.
Proof.
  unfold update, bind, delay, get_products, now, set_products, ret, throw.
  cbn [products clock].
  destruct (JS.findIndex _ (products st)) as [index|] eqn:Hfi; [|discriminate].
  destruct (JS.opt_leb_l (Patch.price productData) 0); [discriminate|].
  destruct (match Patch.stock productData with
            | Some s => JS.ltb s 0 | None => false end); [discriminate|].
  destruct (match Patch.price productData, Patch.purchasePrice productData with
            | Some p0, Some pp => JS.leb p0 pp | _, _ => false end) eqn:Hle;
    [discriminate|].
  destruct (nth_error (products st) index) as [current|] eqn:Hnth; [|discriminate].
  intros [= <- <-]. exists index, current.
  repeat split; trivial.
  intros x c Hx Hc. rewrite Hx, Hc in Hle. now apply leb_gt in Hle.
Qed.

Lemma spread_prices (current : Product) (pd : Patch.t) :
  (forall x, Patch.price pd = Some x -> price (spread current pd) = x)
  /\ (forall c, Patch.purchasePrice pd = Some c ->
                purchasePrice (spread current pd) = Some c).
Proof.
  unfold spread. simpl. split.
  - now intros x ->.
  - now intros c ->.
Qed.

(** C1, as the code has it.  A successful [update] stores the record it
    returns.  When the patch supplies both [price] and [purchasePrice],
    that record has exactly these two and [price > purchasePrice].
    Whenever the stored record has a non-zero price and a non-zero
    purchase price, its [profitMargin] is
    [((price - purchasePrice) / purchasePrice) * 100] rounded to 2
    decimals by [Math.round]. *)
Theorem update_keeps_margin_rule (id' : Z) (productData : Patch.t)
    (st st' : Store) (p : Product) :
  update id' productData st = (Normal p, st') ->
  In p (products st')
  /\ (forall x c,
        Patch.price productData = Some x ->
        Patch.purchasePrice productData = Some c ->
        price p = x /\ purchasePrice p = Some c /\ c < price p)
  /\ (forall c,
        purchasePrice p = Some c -> ~ price p == 0 -> ~ c == 0 ->
        profitMargin p = Some (JS.round2 (((price p - c) / c) * 100))).
Proof.
  intros Hrun.
  destruct (update_returns _ _ _ _ _ Hrun)
    as (index & current & Hfi & Hnth & Hgt & Hp & Hst).
  split.
  { rewrite Hst. cbn [products]. eapply set_nth_In, Hnth. }
  split.
  - intros x c Hx Hc.
    destruct (track_price_change_prices (clock st + 150) current productData)
      as [Tp Tc].
    destruct (spread_prices current
                (track_price_change (clock st + 150) current productData))
      as [Sp Sc].
    destruct (recompute_margin_prices
                (spread current
                   (track_price_change (clock st + 150) current productData)))
      as [Rp Rc].
    rewrite Hp, Rp, Rc.
    rewrite (Sp x) by congruence. rewrite (Sc c) by congruence.
    repeat split. eapply Hgt; eauto.
  - intros c. rewrite Hp. apply recompute_margin_rule.
Qed.

(** The update [{ price: 120, purchasePrice: 80 }] of product 1: the
    stored record has price 120 above the purchase price 80, and the
    margin 50. *)
Lemma update_keeps_margin_rule_witness :
  exists p st',
    update 1 (prices_patch 120 80) margin_store = (Normal p, st')
    /\ In p (products st')
    /\ price p = 120 /\ purchasePrice p = Some 80 /\ 80 < price p
    /\ profitMargin p = Some (JS.round2 (((price p - 80) / 80) * 100))
    /\ JS.round2 (((price p - 80) / 80) * 100) == 50.
Proof.
  destruct (update 1 (prices_patch 120 80) margin_store) as [[p|msg] st'] eqn:E.
  - destruct (update_keeps_margin_rule _ _ _ _ _ E) as (Hin & Hboth & Hmargin).
    destruct (Hboth 120 80 eq_refl eq_refl) as (Hp & Hc & Hlt).
    exists p, st'. split; [reflexivity|].
    split; [exact Hin|]. split; [exact Hp|]. split; [exact Hc|].
    split; [exact Hlt|]. split.
    + apply Hmargin; [exact Hc | rewrite Hp; discriminate | discriminate].
    + rewrite Hp. reflexivity.
  - vm_compute in E. discriminate E.
Defined.

(** C1 as stated fails.  [update(1, { price: 50 })] on a product bought
    at 80 is accepted and stores price 50, below the purchase price: the
    patch carries no [purchasePrice], so the comparison is not made. *)
Lemma committed_records_break_margin_rule :
  exists p st',
    update 1 (price_patch 50) margin_store = (Normal p, st')
    /\ In p (products st')
    /\ purchasePrice p = Some 80
    /\ price p == 50
    /\ ~ 80 < price p.
Proof.
  run_call (update 1 (price_patch 50) margin_store).
  eexists _, _. split; [reflexivity|].
  split; [left; reflexivity|]. split; [reflexivity|]. split; [reflexivity|].
  intros H. vm_compute in H. discriminate H.
Qed.

(** A bulk price update leaves the purchase price and the stored margin
    of every record as they were. *)
Lemma bulk_update_keeps_stored_margin (updateData : Req.t) (st st' : Store)
    (report : Bulk.Report.t) :
  bulkUpdatePrices updateData st = (Normal report, st') ->
  Forall2 (fun old new =>
             purchasePrice new = purchasePrice old
             /\ profitMargin new = profitMargin old)
          (products st) (products st').
Proof.
  intros Hrun.
  destruct (bulkUpdatePrices_rewrites updateData st) as (r & st1 & Hrun' & Hrw & _).
  rewrite Hrun in Hrun'. injection Hrun' as _ <-.
  eapply Forall2_impl; [|exact Hrw].
  intros old new (_ & _ & Hpp & Hpm & _). auto.
Qed.

(** A bulk price update leaves the history of every record as it was. *)
Lemma bulk_update_keeps_history (updateData : Req.t) (st st' : Store)
    (report : Bulk.Report.t) :
  bulkUpdatePrices updateData st = (Normal report, st') ->
  Forall2 (fun old new => priceHistory new = priceHistory old)
          (products st) (products st').
Proof.
  intros Hrun.
  destruct (bulkUpdatePrices_rewrites updateData st) as (r & st1 & Hrun' & Hrw & _).
  rewrite Hrun in Hrun'. injection Hrun' as _ <-.
  eapply Forall2_impl; [|exact Hrw].
  intros old new (_ & _ & _ & _ & Hh). exact Hh.
Qed.

(** What a price-changing [update] does to the history: one entry more,
    and none when the patch has no price or repeats the current one. *)
Lemma update_history (id' : Z) (productData : Patch.t) (st st' : Store) (p : Product) :
  update id' productData st = (Normal p, st') ->
  exists current,
    In current (products st) /\ id current = id'
    /\ (price_changes productData current = true ->
        exists entry,
          priceHistory p
          = Some (match priceHistory current with Some h => h | None => [] end
                  ++ [entry])%list
          /\ reason entry = "Manual update"
          /\ oldPrice entry = price current
          /\ Some (newPrice entry) = Patch.price productData)
    /\ (price_changes productData current = false ->
        priceHistory p = over (Patch.priceHistory productData) (priceHistory current)).
Proof.
  intros Hrun.
  destruct (update_returns _ _ _ _ _ Hrun)
    as (index & current & Hfi & Hnth & _ & Hp & _).
  exists current.
  split; [eapply nth_error_In, Hnth|].
  split.
  { destruct (findIndex_Some _ _ _ Hfi) as (x & Hx & Hid).
    rewrite Hnth in Hx. injection Hx as <-. now apply Z.eqb_eq in Hid. }
  assert (Hh : forall q, priceHistory (recompute_margin q) = priceHistory q).
  { intros q. unfold recompute_margin.
    destruct (purchasePrice q); [|reflexivity].
    destruct (_ && _)%bool; reflexivity. }
  rewrite Hp, Hh. unfold price_changes, track_price_change.
  destruct (Patch.price productData) as [x|] eqn:Hx.
  - destruct (negb (JS.eqb x (price current))); split; intros H;
      try discriminate H; simpl.
    + eexists. split; [reflexivity|]. simpl. auto.
    + reflexivity.
  - split; intros H; [discriminate H | reflexivity].
Qed.

(** C2 at its failing input.  The bulk update of +10% on the one-product
    catalog commits the price change 100 -> 110 and counts it, and the
    product's [priceHistory] is as absent after the call as before: no
    entry, with reason "Bulk update" or any other, is appended. *)
Theorem bulk_update_appends_no_history :
  exists report st' p,
    bulkUpdatePrices (pricing_request "percentage" (Some 10) "all") margin_store
    = (Normal report, st')
    /\ Bulk.Report.updatedCount report = 1%nat
    /\ products st' = [p]
    /\ price margin_product == 100 /\ price p == 110
    /\ previousPrice p = Some 100
    /\ priceHistory margin_product = None
    /\ priceHistory p = None.
Proof.
  run_call (bulkUpdatePrices (pricing_request "percentage" (Some 10) "all")
              margin_store).
  eexists _, _, _. split; [reflexivity|].
  split; [reflexivity|]. split; [reflexivity|].
  repeat split; reflexivity.
Qed.

Lemma bind_run {A B : Type} (c : Eff A) (k : A -> Eff B) (st st1 : Store) (a : A) :
  c st = (Normal a, st1) -> bind c k st = k a st1.
Proof. intros H. unfold bind. now rewrite H. Qed.

(** The two ways an iteration ends: with a write, or without one. *)
Lemma bulk_iteration_commit (updateData : Req.t) (product current : Product)
    (s : Bulk.locals) (st : Store) (np : Q) (pushed : bool) (i : nat) :
  decide_price updateData product = (np, true, pushed) ->
  JS.ltb (1 # 100) (JS.Math_abs (np - price product)) = true ->
  JS.findIndex (fun q => (id q =? id product)%Z) (products st) = Some i ->
  nth_error (products st) i = Some current ->
  bulk_iteration updateData product s st
  = (Normal {| Bulk.updatedCount := S (Bulk.updatedCount s);
               Bulk.conflictProducts :=
                 if pushed then (Bulk.conflictProducts s ++ [product])%list
                 else Bulk.conflictProducts s |},
     {| products :=
          JS.set_nth i (committed_record updateData current (price product) np)
                     (products st);
        clock := clock st |}).
Proof.
  intros Hd Hgate Hfi Hnth. unfold bulk_iteration.
  rewrite Hd, Hgate. cbn [andb].
  unfold bind, get_products, set_products, ret.
  rewrite Hfi, Hnth. reflexivity.
Qed.

Lemma bulk_iteration_skip (updateData : Req.t) (product : Product)
    (s : Bulk.locals) (st : Store) (np : Q) (shouldUpdate pushed : bool) :
  decide_price updateData product = (np, shouldUpdate, pushed) ->
  shouldUpdate && JS.ltb (1 # 100) (JS.Math_abs (np - price product)) = false ->
  bulk_iteration updateData product s st
  = (Normal {| Bulk.updatedCount := Bulk.updatedCount s;
               Bulk.conflictProducts :=
                 if pushed then (Bulk.conflictProducts s ++ [product])%list
                 else Bulk.conflictProducts s |},
     st).
Proof.
  intros Hd Hgate. unfold bulk_iteration.
  rewrite Hd, Hgate. reflexivity.
Qed.

(** C4, as the code has it.  With [activeTab: 'pricing'] added to
    [{strategy:'percentage', value:10, category:'all'}], a catalog of two
    products with distinct ids priced 100 and 200 ends with the prices
    110 and 220, the old prices kept as [previousPrice], and
    [updatedCount = 2]. *)
Theorem bulk_percentage_on_pricing_tab (p1 p2 : Product) (t : Z) :
  price p1 = 100 -> price p2 = 200 -> id p1 <> id p2 ->
  exists report st' q1 q2,
    bulkUpdatePrices (pricing_request "percentage" (Some 10) "all")
                     {| products := [p1; p2]; clock := t |}
    = (Normal report, st')
    /\ Bulk.Report.updatedCount report = 2%nat
    /\ products st' = [q1; q2]
    /\ id q1 = id p1 /\ price q1 == 110 /\ previousPrice q1 = Some 100
    /\ id q2 = id p2 /\ price q2 == 220 /\ previousPrice q2 = Some 200.
Proof.
  intros H1 H2 Hid.
  set (req := pricing_request "percentage" (Some 10) "all").
  assert (D : forall p, decide_price req p
                        = (price_guards req (pricing_update req (price p)), true, false))
    by reflexivity.
  set (c1 := committed_record req p1 (price p1)
               (price_guards req (pricing_update req (price p1)))).
  set (c2 := committed_record req p2 (price p2)
               (price_guards req (pricing_update req (price p2)))).
  assert (L : for_of [p1; p2] (bulk_iteration req)
                {| Bulk.updatedCount := 0; Bulk.conflictProducts := [] |}
                {| products := [p1; p2]; clock := (t + 500)%Z |}
              = (Normal {| Bulk.updatedCount := 2; Bulk.conflictProducts := [] |},
                 {| products := [c1; c2]; clock := (t + 500)%Z |})).
  { cbn [for_of].
    erewrite bind_run; cycle 1.
    { eapply (bulk_iteration_commit req p1 p1 _ _ _ false 0 (D p1)).
      - rewrite H1. reflexivity.
      - cbn [products JS.findIndex]. now rewrite Z.eqb_refl.
      - reflexivity. }
    erewrite bind_run; cycle 1.
    { eapply (bulk_iteration_commit req p2 p2 _ _ _ false 1 (D p2)).
      - rewrite H2. reflexivity.
      - cbn [products JS.findIndex JS.set_nth committed_record id].
        apply Z.eqb_neq in Hid. rewrite Hid. now rewrite Z.eqb_refl.
      - reflexivity. }
    reflexivity. }
  exists {| Bulk.Report.updatedCount := 2;
            Bulk.Report.totalFiltered := 2;
            Bulk.Report.conflictCount := 0;
            Bulk.Report.strategy := "percentage";
            Bulk.Report.conflictProducts := [] |},
    {| products := [c1; c2]; clock := (t + 500)%Z |}, c1, c2.
  split.
  - unfold bulkUpdatePrices.
    erewrite bind_run by reflexivity.
    change (negb (isValid (validateBulkPriceUpdate req))) with false. cbv iota.
    erewrite bind_run by reflexivity.
    cbn [products].
    change (filter_products req [p1; p2]) with [p1; p2].
    erewrite bind_run by exact L.
    reflexivity.
  - subst c1 c2. cbn [Bulk.Report.updatedCount products committed_record
                      id price previousPrice].
    rewrite H1, H2. repeat split; reflexivity.
Qed.

(** The catalog of the specification's scenario 3. *)
Lemma bulk_percentage_on_pricing_tab_witness :
  exists report st' q1 q2,
    bulkUpdatePrices (pricing_request "percentage" (Some 10) "all") two_products
    = (Normal report, st')
    /\ Bulk.Report.updatedCount report = 2%nat
    /\ products st' = [q1; q2]
    /\ price q1 == 110 /\ price q2 == 220.
Proof.
  destruct (bulk_percentage_on_pricing_tab
              (plain_product 1 "Dairy" 100 None)
              (plain_product 2 "Bakery" 200 None) 0
              eq_refl eq_refl)
    as (report & st' & q1 & q2 & Hrun & Hcount & Hps & _ & Hq1 & _ & _ & Hq2 & _).
  - discriminate.
  - exists report, st', q1, q2. repeat split; assumption.
Defined.

(** C4 as stated fails.  The request with only [strategy], [value] and
    [category] has no [activeTab], so the pricing block is not entered:
    both prices stay and [updatedCount] is 0. *)
Lemma bare_percentage_request_updates_nothing :
  exists report st',
    bulkUpdatePrices (bare_request "percentage" (Some 10) "all") two_products
    = (Normal report, st')
    /\ Bulk.Report.updatedCount report = 0%nat
    /\ Bulk.Report.updatedCount report <> 2%nat
    /\ map price (products st') = [100; 200].
Proof.
  run_call (bulkUpdatePrices (bare_request "percentage" (Some 10) "all") two_products).
  eexists _, _. split; [reflexivity|].
  repeat split; try reflexivity. discriminate.
Qed.

(** ** Price history *)

Lemma insert_sorted_perm (x : PriceChangeEntry) (l : list PriceChangeEntry) :
  Permutation (x :: l) (JS.insert_sorted newest_first x l).
Proof.
  induction l as [|y l IH]; simpl; [reflexivity|].
  destruct (newest_first x y); [reflexivity|].
  rewrite perm_swap. now constructor.
Qed.

Lemma sort_perm (l : list PriceChangeEntry) :
  Permutation l (JS.sort newest_first l).
Proof.
  induction l as [|x l IH]; simpl; [constructor|].
  rewrite <- insert_sorted_perm. now constructor.
Qed.

Lemma insert_sorted_hd (x y : PriceChangeEntry) (l : list PriceChangeEntry) :
  not_older y x -> HdRel not_older y l ->
  HdRel not_older y (JS.insert_sorted newest_first x l).
Proof.
  intros Hyx Hl. destruct l as [|z l]; simpl; [now constructor|].
  destruct (newest_first x z); constructor; trivial.
  now inversion Hl.
Qed.

Lemma insert_sorted_sorted (x : PriceChangeEntry) (l : list PriceChangeEntry) :
  Sorted not_older l -> Sorted not_older (JS.insert_sorted newest_first x l).
Proof.
  induction l as [|y l IH]; intros Hs; simpl.
  - repeat constructor.
  - inversion Hs as [|? ? Hl Hhd]; subst.
    destruct (newest_first x y) eqn:E; unfold newest_first in E.
    + constructor; [exact Hs|]. constructor. unfold not_older. lia.
    + constructor; [now apply IH|].
      apply insert_sorted_hd; [unfold not_older; lia | exact Hhd].
Qed.

Lemma sort_most_recent_first (l : list PriceChangeEntry) :
  most_recent_first (JS.sort newest_first l).
Proof.
  apply Sorted_StronglySorted.
  - intros a b c. unfold not_older. lia.
  - induction l as [|x l IH]; simpl; [constructor|].
    now apply insert_sorted_sorted.
Qed.

(** The mock entries are built most recent first already. *)
Lemma sort_mockHistory (t : Z) (product : Product) :
  JS.sort newest_first (mockHistory t product) = mockHistory t product.
Proof.
  unfold mockHistory.
  destruct (previousPrice product) as [pp|]; cbn [app].
  - destruct (JS.truthy_num pp && negb (JS.eqb pp (price product)))%bool;
      destruct (JS.ltb 100 (price product)); cbn [app]; try reflexivity.
    cbn [JS.sort JS.insert_sorted]. unfold newest_first. cbn [date].
    destruct (Z.leb_spec (t - 7 * day_ms) (t - day_ms)) as [_|H];
      [reflexivity | unfold day_ms in H; lia].
  - destruct (JS.ltb 100 (price product)); reflexivity.
Qed.

Lemma mockHistory_empty (t : Z) (product : Product) :
  mockHistory t product = []
  <-> match previousPrice product with
      | Some pp => pp == 0 \/ pp == price product
      | None => True
      end
      /\ price product <= 100.
Proof.
  unfold mockHistory.
  destruct (JS.ltb 100 (price product)) eqn:Hp.
  - apply ltb_lt in Hp. split.
    + intros H. apply app_eq_nil in H. destruct H as [_ H]. discriminate H.
    + intros [_ H]. lra.
  - apply ltb_ge in Hp. rewrite app_nil_r.
    destruct (previousPrice product) as [pp|]; [|tauto].
    unfold JS.truthy_num.
    destruct (JS.eqb pp 0) eqn:Hz; cbn [negb andb].
    { apply eqb_eq in Hz. tauto. }
    apply eqb_neq in Hz.
    destruct (JS.eqb pp (price product)) eqn:He; cbn [negb].
    { apply eqb_eq in He. tauto. }
    apply eqb_neq in He.
    split; [discriminate | tauto].
Qed.

(** C3, as the code has it.  For a product the catalog has:
    with no recorded entries, [getPriceHistory] returns the generated
    mock history and leaves the catalog as it is; that list is empty
    exactly when the product has no [previousPrice] (or one that is 0 or
    equal to the price) and its price is at most 100, and otherwise holds
    the "Price adjustment" and/or "Seasonal adjustment" placeholder
    entries.  With recorded entries it returns exactly those entries,
    ordered most recent first. *)
Theorem getPriceHistory_returns (productId : Z) (st : Store) (product : Product) :
  found productId st product ->
  (no_recorded_history product ->
   exists st',
     getPriceHistory productId st
     = (Normal (mockHistory (clock st + 300) product), st')
     /\ products st' = products st
     /\ (mockHistory (clock st + 300) product = []
         <-> match previousPrice product with
             | Some pp => pp == 0 \/ pp == price product
             | None => True
             end
             /\ price product <= 100))
  /\ (forall e h,
        priceHistory product = Some (e :: h) ->
        exists sorted st',
          getPriceHistory productId st = (Normal sorted, st')
          /\ Permutation (e :: h) sorted
          /\ most_recent_first sorted).
Proof.
  intros (index & Hfi & Hnth).
  unfold getPriceHistory.
  erewrite bind_run by reflexivity.
  erewrite bind_run by reflexivity.
  cbn [products]. rewrite Hfi, Hnth.
  split.
  - intros Hno.
    destruct Hno as [Hno | Hno]; rewrite Hno;
      erewrite bind_run by reflexivity;
      cbn [clock]; rewrite sort_mockHistory;
      (eexists; split; [reflexivity|]; split; [reflexivity|];
       apply mockHistory_empty).
  - intros e h Hh. rewrite Hh.
    erewrite bind_run by reflexivity.
    eexists _, _. split; [reflexivity|].
    split; [apply sort_perm | apply sort_most_recent_first].
Qed.

(** A product with two recorded changes, and one with none. *)
Lemma getPriceHistory_returns_witness :
  (found 3 history_store history_product
   /\ exists sorted st',
        getPriceHistory 3 history_store = (Normal sorted, st')
        /\ most_recent_first sorted)
  /\ (found 7 unchanged_store unchanged_product
      /\ no_recorded_history unchanged_product
      /\ exists st',
           getPriceHistory 7 unchanged_store
           = (Normal (mockHistory (clock unchanged_store + 300) unchanged_product),
              st')).
Proof.
  assert (F3 : found 3 history_store history_product)
    by (exists 0%nat; split; reflexivity).
  assert (F7 : found 7 unchanged_store unchanged_product)
    by (exists 0%nat; split; reflexivity).
  assert (N7 : no_recorded_history unchanged_product) by (left; reflexivity).
  split.
  - split; [exact F3|].
    destruct (proj2 (getPriceHistory_returns 3 history_store history_product F3)
                _ _ eq_refl)
      as (sorted & st' & Hrun & _ & Hsorted).
    exists sorted, st'. split; assumption.
  - split; [exact F7|]. split; [exact N7|].
    destruct (proj1 (getPriceHistory_returns 7 unchanged_store unchanged_product F7)
                N7)
      as (st' & Hrun & _).
    exists st'. exact Hrun.
Defined.


(** C3 as stated fails.  Product 7, priced 150, has no recorded history,
    and [getPriceHistory(7)] returns one entry, the "Seasonal adjustment"
    placeholder with new price 150, dated a week before the call. *)
Lemma getPriceHistory_invents_entries :
  no_recorded_history unchanged_product
  /\ found 7 unchanged_store unchanged_product
  /\ exists entry st',
       getPriceHistory 7 unchanged_store = (Normal [entry], st')
       /\ reason entry = "Seasonal adjustment"
       /\ user entry = "System"
       /\ newPrice entry == 150
       /\ date entry = (1000000300 - 7 * day_ms)%Z.
Proof.
  split; [left; reflexivity|].
  split; [exists 0%nat; split; reflexivity|].
  run_call (getPriceHistory 7 unchanged_store).
  eexists _, _. split; [reflexivity|]. repeat split; reflexivity.
Qed.

(** ** Bulk update on a catalog with unique ids *)

Lemma filter_twice {A : Type} (f g : A -> bool) (l : list A) :
  filter g (filter f l) = filter (fun x => f x && g x) l.
Proof.
  induction l as [|x l IH]; simpl; [reflexivity|].
  destruct (f x); simpl; [destruct (g x)|]; now rewrite IH.
Qed.

Lemma filter_products_selected (updateData : Req.t) (ps : list Product) :
  filter_products updateData ps = filter (selected updateData) ps.
Proof.
  unfold filter_products, selected.
  destruct (String.eqb (Req.category updateData) "all"),
           (Req.applyToLowStock updateData); cbn [negb orb andb].
  - apply filter_ext. intros p. reflexivity.
  - induction ps as [|p ps IH]; simpl; congruence.
  - rewrite filter_twice. apply filter_ext. intros p. reflexivity.
  - apply filter_ext. intros p. now rewrite andb_true_r.
Qed.

Lemma findIndex_unique (ps : list Product) :
  forall p, NoDup (map id ps) -> In p ps ->
  exists i,
    JS.findIndex (fun q => (id q =? id p)%Z) ps = Some i
    /\ nth_error ps i = Some p.
Proof.
  induction ps as [|a ps IH]; intros p Hnd Hin; [destruct Hin|].
  inversion Hnd as [|? ? Hna Hnd']; subst.
  destruct Hin as [-> | Hin].
  - exists 0%nat. simpl. now rewrite Z.eqb_refl.
  - destruct (IH p Hnd' Hin) as (i & Hfi & Hnth).
    exists (S i). simpl.
    destruct (Z.eqb_spec (id a) (id p)) as [E|_].
    + exfalso. apply Hna. rewrite E. now apply in_map.
    + now rewrite Hfi.
Qed.

Lemma set_nth_same {A : Type} (l : list A) :
  forall i x, nth_error l i = Some x -> JS.set_nth i x l = l.
Proof.
  induction l as [|y l IH]; intros [|i] x; simpl; try discriminate.
  - now intros [= ->].
  - intros H. now rewrite (IH i x H).
Qed.

Lemma map_set_nth {A B : Type} (f : A -> B) (l : list A) :
  forall i v, map f (JS.set_nth i v l) = JS.set_nth i (f v) (map f l).
Proof.
  induction l as [|y l IH]; intros [|i] v; simpl; trivial.
  now rewrite IH.
Qed.

Lemma map_id_set_nth (ps : list Product) :
  forall i p v, nth_error ps i = Some p -> id v = id p ->
  map id (JS.set_nth i v ps) = map id ps.
Proof.
  intros i p v Hnth Hid. rewrite map_set_nth, Hid.
  apply set_nth_same. now rewrite nth_error_map, Hnth.
Qed.

Lemma In_set_nth_other (ps : list Product) :
  forall i p v r, nth_error ps i = Some p -> In r ps -> r <> p ->
  In r (JS.set_nth i v ps).
Proof.
  induction ps as [|a ps IH]; intros [|i] p v r; simpl; try discriminate.
  - intros [= ->] [-> | Hin] Hne; [congruence | now right].
  - intros Hnth [-> | Hin] Hne; [now left | right; eauto].
Qed.

(** Changing the one record with the id of [p] is a map over the
    catalog. *)
Lemma map_as_set_nth (ps : list Product) :
  forall i p (f g : Product -> Product),
    NoDup (map id ps) -> nth_error ps i = Some p ->
    (forall q, In q ps -> id q <> id p -> g q = f q) ->
    map g ps = JS.set_nth i (g p) (map f ps).
Proof.
  induction ps as [|a ps IH]; intros [|i] p f g Hnd Hnth Hfg;
    simpl in *; try discriminate.
  - injection Hnth as ->. f_equal.
    inversion Hnd as [|? ? Hna _]; subst.
    apply map_ext_in. intros q Hq. apply Hfg; [now right|].
    intros E. apply Hna. rewrite <- E. now apply in_map.
  - inversion Hnd as [|? ? Hna Hnd']; subst. f_equal.
    + apply Hfg; [now left|]. intros E. apply Hna. rewrite E.
      apply in_map. eapply nth_error_In, Hnth.
    + apply IH; auto.
Qed.

Lemma bulk_outcome_id (updateData : Req.t) (q : Product) :
  id (bulk_outcome updateData q) = id q.
Proof.
  unfold bulk_outcome.
  destruct (decide_price updateData q) as [[np su] pushed].
  destruct (su && _)%bool; reflexivity.
Qed.

(** An iteration on a record the store still holds puts the record's
    outcome in its place. *)
Lemma bulk_iteration_outcome (updateData : Req.t) (p : Product)
    (s : Bulk.locals) (st : Store) (i : nat) :
  JS.findIndex (fun q => (id q =? id p)%Z) (products st) = Some i ->
  nth_error (products st) i = Some p ->
  exists s',
    bulk_iteration updateData p s st
    = (Normal s',
       {| products := JS.set_nth i (bulk_outcome updateData p) (products st);
          clock := clock st |}).
Proof.
  intros Hfi Hnth. unfold bulk_outcome.
  destruct (decide_price updateData p) as [[np su] pushed] eqn:Hd.
  destruct (su && JS.ltb (1 # 100) (JS.Math_abs (np - price p)))%bool eqn:Hg.
  - apply andb_true_iff in Hg. destruct Hg as [-> Hg].
    eexists. eapply bulk_iteration_commit; eauto.
  - eexists. rewrite (bulk_iteration_skip _ _ _ _ _ _ _ Hd Hg).
    rewrite (set_nth_same _ _ _ Hnth). now destruct st.
Qed.

Lemma existsb_id_absent (l : list Product) (x : Z) :
  ~ In x (map id l) -> existsb (fun p => (id p =? x)%Z) l = false.
Proof.
  induction l as [|a l IH]; simpl; [reflexivity|].
  intros H. destruct (Z.eqb_spec (id a) x) as [E|_]; [tauto|].
  apply IH. tauto.
Qed.

Lemma NoDup_map_id_filter (f : Product -> bool) (l : list Product) :
  NoDup (map id l) -> NoDup (map id (filter f l)).
Proof.
  induction l as [|a l IH]; simpl; [trivial|].
  intros H. inversion H as [|? ? Hna Hnd]; subst.
  destruct (f a); simpl; auto.
  constructor; auto.
  intros Hin. apply Hna. apply in_map_iff in Hin.
  destruct Hin as (q & Hq & Hin). apply filter_In in Hin.
  rewrite <- Hq. apply in_map. tauto.
Qed.

Lemma existsb_id_filter (f : Product -> bool) (l : list Product) (q : Product) :
  NoDup (map id l) -> In q l ->
  existsb (fun p => (id p =? id q)%Z) (filter f l) = f q.
Proof.
  induction l as [|a l IH]; simpl; [tauto|].
  intros Hnd Hin. inversion Hnd as [|? ? Hna Hnd']; subst.
  destruct Hin as [-> | Hin].
  - destruct (f q) eqn:Hf.
    + simpl. now rewrite Z.eqb_refl.
    + apply existsb_id_absent. intros H. apply Hna.
      apply in_map_iff in H. destruct H as (r & Hr & Hin).
      apply filter_In in Hin. rewrite <- Hr. apply in_map. tauto.
  - assert (Hne : (id a =? id q)%Z = false).
    { apply Z.eqb_neq. intros E. apply Hna. rewrite E. now apply in_map. }
    destruct (f a); simpl; rewrite ?Hne; auto.
Qed.

(** The loop over records that the store holds, on a catalog with unique
    ids, is a map: the records of the list get their outcome, the others
    stay. *)
Lemma bulk_loop_map (updateData : Req.t) (l : list Product) :
  forall (s : Bulk.locals) (st : Store),
    NoDup (map id (products st)) -> NoDup (map id l) ->
    incl l (products st) ->
    exists s',
      for_of l (bulk_iteration updateData) s st
      = (Normal s',
         {| products :=
              map (fun q =>
                     if existsb (fun p => (id p =? id q)%Z) l
                     then bulk_outcome updateData q else q)
                  (products st);
            clock := clock st |}).
Proof.
  induction l as [|p rest IH]; intros s st Hnd Hl Hincl.
  - exists s. simpl. rewrite map_id. now destruct st.
  - inversion Hl as [|? ? Hnp Hrest]; subst.
    assert (Hin : In p (products st)) by (apply Hincl; now left).
    destruct (findIndex_unique _ p Hnd Hin) as (i & Hfi & Hnth).
    destruct (bulk_iteration_outcome updateData p s st i Hfi Hnth) as (s1 & Hrun).
    set (st1 := {| products := JS.set_nth i (bulk_outcome updateData p) (products st);
                   clock := clock st |}) in *.
    destruct (IH s1 st1) as (s2 & Hloop).
    + cbn [products st1].
      erewrite map_id_set_nth; eauto using bulk_outcome_id.
    + exact Hrest.
    + intros r Hr. cbn [products st1].
      eapply In_set_nth_other; eauto.
      * apply Hincl. now right.
      * intros ->. apply Hnp. now apply in_map.
    + exists s2. cbn [for_of]. erewrite bind_run by exact Hrun.
      rewrite Hloop. cbn [products clock st1]. f_equal. f_equal.
      rewrite map_set_nth.
      rewrite bulk_outcome_id, (existsb_id_absent rest (id p) Hnp).
      symmetry.
      rewrite (map_as_set_nth (products st) i p
                 (fun q => if existsb (fun p0 => (id p0 =? id q)%Z) rest
                           then bulk_outcome updateData q else q)
                 (fun q => if existsb (fun p0 => (id p0 =? id q)%Z) (p :: rest)
                           then bulk_outcome updateData q else q)
                 Hnd Hnth).
      * cbn [existsb]. now rewrite Z.eqb_refl.
      * intros q _ Hne. cbn [existsb].
        destruct (Z.eqb_spec (id p) (id q)) as [E|_]; [congruence | reflexivity].
Qed.

(** On a catalog with unique ids, a valid bulk request maps the catalog:
    every selected record is replaced by its outcome. *)
Lemma bulkUpdatePrices_unique_ids (updateData : Req.t) (st : Store) :
  NoDup (map id (products st)) ->
  isValid (validateBulkPriceUpdate updateData) = true ->
  exists report,
    bulkUpdatePrices updateData st
    = (Normal report,
       {| products :=
            map (fun q => if selected updateData q
                          then bulk_outcome updateData q else q)
                (products st);
          clock := (clock st + 500)%Z |}).
Proof.
  intros Hnd Hv. unfold bulkUpdatePrices.
  erewrite bind_run by reflexivity.
  rewrite Hv. cbn [negb].
  erewrite bind_run by reflexivity. cbn [products].
  rewrite filter_products_selected.
  edestruct (bulk_loop_map updateData (filter (selected updateData) (products st)))
    as (s' & Hloop); cycle 3.
  - erewrite bind_run by exact Hloop.
    eexists. unfold ret. f_equal. cbn [products clock]. f_equal.
    apply map_ext_in. intros q Hq.
    now rewrite (existsb_id_filter _ _ _ Hnd Hq).
  - exact Hnd.
  - cbn [products]. now apply NoDup_map_id_filter.
  - intros r Hr. cbn [products]. apply filter_In in Hr. tauto.
Qed.

(** ** Merge of category discounts *)

(** What the loop body decides for a record that carries a discount under
    a percentage merge request. *)
Lemma decide_price_merge (updateData : Req.t) (p : Product) :
  merge_percentage_request updateData ->
  JS.gt0 (discountValue p) = true ->
  decide_price updateData p
  = (if JS.leb (new_reduction updateData p) (existing_reduction p)
     then price_guards updateData (price p)
     else merged_price updateData p,
     negb (JS.leb (new_reduction updateData p) (existing_reduction p)),
     false).
Proof.
  intros (Htab & Hcd & Hres & Hty & _) Hgt.
  unfold decide_price, pricing_update, category_discount, resolve_conflict,
    merged_price, new_reduction, existing_reduction.
  rewrite Htab, Hcd, Hres, Hty, Hgt. cbn [JS.str_is String.eqb Ascii.eqb Bool.eqb andb].
  destruct (JS.leb _ _); cbn [andb]; reflexivity.
Qed.

Lemma bulk_outcome_merge (updateData : Req.t) (p : Product) :
  merge_percentage_request updateData ->
  JS.gt0 (discountValue p) = true ->
  (new_reduction updateData p <= existing_reduction p ->
   bulk_outcome updateData p = p)
  /\ (existing_reduction p < new_reduction updateData p ->
      (1 # 100 < Qabs (merged_price updateData p - price p) ->
       bulk_outcome updateData p
       = committed_record updateData p (price p) (merged_price updateData p))
      /\ (Qabs (merged_price updateData p - price p) <= 1 # 100 ->
          bulk_outcome updateData p = p)).
Proof.
  intros Hreq Hgt. unfold bulk_outcome.
  rewrite (decide_price_merge _ _ Hreq Hgt).
  split.
  - intros Hle. apply leb_le in Hle. now rewrite Hle.
  - intros Hlt. apply leb_gt in Hlt. rewrite Hlt. cbn [negb andb].
    unfold JS.Math_abs. split.
    + intros Hgate. apply ltb_lt in Hgate. now rewrite Hgate.
    + intros Hgate. apply ltb_ge in Hgate. now rewrite Hgate.
Qed.

(** The merge comparison as the code makes it, for a request whose new
    discount is of type 'percentage' on a catalog with unique ids; the
    reduction of the existing discount is taken as a percentage of the
    price only for the type 'Percentage'.  Every selected record
    that already carries a discount is still in the catalog, unchanged,
    when the reduction of its own discount is at least that of the new
    one.  Otherwise the record with its id holds the request's discount
    and the discounted, guarded and rounded price, provided that price
    is more than 0.01 away from the old one; when it is not, the record
    is still there unchanged. *)
Theorem merge_keeps_larger_reduction (updateData : Req.t) (st : Store) :
  NoDup (map id (products st)) ->
  merge_percentage_request updateData ->
  exists report st',
    bulkUpdatePrices updateData st = (Normal report, st')
    /\ forall p,
         In p (filter_products updateData (products st)) ->
         JS.gt0 (discountValue p) = true ->
         (new_reduction updateData p <= existing_reduction p ->
          In p (products st'))
         /\ (existing_reduction p < new_reduction updateData p ->
             (1 # 100 < Qabs (merged_price updateData p - price p) ->
              exists q,
                In q (products st')
                /\ id q = id p
                /\ price q = JS.round2 (merged_price updateData p)
                /\ previousPrice q = Some (price p)
                /\ discountType q = Some "percentage"
                /\ discountValue q
                   = Some (JS.parseFloat_or (Req.discountValue updateData) 0)
                /\ discountStartDate q = Req.discountStartDate updateData
                /\ discountEndDate q = Req.discountEndDate updateData)
             /\ (Qabs (merged_price updateData p - price p) <= 1 # 100 ->
                 In p (products st'))).
Proof.
  intros Hnd Hreq.
  destruct (bulkUpdatePrices_unique_ids updateData st Hnd) as (report & Hrun).
  { apply Hreq. }
  eexists _, _. split; [exact Hrun|].
  intros p Hp Hgt. cbn [products].
  rewrite filter_products_selected in Hp. apply filter_In in Hp.
  destruct Hp as [Hin Hsel].
  assert (Hout : In (bulk_outcome updateData p)
                    (map (fun q => if selected updateData q
                                   then bulk_outcome updateData q else q)
                         (products st))).
  { apply in_map_iff. exists p. now rewrite Hsel. }
  destruct (bulk_outcome_merge updateData p Hreq Hgt) as [Hkeep Hnew].
  split.
  - intros Hle. now rewrite (Hkeep Hle) in Hout.
  - intros Hlt. destruct (Hnew Hlt) as [Hcommit Hstay]. split.
    + intros Hgate. rewrite (Hcommit Hgate) in Hout.
      eexists. split; [exact Hout|].
      destruct Hreq as (Htab & Hcd & _ & Hty & _).
      cbn [committed_record id price previousPrice discountType discountValue
           discountStartDate discountEndDate].
      rewrite Htab, Hcd. cbn [JS.str_is String.eqb Ascii.eqb Bool.eqb andb].
      rewrite Hty. repeat split; reflexivity.
    + intros Hgate. now rewrite (Hstay Hgate) in Hout.
Qed.

(** A percentage discount of 20 merged into a catalog holding a fixed
    discount of 5 and a discount of 50%, both on price 100. *)
Lemma merge_keeps_larger_reduction_witness :
  exists report st',
    bulkUpdatePrices (merge_request "percentage" 20) merge_store
    = (Normal report, st')
    /\ In (discounted_product 2 100 "Percentage" 50) (products st')
    /\ exists q,
         In q (products st') /\ id q = 1%Z
         /\ discountType q = Some "percentage" /\ discountValue q = Some 20.
Proof.
  destruct (merge_keeps_larger_reduction (merge_request "percentage" 20) merge_store)
    as (report & st' & Hrun & Hall).
  - repeat constructor; simpl; intuition discriminate.
  - repeat split; reflexivity.
  - exists report, st'. split; [exact Hrun|]. split.
    + destruct (Hall (discounted_product 2 100 "Percentage" 50))
        as [Hkeep _].
      * right. left. reflexivity.
      * reflexivity.
      * apply Hkeep. vm_compute. discriminate.
    + destruct (Hall (discounted_product 1 100 "Fixed Amount" 5))
        as [_ Hnew].
      * left. reflexivity.
      * reflexivity.
      * destruct Hnew as [Hcommit _]; [reflexivity|].
        destruct Hcommit as (q & Hq & Hid & _ & _ & Hty & Hdv & _); [reflexivity|].
        exists q. repeat split; assumption.
Defined.

(** C7.  The merge branch is commented "Keep the higher discount", and
    it does not keep it.  A fixed new discount of 10 replaces an existing
    50% discount on price 100, a reduction of 50: the comparison is only
    made for a new discount of type 'percentage'.  And a 20% discount
    that this method itself stored, under the request's type
    'percentage', is replaced by a 5% one: on the price 800 the stored
    reduction is 160 and the new one 40, but the stored value is compared
    as the amount 20, because only the type 'Percentage' is taken as a
    percentage. *)
Theorem merge_replaces_larger_discount :
  (exists report st' q,
      bulkUpdatePrices (merge_request "fixed" 10) half_price_store
      = (Normal report, st')
      /\ products st' = [q]
      /\ discountType q = Some "fixed" /\ discountValue q = Some 10
      /\ price q == 90
      /\ 10 < 100 * 50 / 100)
  /\ (exists report1 st1 q1 report2 st2 q2,
         bulkUpdatePrices (merge_request "percentage" 20) thousand_store
         = (Normal report1, st1)
         /\ products st1 = [q1]
         /\ discountType q1 = Some "percentage" /\ discountValue q1 = Some 20
         /\ price q1 == 800
         /\ bulkUpdatePrices (merge_request "percentage" 5) st1
            = (Normal report2, st2)
         /\ products st2 = [q2]
         /\ discountType q2 = Some "percentage" /\ discountValue q2 = Some 5
         /\ price q2 == 760
         /\ 800 * 5 / 100 < 800 * 20 / 100).
Proof.
  split.
  - run_call (bulkUpdatePrices (merge_request "fixed" 10) half_price_store).
    eexists _, _, _. split; [reflexivity|].
    repeat split; reflexivity.
  - run_call (bulkUpdatePrices (merge_request "percentage" 20) thousand_store).
    eexists _, _, _. eexists _, _, _. split; [reflexivity|].
    split; [reflexivity|]. split; [reflexivity|]. split; [reflexivity|].
    split; [reflexivity|]. cbn [products].
    match goal with
    | |- context [bulkUpdatePrices ?r ?s] => run_call (bulkUpdatePrices r s)
    end.
    split; [reflexivity|].
    repeat split; reflexivity.
Qed.

(** * Further properties of the service *)

(** ** Profit rules, metrics and health *)

Lemma parseFloat_or_0 (q : Q) : JS.parseFloat_or (Some q) 0 == q.
Proof.
  simpl. destruct (JS.eqb q 0) eqn:E; [|reflexivity].
  apply eqb_eq in E. now rewrite E.
Qed.

Lemma parseFloat_or_nonzero (q : Q) : ~ q == 0 -> JS.parseFloat_or (Some q) 0 = q.
Proof.
  intros H. simpl. apply eqb_neq in H. now rewrite H.
Qed.

Lemma round2_mono (x y : Q) : x <= y -> JS.round2 x <= JS.round2 y.
Proof.
  intros H. unfold JS.round2, JS.Math_round.
  assert (L : (Qfloor (x * 100 + (1 # 2)) <= Qfloor (y * 100 + (1 # 2)))%Z)
    by (apply Qfloor_resp_le; lra).
  rewrite Zle_Qle in L.
  revert L. generalize (inject_Z (Qfloor (x * 100 + (1 # 2)))).
  generalize (inject_Z (Qfloor (y * 100 + (1 # 2)))). intros b a L.
  assert (Ea : a / 100 == a * (1 # 100)) by (unfold Qdiv; reflexivity).
  assert (Eb : b / 100 == b * (1 # 100)) by (unfold Qdiv; reflexivity).
  rewrite Ea, Eb. lra.
Qed.

(** A margin of at least 5% is a price of at least 1.05 times the cost. *)
Lemma margin_at_least_5 (f pp : Q) :
  0 < pp -> (5 <= ((f - pp) / pp) * 100 <-> (105 # 100) * pp <= f).
Proof.
  intros Hpp.
  assert (E : ((f - pp) / pp) * 100 * pp == (f - pp) * 100) by (field; lra).
  split; intros H.
  - assert (M : 5 * pp <= ((f - pp) / pp) * 100 * pp)
      by (apply Qmult_le_compat_r; lra).
    rewrite E in M. lra.
  - apply Qnot_lt_le. intros C.
    assert (M : ((f - pp) / pp) * 100 * pp < 5 * pp)
      by (apply Qmult_lt_compat_r; lra).
    rewrite E in M. lra.
Qed.

(** The checks an accepted product has passed, as the code tests them. *)
Lemma validateProfitRules_checks (productData : Product) :
  isValid (validateProfitRules productData) = true ->
  let purchasePrice := JS.parseFloat_or (purchasePrice productData) 0 in
  let price := JS.parseFloat_or (Some (price productData)) 0 in
  let discountValue := JS.parseFloat_or (discountValue productData) 0 in
  let discountType := discountType_or_fixed productData in
  JS.ltb price 1 = false
  /\ JS.ltb 100000 price = false
  /\ JS.ltb 0 purchasePrice && JS.leb price purchasePrice = false
  /\ (JS.ltb 0 discountValue = true ->
      String.eqb discountType "Percentage" && JS.ltb 90 discountValue = false
      /\ String.eqb discountType "Fixed Amount" && JS.leb price discountValue = false
      /\ (JS.ltb 0 purchasePrice = true ->
          JS.ltb (((discounted_price price discountValue discountType
                    - purchasePrice) / purchasePrice) * 100) 5 = false))
  /\ (JS.ltb 0 discountValue = false -> JS.ltb 0 purchasePrice = true ->
      JS.ltb (((price - purchasePrice) / purchasePrice) * 100) 5 = false).
Proof.
  unfold validateProfitRules. cbv zeta.
  destruct (JS.ltb (JS.parseFloat_or (Some (price productData)) 0) 1);
    [discriminate|].
  destruct (JS.ltb 100000 _); [discriminate|].
  destruct (JS.ltb 0 (JS.parseFloat_or (purchasePrice productData) 0)
            && _)%bool eqn:Hpp; [discriminate|].
  destruct (JS.ltb 0 (JS.parseFloat_or (discountValue productData) 0)) eqn:Hdv.
  - destruct (String.eqb _ "Percentage" && _)%bool; [discriminate|].
    destruct (String.eqb _ "Fixed Amount" && _)%bool; [discriminate|].
    destruct (JS.ltb 0 (JS.parseFloat_or (purchasePrice productData) 0)
              && JS.leb (discounted_price _ _ _) _)%bool; [discriminate|].
    destruct (JS.ltb 0 (JS.parseFloat_or (purchasePrice productData) 0)) eqn:Hp.
    + destruct (JS.ltb _ 5) eqn:Hm; [discriminate|].
      intros _. repeat split; trivial; try discriminate.
    + intros _. repeat split; trivial; discriminate.
  - destruct (JS.ltb 0 (JS.parseFloat_or (purchasePrice productData) 0)) eqn:Hp.
    + destruct (JS.ltb _ 5) eqn:Hm; [discriminate|].
      intros _. repeat split; trivial; discriminate.
    + intros _. repeat split; trivial; discriminate.
Qed.

Lemma effective_price_as_checked (productData : Product) :
  ~ price productData == 0 ->
  effective_price productData
  = if JS.ltb 0 (JS.parseFloat_or (discountValue productData) 0)
    then discounted_price (JS.parseFloat_or (Some (price productData)) 0)
           (JS.parseFloat_or (discountValue productData) 0)
           (discountType_or_fixed productData)
    else JS.parseFloat_or (Some (price productData)) 0.
Proof.
  intros H. unfold effective_price. now rewrite (parseFloat_or_nonzero _ H).
Qed.

(** What acceptance by [validateProfitRules] implies. *)
Lemma validateProfitRules_accepts (productData : Product) :
  isValid (validateProfitRules productData) = true ->
  let purchasePrice := JS.parseFloat_or (purchasePrice productData) 0 in
  let discountValue := JS.parseFloat_or (discountValue productData) 0 in
  (1 <= price productData /\ price productData <= 100000)
  /\ (0 < purchasePrice -> purchasePrice < price productData)
  /\ (0 < discountValue ->
      discountType_or_fixed productData = "Percentage" -> discountValue <= 90)
  /\ (0 < discountValue ->
      discountType_or_fixed productData = "Fixed Amount" ->
      discountValue < price productData)
  /\ (0 < purchasePrice ->
      (105 # 100) * purchasePrice <= effective_price productData).
Proof.
  intros Hv. cbv zeta.
  destruct (validateProfitRules_checks _ Hv) as (H1 & H2 & H3 & Hd & Hn).
  pose proof (parseFloat_or_0 (price productData)) as Ep.
  apply ltb_ge in H1, H2. rewrite Ep in H1, H2.
  assert (Hnz : ~ price productData == 0) by lra.
  rewrite (parseFloat_or_nonzero _ Hnz) in *.
  split; [split; assumption|].
  split.
  { intros Hpp. apply ltb_lt in Hpp. rewrite Hpp in H3. now apply leb_gt in H3. }
  split.
  { intros Hdv Hty. apply ltb_lt in Hdv. destruct (Hd Hdv) as (Hpc & _ & _).
    rewrite Hty in Hpc. now apply ltb_ge in Hpc. }
  split.
  { intros Hdv Hty. apply ltb_lt in Hdv. destruct (Hd Hdv) as (_ & Hfx & _).
    rewrite Hty in Hfx. now apply leb_gt in Hfx. }
  intros Hpp. unfold effective_price.
  assert (Hpp' := Hpp). apply ltb_lt in Hpp'.
  destruct (JS.ltb 0 (JS.parseFloat_or (discountValue productData) 0)) eqn:Hdv.
  - destruct (Hd eq_refl) as (_ & _ & Hm). specialize (Hm Hpp').
    apply ltb_ge in Hm. now apply margin_at_least_5 in Hm.
  - specialize (Hn eq_refl Hpp'). apply ltb_ge in Hn.
    now apply margin_at_least_5 in Hn.
Qed.



Lemma discountType_or_fixed_percentage (productData : Product) :
  String.eqb (discountType_or_fixed productData) "Percentage"
  = JS.str_is (discountType productData) "Percentage".
Proof.
  unfold discountType_or_fixed, JS.str_is.
  destruct (discountType productData) as [t|]; [|reflexivity].
  destruct (String.eqb_spec t "") as [-> | _]; reflexivity.
Qed.

(** The discounted price as [calculateProfitMetrics] writes it. *)
Lemma calculateProfitMetrics_margin (productData : Product) :
  ~ price productData == 0 ->
  0 < JS.parseFloat_or (purchasePrice productData) 0 ->
  0 < effective_price productData ->
  Metrics.profitMargin (calculateProfitMetrics productData)
  == JS.round2 (((effective_price productData
                  - JS.parseFloat_or (purchasePrice productData) 0)
                 / JS.parseFloat_or (purchasePrice productData) 0) * 100).
Proof.
  intros Hnz Hpp Heff.
  unfold calculateProfitMetrics. cbv zeta. cbn [Metrics.profitMargin].
  rewrite (parseFloat_or_nonzero _ Hnz).
  assert (E : (if JS.ltb 0 (JS.parseFloat_or (discountValue productData) 0)
               then if JS.str_is (discountType productData) "Percentage"
                    then price productData
                         - price productData
                           * JS.parseFloat_or (discountValue productData) 0 / 100
                    else price productData
                         - JS.parseFloat_or (discountValue productData) 0
               else price productData)
              = effective_price productData).
  { unfold effective_price, discounted_price.
    now rewrite discountType_or_fixed_percentage. }
  rewrite E.
  assert (M : JS.Math_max 0 (effective_price productData)
              == effective_price productData)
    by (apply Q.max_r; lra).
  apply ltb_lt in Hpp. rewrite Hpp. cbn [andb].
  assert (Hf : JS.ltb 0 (JS.Math_max 0 (effective_price productData)) = true)
    by (apply ltb_lt; rewrite M; exact Heff).
  rewrite Hf. apply round2_comp. now rewrite M.
Qed.

Lemma health_of_margin (q : Product) (m : Q) :
  profitMargin q = Some m -> 5 <= m ->
  getFinancialHealth (Some q) = "fair"
  \/ getFinancialHealth (Some q) = "good"
  \/ getFinancialHealth (Some q) = "excellent".
Proof.
  intros Hm H5. unfold getFinancialHealth. rewrite Hm.
  rewrite parseFloat_or_nonzero by lra.
  destruct (JS.leb 25 m); [tauto|].
  destruct (JS.leb 15 m); [tauto|].
  apply leb_le in H5. rewrite H5. tauto.
Qed.

(** A product that [validateProfitRules] accepts and that has a purchase
    price gets a margin of at least 5 from [calculateProfitMetrics], and a
    record storing that margin is rated fair, good or excellent by
    [getFinancialHealth], never poor or loss. *)
Theorem accepted_product_is_healthy (productData : Product) :
  isValid (validateProfitRules productData) = true ->
  0 < JS.parseFloat_or (purchasePrice productData) 0 ->
  5 <= Metrics.profitMargin (calculateProfitMetrics productData)
  /\ forall stored : Product,
       profitMargin stored
       = Some (Metrics.profitMargin (calculateProfitMetrics productData)) ->
       getFinancialHealth (Some stored) = "fair"
       \/ getFinancialHealth (Some stored) = "good"
       \/ getFinancialHealth (Some stored) = "excellent".
Proof.
  intros Hv Hpp.
  destruct (validateProfitRules_accepts _ Hv) as ((Hlo & _) & _ & _ & _ & Hm).
  specialize (Hm Hpp).
  assert (Hnz : ~ price productData == 0) by lra.
  assert (Heff : 0 < effective_price productData) by lra.
  assert (H5 : 5 <= Metrics.profitMargin (calculateProfitMetrics productData)).
  { rewrite (calculateProfitMetrics_margin _ Hnz Hpp Heff).
    apply margin_at_least_5 in Hm; [|exact Hpp].
    apply round2_mono in Hm.
    assert (R5 : JS.round2 5 == 5) by reflexivity.
    now rewrite R5 in Hm. }
  split; [exact H5|].
  intros stored Hs. eapply health_of_margin; eauto.
Qed.

Lemma accepted_product_is_healthy_witness :
  5 <= Metrics.profitMargin (calculateProfitMetrics discounted_margin_product)
  /\ (getFinancialHealth
        (Some (with_profitMargin discounted_margin_product
                 (Metrics.profitMargin
                    (calculateProfitMetrics discounted_margin_product))))
      = "fair").
Proof.
  destruct (accepted_product_is_healthy discounted_margin_product eq_refl eq_refl)
    as [H5 Hh].
  split; [exact H5|].
  destruct (Hh (with_profitMargin discounted_margin_product
                  (Metrics.profitMargin
                     (calculateProfitMetrics discounted_margin_product)))
               eq_refl) as [H | [H | H]].
  - exact H.
  - vm_compute in H. discriminate H.
  - vm_compute in H. discriminate H.
Defined.

(** ** Offer conflicts and the other validators *)

Lemma date_block_only_overlaps (A : Product) (all : list Product) (ex : option Z) :
  Forall (fun c => Conflict.type c = overlapping_dates)
         (date_overlap_conflicts A all ex).
Proof.
  unfold date_overlap_conflicts.
  destruct (_ && _ && _)%bool; [|constructor].
  match goal with |- Forall _ (flat_map _ ?l) => generalize l end.
  intros l. induction l as [|b l IH].
  - constructor.
  - cbn [flat_map].
    destruct (windows_overlap _ _ _ _); cbn [app]; [constructor|]; auto.
Qed.

(** Data that [validateProfitRules] accepts can be blocked by
    [validateOfferConflicts] only for overlapping dates: no
    [excessive_discount], [invalid_discount] or [low_profit_margin]
    conflict is reported for it, whatever the catalog. *)
Theorem accepted_data_conflicts_only_on_dates (productData : Product)
    (allProducts : list Product) (excludeId : option Z) :
  isValid (validateProfitRules productData) = true ->
  Forall (fun c => Conflict.type c = overlapping_dates)
         (Offer.conflicts (offer_conflicts productData allProducts excludeId)).
Proof.
  intros Hv.
  destruct (validateProfitRules_checks _ Hv) as (_ & _ & _ & Hd & _).
  cbv zeta in Hd. unfold discountType_or_fixed in Hd.
  pose proof (date_block_only_overlaps productData allProducts excludeId) as Hdates.
  unfold offer_conflicts. cbv zeta.
  destruct (JS.ltb 0 (JS.parseFloat_or (discountValue productData) 0)) eqn:Hdv.
  - destruct (Hd eq_refl) as (Hpc & Hfx & Hm).
    rewrite Hpc, Hfx.
    destruct (JS.ltb 0 (JS.parseFloat_or (purchasePrice productData) 0)) eqn:Hpp;
      cbn [andb Offer.conflicts].
    + rewrite (Hm eq_refl). exact Hdates.
    + exact Hdates.
  - rewrite andb_false_r. cbn [Offer.conflicts]. exact Hdates.
Qed.

Lemma accepted_data_conflicts_only_on_dates_witness :
  Forall (fun c => Conflict.type c = overlapping_dates)
         (Offer.conflicts
            (offer_conflicts discounted_margin_product
               [campaign_product 1 jan1 jan10] None)).
Proof.
  apply accepted_data_conflicts_only_on_dates. reflexivity.
Defined.

(** A product that carries no discount passes [validateOfferConflicts]
    with an empty conflict list and no error, whatever the catalog and
    its own dates, priority and prices.  It can still get a warning, but
    only the one about other products of the same priority in its
    category, never the one about a very low final price. *)
Theorem undiscounted_product_has_no_conflicts (productData : Product)
    (allProducts : list Product) (excludeId : option Z) (st : Store) :
  JS.gt0 (discountValue productData) = false ->
  exists r st',
    validateOfferConflicts (Some productData) allProducts excludeId st
    = (Normal r, st')
    /\ Offer.conflicts r = []
    /\ Offer.isValid r = true
    /\ Offer.error r = None
    /\ (Offer.warnings r = []
        \/ exists count,
             (0 < count)%nat
             /\ Offer.warnings r
                = [same_priority_level count (category productData)])
    /\ products st' = products st.
Proof.
  intros Hno. rewrite <- gt0_parseFloat_or in Hno.
  unfold validateOfferConflicts.
  erewrite bind_run by reflexivity.
  eexists _, _. split; [reflexivity|].
  unfold offer_conflicts, date_overlap_conflicts. cbv zeta.
  rewrite Hno, andb_false_r.
  cbn [andb Offer.conflicts Offer.isValid Offer.error Offer.warnings].
  repeat split.
  match goal with
  | |- context [(0 <? ?n)%nat] => destruct (0 <? n)%nat eqn:Hn
  end.
  - right. eexists. split; [apply Nat.ltb_lt, Hn | reflexivity].
  - now left.
Qed.

(** An undiscounted product, of the default priority 1, checked against
    a campaign of its category that has priority 1: valid, no conflicts,
    and the same-priority warning. *)
Lemma undiscounted_product_has_no_conflicts_witness :
  exists r st',
    validateOfferConflicts (Some undiscounted_product)
      [priority_campaign] None margin_store
    = (Normal r, st')
    /\ Offer.isValid r = true
    /\ Offer.conflicts r = []
    /\ Offer.warnings r = [same_priority_level 1 "Dairy"].
Proof.
  destruct (undiscounted_product_has_no_conflicts undiscounted_product
              [priority_campaign] None margin_store eq_refl)
    as (r & st' & Hrun & Hc & Hv & _).
  exists r, st'. split; [exact Hrun|]. split; [exact Hv|]. split; [exact Hc|].
  vm_compute in Hrun. injection Hrun as <- _. reflexivity.
Defined.

(** [getDisplayMetrics] and [getFinancialHealth] read the same stored
    margin and agree on it: the product is flagged not profitable exactly
    when its health is "loss", and a product flagged as having a healthy
    margin is rated good or excellent. *)
Theorem display_flags_agree_with_health (product : Product) :
  exists d,
    getDisplayMetrics (Some product) = Some d
    /\ (Display.isProfitable d = false
        <-> getFinancialHealth (Some product) = "loss")
    /\ (Display.isHealthyMargin d = true ->
        getFinancialHealth (Some product) = "good"
        \/ getFinancialHealth (Some product) = "excellent").
Proof.
  eexists. split; [reflexivity|].
  cbn [Display.isProfitable Display.isHealthyMargin]. unfold getFinancialHealth.
  set (m := JS.parseFloat_or (profitMargin product) 0).
  split.
  - split.
    + intros H. apply ltb_ge in H.
      destruct (JS.leb 25 m) eqn:E1; [apply leb_le in E1; lra|].
      destruct (JS.leb 15 m) eqn:E2; [apply leb_le in E2; lra|].
      destruct (JS.leb 5 m) eqn:E3; [apply leb_le in E3; lra|].
      destruct (JS.ltb 0 m) eqn:E4; [apply ltb_lt in E4; lra|].
      reflexivity.
    + destruct (JS.leb 25 m); [discriminate|].
      destruct (JS.leb 15 m); [discriminate|].
      destruct (JS.leb 5 m); [discriminate|].
      destruct (JS.ltb 0 m); [discriminate | reflexivity].
  - intros H. apply ltb_lt in H.
    destruct (JS.leb 25 m) eqn:E1; [tauto|].
    destruct (JS.leb 15 m) eqn:E2; [tauto|].
    apply leb_gt in E2. lra.
Qed.

Lemma health_rank_of_margin (product : Product) :
  let m := JS.parseFloat_or (profitMargin product) 0 in
  (25 <= m /\ health_rank (getFinancialHealth (Some product)) = 4%nat)
  \/ (15 <= m < 25 /\ health_rank (getFinancialHealth (Some product)) = 3%nat)
  \/ (5 <= m < 15 /\ health_rank (getFinancialHealth (Some product)) = 2%nat)
  \/ (0 < m < 5 /\ health_rank (getFinancialHealth (Some product)) = 1%nat)
  \/ (m <= 0 /\ health_rank (getFinancialHealth (Some product)) = 0%nat).
Proof.
  cbv zeta. unfold getFinancialHealth.
  set (m := JS.parseFloat_or (profitMargin product) 0).
  destruct (JS.leb 25 m) eqn:E1.
  { apply leb_le in E1. left. split; [exact E1 | reflexivity]. }
  apply leb_gt in E1.
  destruct (JS.leb 15 m) eqn:E2.
  { apply leb_le in E2. right. left. repeat split; trivial. }
  apply leb_gt in E2.
  destruct (JS.leb 5 m) eqn:E3.
  { apply leb_le in E3. right. right. left. repeat split; trivial. }
  apply leb_gt in E3.
  destruct (JS.ltb 0 m) eqn:E4.
  { apply ltb_lt in E4. right. right. right. left. repeat split; trivial. }
  apply ltb_ge in E4. right. right. right. right. split; [exact E4 | reflexivity].
Qed.

(** [getFinancialHealth] is monotone: a product whose stored margin is
    not smaller than another's never gets a worse label. *)
Theorem health_is_monotone (p q : Product) :
  JS.parseFloat_or (profitMargin p) 0 <= JS.parseFloat_or (profitMargin q) 0 ->
  (health_rank (getFinancialHealth (Some p))
   <= health_rank (getFinancialHealth (Some q)))%nat.
Proof.
  intros Hle.
  destruct (health_rank_of_margin p) as [[Hp ->] | [[Hp ->] | [[Hp ->] | [[Hp ->] | [Hp ->]]]]];
    destruct (health_rank_of_margin q) as [[Hq ->] | [[Hq ->] | [[Hq ->] | [[Hq ->] | [Hq ->]]]]];
    cbv zeta in *; try lia; exfalso; lra.
Qed.

Lemma health_is_monotone_witness :
  (health_rank (getFinancialHealth (Some discounted_margin_product))
   <= health_rank (getFinancialHealth (Some margin_product)))%nat.
Proof.
  apply health_is_monotone. vm_compute. discriminate.
Defined.

(** ** Catalog store *)

Lemma fold_max_id (ps : list Product) :
  forall a : Z,
    let m := fold_left (fun max product =>
                          if (max <? id product)%Z then id product else max)
                       ps a in
    (a <= m)%Z /\ forall p, In p ps -> (id p <= m)%Z.
Proof.
  induction ps as [|q ps IH]; intros a; cbn [fold_left].
  - split; [lia | intros p []].
  - destruct (IH (if (a <? id q)%Z then id q else a)) as [Ha Hin].
    cbv zeta in *.
    destruct (Z.ltb_spec a (id q)).
    + split; [lia|]. intros p [<- | Hp]; [lia | auto].
    + split; [lia|]. intros p [<- | Hp]; [lia | auto].
Qed.

Lemma fold_max_id_attained (ps : list Product) :
  forall a : Z,
    let m := fold_left (fun max product =>
                          if (max <? id product)%Z then id product else max)
                       ps a in
    m = a \/ exists p, In p ps /\ id p = m.
Proof.
  induction ps as [|q ps IH]; intros a; cbn [fold_left]; cbv zeta.
  - now left.
  - destruct (IH (if (a <? id q)%Z then id q else a)) as [E | (p & Hp & E)];
      cbv zeta in E.
    + destruct (a <? id q)%Z.
      * right. exists q. split; [now left | congruence].
      * left. exact E.
    + right. exists p. split; [now right | exact E].
Qed.

Lemma number_add_safe (x y : Z) :
  (Z.abs (x + y) <= 2 ^ 53)%Z -> number_add x y = (x + y)%Z.
Proof.
  intros H. unfold number_add, binary64_round. cbv zeta.
  apply Z.leb_le in H. now rewrite H.
Qed.

Lemma getNextId_runs (st : Store) :
  exists k, getNextId st = (Normal k, st).
Proof.
  unfold getNextId. erewrite bind_run by reflexivity.
  eexists. reflexivity.
Qed.

Lemma getNextId_spec (st : Store) :
  (forall p, In p (products st) -> (id p < 2 ^ 53)%Z) ->
  exists k,
    getNextId st = (Normal k, st)
    /\ (1 <= k)%Z
    /\ forall p, In p (products st) -> (id p < k)%Z.
Proof.
  intros Hsafe. unfold getNextId. erewrite bind_run by reflexivity.
  eexists. split; [reflexivity|].
  destruct (fold_max_id (products st) 0) as [H0 Hin]. cbv zeta in *.
  set (m := fold_left _ (products st) 0%Z) in *.
  assert (Hm : (m < 2 ^ 53)%Z).
  { destruct (fold_max_id_attained (products st) 0) as [E | (p & Hp & E)];
      fold m in E; [rewrite E; reflexivity | rewrite <- E; now apply Hsafe]. }
  rewrite number_add_safe by lia.
  split; [lia|]. intros p Hp. specialize (Hin p Hp). lia.
Qed.

Lemma getNextId_at_limit (st : Store) :
  (exists p, In p (products st) /\ id p = (2 ^ 53)%Z) ->
  (forall p, In p (products st) -> (id p <= 2 ^ 53)%Z) ->
  getNextId st = (Normal (2 ^ 53)%Z, st).
Proof.
  intros (p & Hp & Hid) Hmax. unfold getNextId.
  erewrite bind_run by reflexivity.
  destruct (fold_max_id (products st) 0) as [H0 Hin]. cbv zeta in *.
  set (m := fold_left _ (products st) 0%Z) in *.
  assert (Hm : (m <= 2 ^ 53)%Z).
  { destruct (fold_max_id_attained (products st) 0) as [E | (q & Hq & E)];
      fold m in E; [rewrite E; discriminate | rewrite <- E; now apply Hmax]. }
  assert (E : m = (2 ^ 53)%Z) by (specialize (Hin p Hp); lia).
  unfold ret. rewrite E. reflexivity.
Qed.

(** On a catalog whose ids are all below [2^53], [getNextId] returns an
    id that is at least 1 and above every id of the catalog, also on an
    empty catalog or one whose ids are all negative.  On a catalog whose
    largest id is [2^53] the sum [maxId + 1] is rounded back to [2^53]:
    the id returned is one the catalog already has.  The store is left as
    it is. *)
Theorem getNextId_is_fresh (st : Store) :
  exists k,
    getNextId st = (Normal k, st)
    /\ ((forall p, In p (products st) -> (id p < 2 ^ 53)%Z) ->
        (1 <= k)%Z /\ forall p, In p (products st) -> (id p < k)%Z)
    /\ ((exists p, In p (products st) /\ id p = (2 ^ 53)%Z) ->
        (forall p, In p (products st) -> (id p <= 2 ^ 53)%Z) ->
        k = (2 ^ 53)%Z).
Proof.
  destruct (getNextId_runs st) as (k & Hk).
  exists k. split; [exact Hk|]. split.
  - intros Hsafe. destruct (getNextId_spec st Hsafe) as (k' & Hk' & H).
    rewrite Hk in Hk'. injection Hk' as ->. exact H.
  - intros Hex Hmax. rewrite (getNextId_at_limit st Hex Hmax) in Hk.
    now injection Hk as <-.
Qed.

(** The next id of a catalog holding ids 1 and 2, and of one holding the
    id [2^53]. *)
Lemma getNextId_is_fresh_witness :
  (exists k, getNextId two_products = (Normal k, two_products) /\ (2 < k)%Z)
  /\ getNextId {| products := [plain_product (2 ^ 53) "Dairy" 100 None];
                  clock := 0 |}
     = (Normal (2 ^ 53)%Z,
        {| products := [plain_product (2 ^ 53) "Dairy" 100 None]; clock := 0 |}).
Proof.
  split.
  - destruct (getNextId_is_fresh two_products) as (k & Hk & Hsafe & _).
    exists k. split; [exact Hk|].
    destruct Hsafe as [_ Hfresh].
    + intros p [<- | [<- | []]]; reflexivity.
    + apply (Hfresh (plain_product 2 "Bakery" 200 None)).
      right. left. reflexivity.
  - destruct (getNextId_is_fresh
                {| products := [plain_product (2 ^ 53) "Dairy" 100 None];
                   clock := 0 |}) as (k & Hk & _ & Hlimit).
    rewrite Hk. f_equal. f_equal. apply Hlimit.
    + eexists. split; [left; reflexivity | reflexivity].
    + intros p [<- | []]. reflexivity.
Defined.

(** What [create] does to the store: on success the new record is
    appended after the records that were there; on a throw the catalog is
    as it was. *)
Lemma create_cases (productData : NewProduct.t) (st : Store) :
  (exists p nextId,
      create productData st
      = (Normal p, {| products := (products st ++ [p])%list;
                      clock := (clock st + 150)%Z |})
      /\ getNextId {| products := products st; clock := (clock st + 150)%Z |}
         = (Normal nextId,
            {| products := products st; clock := (clock st + 150)%Z |})
      /\ id p = match NewProduct.id productData with
                | Some own => own
                | None => nextId
                end
      /\ Some (price p) = NewProduct.price productData
      /\ 0 < price p /\ 0 <= stock p
      /\ Some (name p) = NewProduct.name productData)
  \/ (exists msg,
         create productData st
         = (Thrown msg, {| products := products st;
                           clock := (clock st + 150)%Z |})).
Proof.
  unfold create. erewrite bind_run by reflexivity.
  destruct (NewProduct.price productData) as [price'|];
    [|right; eexists; reflexivity].
  destruct (NewProduct.stock productData) as [stock'|];
    [|right; eexists; reflexivity].
  destruct (falsy_string (NewProduct.name productData)
            || negb (JS.truthy_num price'))%bool eqn:Hreq;
    [right; eexists; reflexivity|].
  destruct (JS.leb price' 0) eqn:Hp; [right; eexists; reflexivity|].
  destruct (stock' <? 0)%Z eqn:Hs; [right; eexists; reflexivity|].
  left.
  destruct (getNextId_runs
              {| products := products st; clock := (clock st + 150)%Z |})
    as (k & Hk).
  erewrite bind_run by exact Hk.
  erewrite bind_run by reflexivity.
  erewrite bind_run by reflexivity.
  eexists _, k. split; [reflexivity|]. split; [exact Hk|].
  cbn [id price stock name].
  split; [reflexivity|]. split; [reflexivity|].
  split; [now apply leb_gt in Hp|].
  split.
  - apply Z.ltb_ge in Hs. rewrite Zle_Qle in Hs. exact Hs.
  - apply orb_false_iff in Hreq. destruct Hreq as [Hn _].
    destruct (NewProduct.name productData); [reflexivity | discriminate].
Qed.

(** [create] either throws and leaves the catalog as it was, or appends
    exactly one record, with a positive price and a non-negative stock,
    behind the unchanged earlier records. *)
Theorem create_appends_or_leaves (productData : NewProduct.t) (st : Store) :
  (exists p st',
      create productData st = (Normal p, st')
      /\ products st' = (products st ++ [p])%list
      /\ 0 < price p /\ 0 <= stock p)
  \/ (exists msg st',
         create productData st = (Thrown msg, st')
         /\ products st' = products st).
Proof.
  destruct (create_cases productData st)
    as [(p & k & Hrun & _ & _ & _ & Hp & Hs & _) | (msg & Hrun)].
  - left. eexists _, _. split; [exact Hrun|]. repeat split; assumption.
  - right. eexists _, _. split; [exact Hrun | reflexivity].
Qed.

Lemma create_fresh_id (productData : NewProduct.t) (st st' : Store)
    (p : Product) :
  (forall q, In q (products st) -> (id q < 2 ^ 53)%Z) ->
  NewProduct.id productData = None ->
  create productData st = (Normal p, st') ->
  products st' = (products st ++ [p])%list
  /\ forall q, In q (products st) -> (id q < id p)%Z.
Proof.
  intros Hsafe Hown Hrun.
  destruct (create_cases productData st)
    as [(p' & k & Hrun' & Hk & Hid & _) | (msg & Hrun')];
    rewrite Hrun in Hrun'; [|discriminate].
  injection Hrun' as -> ->. rewrite Hown in Hid.
  destruct (getNextId_spec
              {| products := products st; clock := (clock st + 150)%Z |} Hsafe)
    as (k' & Hk' & _ & Hfresh).
  rewrite Hk in Hk'. injection Hk' as <-.
  cbn [products] in Hfresh. rewrite <- Hid in Hfresh.
  split; [reflexivity | exact Hfresh].
Qed.

(** On a catalog whose ids are all below [2^53], when the data brings
    no id of its own, [create] gives the new record an id above every id
    of the catalog, so a catalog with unique ids stays one. *)
Theorem create_keeps_ids_unique (productData : NewProduct.t) (st st' : Store)
    (p : Product) :
  (forall q, In q (products st) -> (id q < 2 ^ 53)%Z) ->
  NewProduct.id productData = None ->
  create productData st = (Normal p, st') ->
  (forall q, In q (products st) -> (id q < id p)%Z)
  /\ (NoDup (map id (products st)) -> NoDup (map id (products st'))).
Proof.
  intros Hsafe Hown Hrun.
  destruct (create_fresh_id _ _ _ _ Hsafe Hown Hrun) as [Hps Hfresh].
  split; [exact Hfresh|].
  intros Hnd. rewrite Hps, map_app. cbn [map].
  apply NoDup_app; [exact Hnd | repeat constructor; intros [] |].
  intros x Hx [<- | []].
  apply in_map_iff in Hx. destruct Hx as (q & Hq & Hin).
  specialize (Hfresh q Hin). lia.
Qed.

Lemma create_keeps_ids_unique_witness :
  exists p st',
    create milk_data margin_store = (Normal p, st')
    /\ id p = 2%Z
    /\ NoDup (map id (products st')).
Proof.
  destruct (create milk_data margin_store) as [[p|msg] st'] eqn:E.
  - destruct (create_keeps_ids_unique milk_data margin_store st' p)
      as [_ Hnd]; [intros q [<- | []]; reflexivity | reflexivity | exact E |].
    exists p, st'. split; [reflexivity|]. split.
    + vm_compute in E. injection E as <- _. reflexivity.
    + apply Hnd. repeat constructor. intros [].
  - vm_compute in E. discriminate E.
Defined.

Lemma find_app_fresh (ps : list Product) (p : Product) :
  (forall q, In q ps -> (id q < id p)%Z) ->
  find (fun q => (id q =? id p)%Z) (ps ++ [p]) = Some p.
Proof.
  induction ps as [|a ps IH]; intros H; cbn [app find].
  - now rewrite Z.eqb_refl.
  - destruct (Z.eqb_spec (id a) (id p)) as [E|_].
    + specialize (H a (or_introl eq_refl)). lia.
    + apply IH. intros q Hq. apply H. now right.
Qed.

(** On a catalog whose ids are all below [2^53], a record created without
    an id of its own is the one [getById] finds under its id afterwards:
    an admin gets the record as [create] returned it, any other role gets
    it without its financial fields. *)
Theorem create_then_getById (productData : NewProduct.t) (st st' : Store)
    (p : Product) (userRole : string) :
  (forall q, In q (products st) -> (id q < 2 ^ 53)%Z) ->
  NewProduct.id productData = None ->
  create productData st = (Normal p, st') ->
  exists st'',
    getById (id p) userRole st'
    = (Normal (if String.eqb userRole "admin" then p else filteredProduct p), st'')
    /\ products st'' = products st'.
Proof.
  intros Hsafe Hown Hrun.
  destruct (create_fresh_id _ _ _ _ Hsafe Hown Hrun) as [Hps Hfresh].
  unfold getById.
  erewrite bind_run by reflexivity.
  erewrite bind_run by reflexivity.
  cbn [products]. rewrite Hps, (find_app_fresh _ _ Hfresh).
  destruct (String.eqb userRole "admin"); cbn [negb];
    eexists; split; reflexivity.
Qed.

Lemma create_then_getById_witness :
  exists p st' st'',
    create milk_data margin_store = (Normal p, st')
    /\ getById (id p) "admin" st' = (Normal p, st'')
    /\ purchasePrice p = Some 100.
Proof.
  destruct (create milk_data margin_store) as [[p|msg] st'] eqn:E.
  - destruct (create_then_getById milk_data margin_store st' p "admin")
      as (st'' & Hget & _);
      [intros q [<- | []]; reflexivity | reflexivity | exact E |].
    exists p, st', st''. split; [reflexivity|]. split; [exact Hget|].
    vm_compute in E. injection E as <- _. reflexivity.
  - vm_compute in E. discriminate E.
Defined.

Lemma find_set_nth_first {A : Type} (pred : A -> bool) (l : list A) :
  forall i v,
    JS.findIndex pred l = Some i -> pred v = true ->
    find pred (JS.set_nth i v l) = Some v.
Proof.
  induction l as [|y l IH]; intros i v; cbn [JS.findIndex]; [discriminate|].
  destruct (pred y) eqn:Hy.
  - intros [= <-] Hv. cbn [JS.set_nth find]. now rewrite Hv.
  - destruct (JS.findIndex pred l) as [j|] eqn:Hj; [|discriminate].
    intros [= <-] Hv. cbn [JS.set_nth find]. rewrite Hy. now apply IH.
Qed.

Lemma update_keeps_id (current : Product) (t : Z) (productData : Patch.t) :
  id (recompute_margin (spread current (track_price_change t current productData)))
  = id current.
Proof.
  unfold recompute_margin.
  destruct (purchasePrice _); [|reflexivity].
  destruct (_ && _)%bool; reflexivity.
Qed.

(** The record a successful [update] returns is the one [getById] gives
    an admin under the same id afterwards, and reading does not change
    the catalog. *)
Theorem update_then_getById (id' : Z) (productData : Patch.t) (st st' : Store)
    (p : Product) :
  update id' productData st = (Normal p, st') ->
  exists st'',
    getById id' "admin" st' = (Normal p, st'')
    /\ products st'' = products st'.
Proof.
  intros Hrun.
  destruct (update_returns _ _ _ _ _ Hrun)
    as (index & current & Hfi & Hnth & _ & Hp & Hst).
  destruct (findIndex_Some _ _ _ Hfi) as (x & Hx & Hid).
  rewrite Hnth in Hx. injection Hx as <-.
  unfold getById.
  erewrite bind_run by reflexivity.
  erewrite bind_run by reflexivity.
  rewrite Hst. cbn [products].
  rewrite (find_set_nth_first _ _ _ _ Hfi).
  - cbn [negb String.eqb]. eexists. split; reflexivity.
  - cbn beta. rewrite Hp, update_keeps_id. exact Hid.
Qed.

Lemma update_then_getById_witness :
  exists p st' st'',
    update 1 (prices_patch 120 80) margin_store = (Normal p, st')
    /\ getById 1 "admin" st' = (Normal p, st'')
    /\ price p = 120.
Proof.
  destruct (update 1 (prices_patch 120 80) margin_store) as [[p|msg] st'] eqn:E.
  - destruct (update_then_getById _ _ _ _ _ E) as (st'' & Hget & _).
    exists p, st', st''. split; [reflexivity|]. split; [exact Hget|].
    vm_compute in E. injection E as <- _. reflexivity.
  - vm_compute in E. discriminate E.
Defined.

Lemma splice1_length {A : Type} (l : list A) :
  forall i x, nth_error l i = Some x ->
  S (List.length (splice1 i l)) = List.length l.
Proof.
  induction l as [|y l IH]; intros [|i] x; cbn; try discriminate.
  - reflexivity.
  - intros H. f_equal. eapply IH, H.
Qed.

Lemma find_splice1_other {A : Type} (pred : A -> bool) (l : list A) :
  forall i x, nth_error l i = Some x -> pred x = false ->
  find pred (splice1 i l) = find pred l.
Proof.
  induction l as [|y l IH]; intros [|i] x; cbn; try discriminate.
  - intros [= ->] Hx. now rewrite Hx.
  - intros Hn Hx. destruct (pred y); [reflexivity | eapply IH; eauto].
Qed.

Lemma find_id_absent (ps : list Product) (k : Z) :
  ~ In k (map id ps) -> find (fun p => (id p =? k)%Z) ps = None.
Proof.
  induction ps as [|a ps IH]; cbn; [reflexivity|].
  intros H. destruct (Z.eqb_spec (id a) k); [tauto | apply IH; tauto].
Qed.

Lemma find_splice1_unique (ps : list Product) (k : Z) :
  forall i,
    NoDup (map id ps) ->
    JS.findIndex (fun p => (id p =? k)%Z) ps = Some i ->
    find (fun p => (id p =? k)%Z) (splice1 i ps) = None.
Proof.
  induction ps as [|a ps IH]; intros i Hnd; cbn [JS.findIndex]; [discriminate|].
  inversion Hnd as [|? ? Hna Hnd']; subst.
  destruct (Z.eqb_spec (id a) k) as [E|E].
  - intros [= <-]. cbn [splice1]. apply find_id_absent. now rewrite <- E.
  - destruct (JS.findIndex _ ps) as [j|] eqn:Hj; [|discriminate].
    intros [= <-]. cbn [splice1 find].
    destruct (Z.eqb_spec (id a) k); [contradiction | now apply IH].
Qed.

Lemma findIndex_None_find {A : Type} (pred : A -> bool) (l : list A) :
  JS.findIndex pred l = None -> find pred l = None.
Proof.
  induction l as [|y l IH]; cbn; [reflexivity|].
  destruct (pred y); [discriminate|].
  destruct (JS.findIndex pred l); [discriminate | auto].
Qed.

(** [delete] either throws "Product not found" for an id the catalog
    does not have and leaves the catalog as it was, or returns [true]
    with exactly one record fewer, and then every other id is looked up
    as before. *)
Theorem delete_removes_one_record (id' : Z) (st : Store) :
  (exists st',
      delete id' st = (Normal true, st')
      /\ S (List.length (products st')) = List.length (products st)
      /\ forall other,
           other <> id' ->
           find (fun p => (id p =? other)%Z) (products st')
           = find (fun p => (id p =? other)%Z) (products st))
  \/ (exists st',
         delete id' st = (Thrown "Product not found", st')
         /\ find (fun p => (id p =? id')%Z) (products st) = None
         /\ products st' = products st).
Proof.
  unfold delete.
  erewrite bind_run by reflexivity.
  erewrite bind_run by reflexivity.
  cbn [products].
  destruct (JS.findIndex (fun p => (id p =? id')%Z) (products st)) as [index|] eqn:Hfi.
  - left. destruct (findIndex_Some _ _ _ Hfi) as (x & Hx & Hid).
    apply Z.eqb_eq in Hid.
    erewrite bind_run by reflexivity.
    eexists. split; [reflexivity|]. cbn [products].
    split; [eapply splice1_length, Hx|].
    intros other Hne. eapply find_splice1_other; [exact Hx|].
    apply Z.eqb_neq. congruence.
  - right. eexists. split; [reflexivity|].
    split; [now apply findIndex_None_find | reflexivity].
Qed.

(** On a catalog with unique ids, a deleted id is gone: [getById] throws
    "Product not found" for it afterwards, whatever the role. *)
Theorem delete_then_getById (id' : Z) (st st' : Store) (b : bool)
    (userRole : string) :
  NoDup (map id (products st)) ->
  delete id' st = (Normal b, st') ->
  exists st'',
    getById id' userRole st' = (Thrown "Product not found", st'')
    /\ products st'' = products st'.
Proof.
  intros Hnd. unfold delete.
  erewrite bind_run by reflexivity.
  erewrite bind_run by reflexivity.
  cbn [products].
  destruct (JS.findIndex (fun p => (id p =? id')%Z) (products st)) as [index|] eqn:Hfi;
    [|discriminate].
  erewrite bind_run by reflexivity.
  intros [= _ <-].
  unfold getById.
  erewrite bind_run by reflexivity.
  erewrite bind_run by reflexivity.
  cbn [products]. rewrite (find_splice1_unique _ _ _ Hnd Hfi).
  eexists. split; reflexivity.
Qed.

Lemma delete_then_getById_witness :
  exists st' st'',
    delete 1 two_products = (Normal true, st')
    /\ getById 1 "customer" st' = (Thrown "Product not found", st'')
    /\ List.length (products st') = 1%nat.
Proof.
  destruct (delete 1 two_products) as [[b|msg] st'] eqn:E.
  - destruct (delete_then_getById 1 two_products st' b "customer") as (st'' & Hg & _).
    + repeat constructor; simpl; intuition discriminate.
    + exact E.
    + vm_compute in E. injection E as <- <-.
      eexists _, st''. split; [reflexivity|]. split; [exact Hg | reflexivity].
  - vm_compute in E. discriminate E.
Defined.

Lemma spread_no_changes (current : Product) : spread current no_changes = current.
Proof. destruct current. reflexivity. Qed.

Lemma recompute_margin_idempotent (c : Product) :
  recompute_margin (recompute_margin c) = recompute_margin c.
Proof.
  unfold recompute_margin at 2.
  destruct (purchasePrice c) as [pp|] eqn:Hpp.
  - destruct (JS.truthy_num (price c) && JS.truthy_num pp)%bool eqn:Ht.
    + unfold recompute_margin. cbn [purchasePrice price with_profitMargin].
      rewrite Hpp, Ht. reflexivity.
    + unfold recompute_margin. now rewrite Hpp, Ht.
  - unfold recompute_margin. now rewrite Hpp.
Qed.

Lemma findIndex_set_nth {A : Type} (pred : A -> bool) (l : list A) :
  forall i v,
    JS.findIndex pred l = Some i -> pred v = true ->
    JS.findIndex pred (JS.set_nth i v l) = Some i
    /\ nth_error (JS.set_nth i v l) i = Some v
    /\ JS.set_nth i v (JS.set_nth i v l) = JS.set_nth i v l.
Proof.
  induction l as [|y l IH]; intros i v; cbn [JS.findIndex]; [discriminate|].
  destruct (pred y) eqn:Hy.
  - intros [= <-] Hv. cbn. now rewrite Hv.
  - destruct (JS.findIndex pred l) as [j|] eqn:Hj; [|discriminate].
    intros [= <-] Hv. destruct (IH j v eq_refl Hv) as (H1 & H2 & H3).
    cbn. now rewrite Hy, H1, H2, H3.
Qed.

(** [update(id, {})] appends no history and changes no price: it returns
    the stored record with at most its [profitMargin] recomputed.
    Repeating it returns the same record and leaves the catalog as the
    first call left it. *)
Theorem update_without_changes (id' : Z) (st st1 : Store) (p : Product) :
  update id' no_changes st = (Normal p, st1) ->
  (exists current,
      found id' st current
      /\ p = recompute_margin current
      /\ priceHistory p = priceHistory current
      /\ price p = price current)
  /\ exists st2,
       update id' no_changes st1 = (Normal p, st2)
       /\ products st2 = products st1.
Proof.
  intros Hrun.
  destruct (update_returns _ _ _ _ _ Hrun)
    as (index & current & Hfi & Hnth & _ & Hp & Hst).
  change (track_price_change (clock st + 150) current no_changes)
    with no_changes in Hp.
  rewrite spread_no_changes in Hp.
  split.
  - exists current. split; [exists index; auto|]. split; [exact Hp|].
    rewrite Hp. unfold recompute_margin.
    destruct (purchasePrice current); [|auto].
    destruct (_ && _)%bool; auto.
  - destruct (findIndex_Some _ _ _ Hfi) as (x & Hx & Hid).
    rewrite Hnth in Hx. injection Hx as <-.
    assert (Hidp : (id p =? id')%Z = true).
    { rewrite Hp. unfold recompute_margin. destruct (purchasePrice current); [|exact Hid].
      destruct (_ && _)%bool; exact Hid. }
    destruct (findIndex_set_nth _ _ _ p Hfi Hidp) as (F1 & F2 & F3).
    rewrite Hst. unfold update.
    erewrite bind_run by reflexivity.
    erewrite bind_run by reflexivity.
    cbn [products clock]. rewrite F1. cbn [JS.opt_leb_l Patch.price Patch.stock
                                           Patch.purchasePrice no_changes].
    rewrite F2.
    erewrite bind_run by reflexivity.
    change (track_price_change _ p no_changes) with no_changes.
    cbv zeta. rewrite spread_no_changes.
    assert (Hpp : recompute_margin p = p)
      by (rewrite Hp; apply recompute_margin_idempotent).
    rewrite Hpp.
    erewrite bind_run by reflexivity.
    eexists. split; [reflexivity|]. cbn [products]. exact F3.
Qed.

Lemma update_without_changes_witness :
  exists p st1 st2,
    update 1 no_changes margin_store = (Normal p, st1)
    /\ update 1 no_changes st1 = (Normal p, st2)
    /\ priceHistory p = None.
Proof.
  destruct (update 1 no_changes margin_store) as [[p|msg] st1] eqn:E.
  - destruct (update_without_changes _ _ _ _ E) as (_ & st2 & Hagain & _).
    exists p, st1, st2. split; [reflexivity|]. split; [exact Hagain|].
    vm_compute in E. injection E as <- _. reflexivity.
  - vm_compute in E. discriminate E.
Defined.

(** The update [{ price: 120 }] of the product priced 100 pushes its one
    history entry. *)
Lemma update_history_witness :
  exists p st' entry,
    update 1 (price_patch 120) margin_store = (Normal p, st')
    /\ priceHistory p = Some [entry]
    /\ reason entry = "Manual update"
    /\ oldPrice entry = 100.
Proof.
  destruct (update 1 (price_patch 120) margin_store) as [[p|msg] st'] eqn:E.
  - destruct (update_history _ _ _ _ _ E)
      as (current & Hin & _ & Hchange & _).
    destruct Hin as [<- | []].
    destruct (Hchange eq_refl) as (entry & Hh & Hr & Ho & _).
    exists p, st', entry. repeat split; assumption.
  - vm_compute in E. discriminate E.
Defined.

(** ** Bulk price update: store invariants and the report *)

Section BulkInvariant.
Variable R : Product -> Product -> Prop.
Hypothesis R_refl : forall p, R p p.
Hypothesis R_trans : forall p q r, R p q -> R q r -> R p r.
Variable updateData : Req.t.
Hypothesis R_commit :
  forall product current np pushed,
    decide_price updateData product = (np, true, pushed) ->
    JS.ltb (1 # 100) (JS.Math_abs (np - price product)) = true ->
    R current (committed_record updateData current (price product) np).

Lemma Forall2_R_refl (ps : list Product) : Forall2 R ps ps.
Proof. induction ps; constructor; auto. Qed.

Lemma Forall2_R_trans (ps qs rs : list Product) :
  Forall2 R ps qs -> Forall2 R qs rs -> Forall2 R ps rs.
Proof.
  intros H. revert rs. induction H; intros rs H2; inversion H2; subst;
    constructor; eauto.
Qed.

Lemma Forall2_R_set_nth (ps : list Product) :
  forall i current v,
    nth_error ps i = Some current -> R current v ->
    Forall2 R ps (JS.set_nth i v ps).
Proof.
  induction ps as [|p ps IH]; intros [|i] current v Hn Hr; simpl in *;
    try discriminate.
  - injection Hn as ->. constructor; auto using Forall2_R_refl.
  - constructor; eauto.
Qed.

Lemma bulk_iteration_invariant (product : Product)
    (s : Bulk.locals) (st : Store) :
  exists s' st',
    bulk_iteration updateData product s st = (Normal s', st')
    /\ Forall2 R (products st) (products st').
Proof.
  destruct (decide_price updateData product) as [[np su] pushed] eqn:Hd.
  destruct (su && JS.ltb (1 # 100) (JS.Math_abs (np - price product)))%bool eqn:Hg.
  - apply andb_true_iff in Hg. destruct Hg as [-> Hg].
    destruct (JS.findIndex (fun q => (id q =? id product)%Z) (products st))
      as [i|] eqn:Hfi.
    + destruct (findIndex_Some _ _ _ Hfi) as (current & Hnth & _).
      rewrite (bulk_iteration_commit _ _ _ _ _ _ _ _ Hd Hg Hfi Hnth).
      eexists _, _. split; [reflexivity|]. cbn [products].
      eapply Forall2_R_set_nth; eauto.
    + unfold bulk_iteration. rewrite Hd, Hg. cbn [andb].
      unfold bind, get_products, ret. rewrite Hfi.
      eexists _, _. split; [reflexivity | apply Forall2_R_refl].
  - rewrite (bulk_iteration_skip _ _ _ _ _ _ _ Hd Hg).
    eexists _, _. split; [reflexivity | apply Forall2_R_refl].
Qed.

Lemma bulk_loop_invariant (l : list Product) :
  forall (s : Bulk.locals) (st : Store),
  exists s' st',
    for_of l (bulk_iteration updateData) s st = (Normal s', st')
    /\ Forall2 R (products st) (products st').
Proof.
  induction l as [|p l IH]; intros s st.
  - exists s, st. split; [reflexivity | apply Forall2_R_refl].
  - destruct (bulk_iteration_invariant p s st) as (s1 & st1 & Hrun & H1).
    destruct (IH s1 st1) as (s2 & st2 & Hrest & H2).
    exists s2, st2. cbn [for_of]. erewrite bind_run by exact Hrun.
    split; [exact Hrest | eapply Forall2_R_trans; eauto].
Qed.

Lemma bulkUpdatePrices_invariant (st st' : Store) (report : Bulk.Report.t) :
  bulkUpdatePrices updateData st = (Normal report, st') ->
  Forall2 R (products st) (products st').
Proof.
  unfold bulkUpdatePrices.
  erewrite bind_run by reflexivity.
  destruct (negb (isValid (validateBulkPriceUpdate updateData))); [discriminate|].
  erewrite bind_run by reflexivity. cbn [products]. cbv zeta.
  match goal with
  | |- context [bind (for_of ?l _ ?s) _ ?t] =>
      destruct (bulk_loop_invariant l s t) as (s' & st1 & Hrun & H)
  end.
  erewrite bind_run by exact Hrun.
  intros [= _ <-]. exact H.
Qed.
End BulkInvariant.

Lemma Qabs_gt_split (x c : Q) : c < Qabs x <-> c < x \/ c < - x.
Proof.
  apply Qabs_case; intros H; split; intros H'.
  - now left.
  - destruct H'; lra.
  - now right.
  - destruct H'; lra.
Qed.

Lemma Qabs_gt_bound (x c : Q) : c < Qabs x -> forall y, Qabs (y - x) <= c / 2 ->
  c / 2 < Qabs y.
Proof.
  intros Hx y Hy.
  assert (E : c / 2 == c * (1 # 2)) by (unfold Qdiv; reflexivity).
  rewrite E in *.
  apply Qabs_gt_split in Hx. apply Qabs_gt_split.
  apply Qabs_Qle_condition in Hy. destruct Hy as [Hlo Hhi].
  destruct Hx; [left | right]; lra.
Qed.

Lemma gate_survives_rounding (np x : Q) :
  JS.ltb (1 # 100) (JS.Math_abs (np - x)) = true ->
  1 # 200 < Qabs (JS.round2 np - x).
Proof.
  intros Hgate. apply ltb_lt in Hgate. unfold JS.Math_abs in Hgate.
  destruct (round2_bounds np) as [Hlo Hhi].
  assert (Hr : Qabs (JS.round2 np - x - (np - x)) <= (1 # 100) / 2).
  { apply Qabs_Qle_condition.
    assert (E : (1 # 100) / 2 == 1 # 200) by reflexivity.
    rewrite E. split; lra. }
  pose proof (Qabs_gt_bound _ _ Hgate _ Hr) as H.
  assert (E : (1 # 100) / 2 == 1 # 200) by reflexivity.
  now rewrite E in H.
Qed.

Lemma bulk_run_is_valid (updateData : Req.t) (st st' : Store)
    (report : Bulk.Report.t) :
  bulkUpdatePrices updateData st = (Normal report, st') ->
  isValid (validateBulkPriceUpdate updateData) = true.
Proof.
  unfold bulkUpdatePrices. erewrite bind_run by reflexivity.
  destruct (isValid (validateBulkPriceUpdate updateData));
    [reflexivity | discriminate].
Qed.

Lemma bulk_outcome_replaces (updateData : Req.t) (q : Product) :
  price_replaced q (bulk_outcome updateData q).
Proof.
  unfold bulk_outcome.
  destruct (decide_price updateData q) as [[np su] pushed].
  destruct su; cbn [andb]; [|now left].
  destruct (JS.ltb (1 # 100) (JS.Math_abs (np - price q))) eqn:Hgate;
    [|now left].
  right. cbn [committed_record previousPrice price].
  split; [reflexivity | now apply gate_survives_rounding].
Qed.

(** Every record a bulk price update writes carries a [previousPrice], and
    its new price is more than 0.005 away from that price: the final
    rounding cannot undo the change the commit gate asked for.  Every
    other record is left as it was.  On a catalog with unique ids the
    remembered price is the one the record itself had before. *)
Theorem bulk_committed_price_differs (updateData : Req.t) (st st' : Store)
    (report : Bulk.Report.t) :
  bulkUpdatePrices updateData st = (Normal report, st') ->
  Forall2 price_moved (products st) (products st')
  /\ (NoDup (map id (products st)) ->
      Forall2 price_replaced (products st) (products st')).
Proof.
  intros Hrun. split.
  - revert Hrun. apply bulkUpdatePrices_invariant.
    + intros p. now left.
    + intros p q r H1 [-> | H2]; [exact H1 | right; exact H2].
    + intros product current np pushed _ Hgate. right.
      exists (price product). split; [reflexivity|].
      cbn [price committed_record]. now apply gate_survives_rounding.
  - intros Hnd.
    destruct (bulkUpdatePrices_unique_ids updateData st Hnd
                (bulk_run_is_valid _ _ _ _ Hrun)) as (report' & Hrun').
    rewrite Hrun in Hrun'. injection Hrun' as _ ->. cbn [products].
    generalize (products st). intros ps.
    induction ps as [|q ps IH]; cbn [map]; constructor; [|exact IH].
    destruct (selected updateData q); [apply bulk_outcome_replaces | now left].
Qed.

(** The range request [50, 80] on the product priced 100: the record is
    written with price 80 and remembers 100.  And a 10% rise on two
    records that share the id 1, priced 100 and 200: the first one ends
    priced 220 and remembers 200, the price of the second. *)
Lemma bulk_committed_price_differs_witness :
  (exists report st' q,
      bulkUpdatePrices range_request_50_80 margin_store = (Normal report, st')
      /\ products st' = [q]
      /\ price_replaced margin_product q
      /\ previousPrice q = Some 100)
  /\ (exists report st' q1 q2,
         bulkUpdatePrices (pricing_request "percentage" (Some 10) "all")
           twin_store
         = (Normal report, st')
         /\ products st' = [q1; q2]
         /\ price_moved (plain_product 1 "Dairy" 100 None) q1
         /\ previousPrice q1 = Some 200 /\ price q1 == 220).
Proof.
  split.
  - destruct (bulkUpdatePrices range_request_50_80 margin_store)
      as [[report|msg] st'] eqn:E.
    + destruct (bulk_committed_price_differs _ _ _ _ E) as [_ Hrep].
      assert (Hnd : NoDup (map id (products margin_store)))
        by (repeat constructor; intros []).
      specialize (Hrep Hnd).
      unfold margin_store in Hrep. cbn [products] in Hrep.
      inversion Hrep as [|old q olds news Hq Hrest Ho Hn].
      inversion Hrest. subst.
      exists report, st', q. split; [reflexivity|].
      split; [congruence|]. split; [exact Hq|].
      vm_compute in E. injection E as _ E.
      rewrite <- E in Hn. cbn [products] in Hn. injection Hn as ->.
      reflexivity.
    + vm_compute in E. discriminate E.
  - destruct (bulkUpdatePrices (pricing_request "percentage" (Some 10) "all")
                twin_store) as [[report|msg] st'] eqn:E.
    + destruct (bulk_committed_price_differs _ _ _ _ E) as [Hmoved _].
      unfold twin_store in Hmoved. cbn [products] in Hmoved.
      inversion Hmoved as [|o1 q1 os1 ns1 Hq1 Hrest1 Ho1 Hn1].
      inversion Hrest1 as [|o2 q2 os2 ns2 Hq2 Hrest2 Ho2 Hn2].
      inversion Hrest2. subst.
      exists report, st', q1, q2. split; [reflexivity|].
      split; [congruence|]. split; [exact Hq1|].
      vm_compute in E. injection E as _ E.
      rewrite <- E in Hn1. cbn [products] in Hn1. injection Hn1 as -> _.
      split; reflexivity.
    + vm_compute in E. discriminate E.
Defined.

Lemma resolve_conflict_pushed (updateData : Req.t) (product : Product) :
  snd (resolve_conflict updateData product) = true ->
  fst (resolve_conflict updateData product) = false.
Proof.
  unfold resolve_conflict. cbv zeta.
  destruct (Req.conflictResolution updateData) as [r|]; [|discriminate].
  destruct (String.eqb r "skip"); [reflexivity|].
  destruct (String.eqb r "override"); [discriminate|].
  destruct (String.eqb r "merge"); [|discriminate].
  destruct (JS.str_is _ _); [|discriminate].
  destruct (JS.leb _ _); discriminate.
Qed.

(** A product goes into [conflictProducts] only when it is skipped. *)
Lemma decide_price_pushed (updateData : Req.t) (product : Product) (np : Q)
    (shouldUpdate : bool) :
  decide_price updateData product = (np, shouldUpdate, true) ->
  shouldUpdate = false.
Proof.
  unfold decide_price, category_discount. cbv zeta.
  destruct (JS.str_is _ _ && Req.categoryDiscount updateData)%bool;
    [|discriminate].
  destruct (JS.gt0 (discountValue product)); [|discriminate].
  pose proof (resolve_conflict_pushed updateData product) as H.
  destruct (resolve_conflict updateData product) as [su pushed].
  cbn [fst snd] in H. intros [= _ <- ->]. now apply H.
Qed.

Lemma set_nth_length {A : Type} (l : list A) :
  forall i v, List.length (JS.set_nth i v l) = List.length l.
Proof.
  induction l as [|y l IH]; intros [|i] v; cbn; auto.
Qed.

(** One iteration adds at most one to the two tallies together, and keeps
    the number of records. *)
Lemma bulk_iteration_counts (updateData : Req.t) (product : Product)
    (s : Bulk.locals) (st : Store) :
  exists s' st',
    bulk_iteration updateData product s st = (Normal s', st')
    /\ (Bulk.updatedCount s' + List.length (Bulk.conflictProducts s')
        <= S (Bulk.updatedCount s + List.length (Bulk.conflictProducts s)))%nat
    /\ List.length (products st') = List.length (products st).
Proof.
  destruct (decide_price updateData product) as [[np su] pushed] eqn:Hd.
  assert (Hp : pushed = true -> su = false).
  { intros ->. eapply decide_price_pushed, Hd. }
  destruct (su && JS.ltb (1 # 100) (JS.Math_abs (np - price product)))%bool eqn:Hg.
  - apply andb_true_iff in Hg. destruct Hg as [-> Hg].
    assert (pushed = false) as -> by (destruct pushed; [now specialize (Hp eq_refl)|reflexivity]).
    destruct (JS.findIndex (fun q => (id q =? id product)%Z) (products st))
      as [i|] eqn:Hfi.
    + destruct (findIndex_Some _ _ _ Hfi) as (current & Hnth & _).
      rewrite (bulk_iteration_commit _ _ _ _ _ _ _ _ Hd Hg Hfi Hnth).
      eexists _, _. split; [reflexivity|].
      cbn [Bulk.updatedCount Bulk.conflictProducts products].
      split; [lia | apply set_nth_length].
    + unfold bulk_iteration. rewrite Hd, Hg. cbn [andb].
      unfold bind, get_products, ret. rewrite Hfi.
      eexists _, _. split; [reflexivity|].
      cbn [Bulk.updatedCount Bulk.conflictProducts]. split; [lia | reflexivity].
  - rewrite (bulk_iteration_skip _ _ _ _ _ _ _ Hd Hg).
    eexists _, _. split; [reflexivity|].
    cbn [Bulk.updatedCount Bulk.conflictProducts].
    split; [|reflexivity].
    destruct pushed; [rewrite length_app; cbn; lia | lia].
Qed.

Lemma bulk_loop_counts (updateData : Req.t) (l : list Product) :
  forall (s : Bulk.locals) (st : Store),
  exists s' st',
    for_of l (bulk_iteration updateData) s st = (Normal s', st')
    /\ (Bulk.updatedCount s' + List.length (Bulk.conflictProducts s')
        <= Bulk.updatedCount s + List.length (Bulk.conflictProducts s)
           + List.length l)%nat
    /\ List.length (products st') = List.length (products st).
Proof.
  induction l as [|p l IH]; intros s st.
  - exists s, st. split; [reflexivity|]. split; [cbn; lia | reflexivity].
  - destruct (bulk_iteration_counts updateData p s st) as (s1 & st1 & Hrun & H1 & L1).
    destruct (IH s1 st1) as (s2 & st2 & Hrest & H2 & L2).
    exists s2, st2. cbn [for_of]. erewrite bind_run by exact Hrun.
    split; [exact Hrest|]. split; [cbn [List.length]; lia | congruence].
Qed.

(** The report of a bulk price update adds up: a selected record is
    counted as updated or as a conflict but never as both, so
    [updatedCount + conflictCount] is at most [totalFiltered], which is at
    most the size of the catalog; at most five conflict products are
    returned; and the catalog keeps its size. *)
Theorem bulk_report_adds_up (updateData : Req.t) (st st' : Store)
    (report : Bulk.Report.t) :
  bulkUpdatePrices updateData st = (Normal report, st') ->
  (Bulk.Report.updatedCount report + Bulk.Report.conflictCount report
   <= Bulk.Report.totalFiltered report)%nat
  /\ (Bulk.Report.totalFiltered report <= List.length (products st))%nat
  /\ List.length (Bulk.Report.conflictProducts report)
     = Nat.min 5 (Bulk.Report.conflictCount report)
  /\ List.length (products st') = List.length (products st).
Proof.
  unfold bulkUpdatePrices.
  erewrite bind_run by reflexivity.
  destruct (negb (isValid (validateBulkPriceUpdate updateData))); [discriminate|].
  erewrite bind_run by reflexivity. cbn [products]. cbv zeta.
  match goal with
  | |- context [bind (for_of ?l _ ?s) _ ?t] =>
      destruct (bulk_loop_counts updateData l s t) as (s' & st1 & Hrun & H & L)
  end.
  erewrite bind_run by exact Hrun.
  intros [= <- <-].
  cbn [Bulk.Report.updatedCount Bulk.Report.conflictCount
       Bulk.Report.totalFiltered Bulk.Report.conflictProducts
       Bulk.updatedCount Bulk.conflictProducts List.length products] in *.
  split; [lia|]. split.
  - rewrite filter_products_selected. apply filter_length_le.
  - split; [exact (length_firstn 5 (Bulk.conflictProducts s')) | exact L].
Qed.

Lemma bulk_report_adds_up_witness :
  exists report st',
    bulkUpdatePrices (merge_request "percentage" 20) merge_store
    = (Normal report, st')
    /\ (Bulk.Report.updatedCount report + Bulk.Report.conflictCount report
        <= Bulk.Report.totalFiltered report)%nat
    /\ Bulk.Report.totalFiltered report = 2%nat.
Proof.
  destruct (bulkUpdatePrices (merge_request "percentage" 20) merge_store)
    as [[report|msg] st'] eqn:E.
  - destruct (bulk_report_adds_up _ _ _ _ E) as (H & _).
    exists report, st'. split; [reflexivity|]. split; [exact H|].
    vm_compute in E. injection E as <- _. reflexivity.
  - vm_compute in E. discriminate E.
Defined.

(** On a catalog with unique ids, a bulk price update that passes the
    request validation is a map over the catalog: every record the
    filters select is replaced by the outcome of the loop body on it,
    every other record stays, and the order is kept. *)
Theorem bulk_update_maps_unique_catalog (updateData : Req.t) (st : Store) :
  NoDup (map id (products st)) ->
  isValid (validateBulkPriceUpdate updateData) = true ->
  exists report st',
    bulkUpdatePrices updateData st = (Normal report, st')
    /\ products st'
       = map (fun q => if selected updateData q
                       then bulk_outcome updateData q else q)
             (products st)
    /\ NoDup (map id (products st')).
Proof.
  intros Hnd Hv.
  destruct (bulkUpdatePrices_unique_ids updateData st Hnd Hv) as (report & Hrun).
  eexists _, _. split; [exact Hrun|]. cbn [products].
  split; [reflexivity|].
  rewrite map_map.
  erewrite map_ext; [exact Hnd|].
  intros q. cbn beta. destruct (selected updateData q); [|reflexivity].
  apply bulk_outcome_id.
Qed.

Lemma bulk_update_maps_unique_catalog_witness :
  exists report st',
    bulkUpdatePrices (pricing_request "percentage" (Some 10) "Dairy") two_products
    = (Normal report, st')
    /\ map id (products st') = [1; 2]%Z
    /\ nth_error (products st') 1 = Some (plain_product 2 "Bakery" 200 None).
Proof.
  destruct (bulk_update_maps_unique_catalog
              (pricing_request "percentage" (Some 10) "Dairy") two_products)
    as (report & st' & Hrun & Hps & _).
  - repeat constructor; simpl; intuition discriminate.
  - reflexivity.
  - exists report, st'. split; [exact Hrun|].
    rewrite Hps. split; reflexivity.
Defined.

Lemma validateBulkPriceUpdate_error (updateData : Req.t) :
  isValid (validateBulkPriceUpdate updateData) = false ->
  exists msg, error (validateBulkPriceUpdate updateData) = Some msg.
Proof.
  unfold validateBulkPriceUpdate.
  repeat match goal with
         | |- context [match ?c with _ => _ end] =>
             match type of c with
             | option _ => destruct c
             | bool => destruct c
             end
         end; cbn; intros H; try discriminate H; eauto.
Qed.

(** A request that [validateBulkPriceUpdate] refuses makes
    [bulkUpdatePrices] throw the validator's message before any record is
    touched: the catalog is as it was. *)
Theorem bulk_refused_request_changes_nothing (updateData : Req.t) (st : Store) :
  isValid (validateBulkPriceUpdate updateData) = false ->
  exists msg st',
    bulkUpdatePrices updateData st = (Thrown msg, st')
    /\ error (validateBulkPriceUpdate updateData) = Some msg
    /\ products st' = products st.
Proof.
  intros Hv.
  destruct (validateBulkPriceUpdate_error _ Hv) as (msg & Hmsg).
  unfold bulkUpdatePrices.
  erewrite bind_run by reflexivity.
  rewrite Hv, Hmsg. cbn [negb].
  eexists _, _. split; [reflexivity|]. split; reflexivity.
Qed.

Lemma bulk_refused_request_changes_nothing_witness :
  exists st',
    bulkUpdatePrices range_request_zero_min two_products
    = (Thrown "Both minimum and maximum prices are required for range strategy", st')
    /\ products st' = products two_products.
Proof.
  destruct (bulk_refused_request_changes_nothing range_request_zero_min
              two_products eq_refl)
    as (msg & st' & Hrun & Hmsg & Hps).
  injection Hmsg as <-.
  exists st'. split; assumption.
Defined.

(** ** Price history, read twice *)

Lemma insert_sorted_front (x : PriceChangeEntry) (l : list PriceChangeEntry) :
  HdRel not_older x l -> JS.insert_sorted newest_first x l = x :: l.
Proof.
  intros H. destruct l as [|y l]; [reflexivity|].
  inversion H as [|? ? Hxy]; subst. cbn [JS.insert_sorted].
  unfold newest_first. unfold not_older in Hxy.
  apply Z.leb_le in Hxy. now rewrite Hxy.
Qed.

Lemma sort_of_sorted (l : list PriceChangeEntry) :
  Sorted not_older l -> JS.sort newest_first l = l.
Proof.
  induction 1 as [|x l Hs IH Hhd]; [reflexivity|].
  cbn [JS.sort]. rewrite IH. now apply insert_sorted_front.
Qed.

(** Reading a recorded history sorts it where it is stored: after the
    first [getPriceHistory] the record holds the list that was returned,
    the recorded entries most recent first, in the place of the history
    it had.  A second call returns the same list and leaves the catalog
    as the first call left it. *)
Theorem getPriceHistory_twice (productId : Z) (st st1 : Store)
    (product : Product) (e : PriceChangeEntry) (h l : list PriceChangeEntry) :
  found productId st product ->
  priceHistory product = Some (e :: h) ->
  getPriceHistory productId st = (Normal l, st1) ->
  Permutation (e :: h) l
  /\ most_recent_first l
  /\ found productId st1 (with_priceHistory product l)
  /\ exists st2,
       getPriceHistory productId st1 = (Normal l, st2)
       /\ products st2 = products st1.
Proof.
  intros (index & Hfi & Hnth) Hh.
  unfold getPriceHistory at 1.
  erewrite bind_run by reflexivity.
  erewrite bind_run by reflexivity.
  cbn [products]. rewrite Hfi, Hnth, Hh.
  erewrite bind_run by reflexivity.
  intros [= <- <-].
  change (JS.insert_sorted newest_first e (JS.sort newest_first h))
    with (JS.sort newest_first (e :: h)).
  set (sorted := JS.sort newest_first (e :: h)).
  assert (Hsorted : Sorted not_older sorted)
    by (apply StronglySorted_Sorted, sort_most_recent_first).
  assert (Hne : exists e' h', sorted = e' :: h').
  { pose proof (sort_perm (e :: h)) as P. fold sorted in P.
    destruct sorted as [|e' h']; [|eauto].
    apply Permutation_length in P. discriminate P. }
  destruct (findIndex_Some _ _ _ Hfi) as (x & Hx & Hid).
  rewrite Hnth in Hx. injection Hx as <-.
  destruct (findIndex_set_nth _ _ _ (with_priceHistory product sorted) Hfi Hid)
    as (F1 & F2 & F3).
  split; [apply sort_perm|].
  split; [apply sort_most_recent_first|].
  split; [exists index; cbn [products]; split; assumption|].
  unfold getPriceHistory.
  erewrite bind_run by reflexivity.
  erewrite bind_run by reflexivity.
  cbn [products]. rewrite F1, F2. cbn [priceHistory with_priceHistory].
  destruct Hne as (e' & h' & Hs). rewrite Hs. rewrite <- Hs.
  rewrite (sort_of_sorted _ Hsorted).
  erewrite bind_run by reflexivity.
  eexists. split; [reflexivity|]. cbn [products].
  replace (with_priceHistory (with_priceHistory product sorted) sorted)
    with (with_priceHistory product sorted) by reflexivity.
  exact F3.
Qed.

(** A history recorded oldest first: the first call returns it most
    recent first and stores it that way, so the catalog is no longer the
    one the call started from; the second call returns the same list. *)
Lemma getPriceHistory_twice_witness :
  exists l st1 st2,
    getPriceHistory 3 history_store = (Normal l, st1)
    /\ getPriceHistory 3 st1 = (Normal l, st2)
    /\ map date l = [2000; 1000]%Z
    /\ found 3 st1 (with_priceHistory history_product l)
    /\ products st1 <> products history_store.
Proof.
  destruct (getPriceHistory 3 history_store) as [[l|msg] st1] eqn:E.
  - edestruct (getPriceHistory_twice 3 history_store st1 history_product)
      as (_ & _ & Hstored & st2 & Hagain & _).
    + exists 0%nat. split; reflexivity.
    + reflexivity.
    + exact E.
    + exists l, st1, st2. split; [reflexivity|]. split; [exact Hagain|].
      split; [|split; [exact Hstored|]];
        vm_compute in E; injection E as <- <-; [reflexivity|].
      cbn [products]. unfold history_store. cbn [products].
      intros H. injection H as H. discriminate H.
  - vm_compute in E. discriminate E.
Defined.

(** ** Partial batch update: failures leave the catalog alone *)

Lemma update_throw_keeps_catalog (id' : Z) (productData : Patch.t)
    (st st' : Store) (msg : string) :
  update id' productData st = (Thrown msg, st') ->
  products st' = products st.
Proof.
  unfold update, bind, delay, get_products, now, set_products, ret, throw.
  cbn [products clock].
  destruct (JS.findIndex _ (products st)) as [index|];
    [|now intros [= _ <-]].
  destruct (JS.opt_leb_l (Patch.price productData) 0); [now intros [= _ <-]|].
  destruct (match Patch.stock productData with
            | Some s => JS.ltb s 0 | None => false end); [now intros [= _ <-]|].
  destruct (match Patch.price productData, Patch.purchasePrice productData with
            | Some p0, Some pp => JS.leb p0 pp | _, _ => false end);
    [now intros [= _ <-]|].
  destruct (nth_error (products st) index); [discriminate | now intros [= _ <-]].
Qed.

Lemma partial_iteration_store (u : PartialUpdate.t) (s s' : Batch.locals)
    (st st' : Store) :
  partial_iteration u s st = (Normal s', st') ->
  Batch.successCount s' = S (Batch.successCount s)
  \/ (Batch.successCount s' = Batch.successCount s
      /\ products st' = products st).
Proof.
  unfold partial_iteration, try_catch.
  cbn [Patch.price Patch.purchasePrice].
  destruct (JS.opt_leb_l (PartialUpdate.basePrice u) 0).
  { intros [= <- <-]. right. split; reflexivity. }
  match goal with
  | |- context [if ?c then _ else _] => destruct c
  end.
  { intros [= <- <-]. right. split; reflexivity. }
  unfold bind.
  match goal with
  | |- context [update ?i ?d st] =>
      destruct (update i d st) as [[p|msg] st1] eqn:Hup
  end.
  - intros [= <- <-]. left. reflexivity.
  - intros [= <- <-]. right. split; [reflexivity|].
    eapply update_throw_keeps_catalog, Hup.
Qed.

Lemma partial_loop_store (updates : list PartialUpdate.t) :
  forall (s s' : Batch.locals) (st st' : Store),
    for_of updates partial_iteration s st = (Normal s', st') ->
    (Batch.successCount s <= Batch.successCount s')%nat
    /\ (Batch.successCount s' = Batch.successCount s ->
        products st' = products st).
Proof.
  induction updates as [|u rest IH]; intros s s' st st'.
  - intros [= <- <-]. split; [lia | reflexivity].
  - cbn [for_of]. unfold bind at 1.
    destruct (partial_iteration u s st) as [[s1|msg] st1] eqn:Hit; [|discriminate].
    intros Hrest. destruct (IH _ _ _ _ Hrest) as [Hle Hsame].
    destruct (partial_iteration_store _ _ _ _ _ Hit) as [Hs | [Hs Hps]].
    + split; [lia|]. intros E. lia.
    + split; [lia|]. intros E. rewrite Hsame by lia. exact Hps.
Qed.

(** A batch in which no entry succeeds leaves the catalog as it was:
    entries that fail their checks or name no product change nothing. *)
Theorem bulkPartialUpdate_failures_change_nothing
    (updates : list PartialUpdate.t) (st st' : Store)
    (summary : Batch.Summary.t) :
  bulkPartialUpdate updates st = (Normal summary, st') ->
  Batch.Summary.successCount summary = 0%nat ->
  products st' = products st.
Proof.
  unfold bulkPartialUpdate.
  erewrite bind_run by reflexivity.
  unfold bind at 1.
  match goal with
  | |- context [for_of updates partial_iteration ?s ?t] =>
      destruct (for_of updates partial_iteration s t) as [[s'|msg] st1] eqn:Hloop
  end; [|discriminate].
  intros [= <- <-]. cbn [Batch.Summary.successCount]. intros H0.
  destruct (partial_loop_store _ _ _ _ _ Hloop) as [_ Hsame].
  now rewrite Hsame.
Qed.

Lemma bulkPartialUpdate_failures_change_nothing_witness :
  exists summary st',
    bulkPartialUpdate
      [ {| PartialUpdate.productId := 9; PartialUpdate.basePrice := Some 50;
           PartialUpdate.costPrice := None |};
        {| PartialUpdate.productId := 1; PartialUpdate.basePrice := Some 70;
           PartialUpdate.costPrice := Some 80 |} ]
      margin_store
    = (Normal summary, st')
    /\ List.length (Batch.Summary.errors summary) = 2%nat
    /\ products st' = products margin_store.
Proof.
  match goal with
  | |- context [bulkPartialUpdate ?us ?s] =>
      destruct (bulkPartialUpdate us s) as [[summary|msg] st'] eqn:E
  end.
  - exists summary, st'. split; [reflexivity|].
    split.
    + vm_compute in E. injection E as <- _. reflexivity.
    + apply (bulkPartialUpdate_failures_change_nothing _ _ _ _ E).
      vm_compute in E. injection E as <- _. reflexivity.
  - vm_compute in E. discriminate E.
Defined.

(** ** Image dimensions *)

(** Replaces every [Qmin]/[Qmax], innermost first, by a variable with the
    two cases of its value. *)
Ltac minmax_cases :=
  unfold JS.Math_max, JS.Math_min in *;
  repeat match goal with
         | |- context [Qmin ?a ?b] =>
             lazymatch a with
             | context [Qmin _ _] => fail
             | context [Qmax _ _] => fail
             | _ => idtac
             end;
             lazymatch b with
             | context [Qmin _ _] => fail
             | context [Qmax _ _] => fail
             | _ => idtac
             end;
             let H := fresh "Hmin" in
             pose proof (Q.min_spec a b) as H;
             generalize dependent (Qmin a b); intros ? H
         | |- context [Qmax ?a ?b] =>
             lazymatch a with
             | context [Qmin _ _] => fail
             | context [Qmax _ _] => fail
             | _ => idtac
             end;
             lazymatch b with
             | context [Qmin _ _] => fail
             | context [Qmax _ _] => fail
             | _ => idtac
             end;
             let H := fresh "Hmax" in
             pose proof (Q.max_spec a b) as H;
             generalize dependent (Qmax a b); intros ? H
         end.

Lemma dynamic_size_cases (v : Q) (sq : bool) :
  Dims.height (getDynamicImageDimensions v sq)
  = Dims.width (getDynamicImageDimensions v sq)
  /\ ((v < 640
       /\ 400 <= Dims.width (getDynamicImageDimensions v sq)
       /\ Dims.width (getDynamicImageDimensions v sq) <= 500
       /\ (v - 32 <= Dims.width (getDynamicImageDimensions v sq)
           \/ Dims.width (getDynamicImageDimensions v sq) == 500)
       /\ (Dims.width (getDynamicImageDimensions v sq) <= v - 32
           \/ Dims.width (getDynamicImageDimensions v sq) == 400))
      \/ (640 <= v < 1024
          /\ Dims.width (getDynamicImageDimensions v sq) == 500)
      \/ (1024 <= v
          /\ 600 <= Dims.width (getDynamicImageDimensions v sq)
          /\ Dims.width (getDynamicImageDimensions v sq) <= 1200
          /\ (v * (3 # 10) <= Dims.width (getDynamicImageDimensions v sq)
              \/ Dims.width (getDynamicImageDimensions v sq) == 1200)
          /\ (Dims.width (getDynamicImageDimensions v sq) <= v * (3 # 10)
              \/ Dims.width (getDynamicImageDimensions v sq) == 600))).
Proof.
  unfold getDynamicImageDimensions. cbv zeta.
  split; [destruct sq; reflexivity|].
  assert (W : forall c, Dims.width (if sq
                          then {| Dims.width := c; Dims.height := c;
                                  Dims.aspectRatio := Some "1:1" |}
                          else {| Dims.width := c; Dims.height := c;
                                  Dims.aspectRatio := None |}) = c)
    by (intros c; destruct sq; reflexivity).
  rewrite W. clear W.
  destruct (JS.ltb v 640) eqn:E1.
  - apply ltb_lt in E1. left. split; [exact E1|].
    minmax_cases.
    repeat match goal with H : _ \/ _ |- _ => destruct H as [[? ?]|[? ?]] end;
      repeat split; try lra; try (left; lra); try (right; lra).
  - apply ltb_ge in E1. destruct (JS.ltb v 1024) eqn:E2.
    + apply ltb_lt in E2. right. left. split; [split; assumption|].
      minmax_cases.
      repeat match goal with H : _ \/ _ |- _ => destruct H as [[? ?]|[? ?]] end;
        lra.
    + apply ltb_ge in E2. right. right. split; [exact E2|].
      minmax_cases.
      repeat match goal with H : _ \/ _ |- _ => destruct H as [[? ?]|[? ?]] end;
        repeat split; try lra; try (left; lra); try (right; lra).
Qed.

(** [getDynamicImageDimensions] always returns a square between 400 and
    1200 pixels, never a smaller one for a wider viewport; on viewports
    from 640 up to 1024 pixels the size is exactly 500, and on wider ones
    up to 2000 pixels exactly 600. *)
Theorem dynamic_dimensions_bounded_monotone (v w : Q) (sq : bool) :
  let size := fun x => Dims.width (getDynamicImageDimensions x sq) in
  Dims.height (getDynamicImageDimensions v sq) = size v
  /\ 400 <= size v /\ size v <= 1200
  /\ (v <= w -> size v <= size w)
  /\ (640 <= v -> v < 1024 -> size v == 500)
  /\ (1024 <= v -> v <= 2000 -> size v == 600).
Proof.
  cbv zeta.
  destruct (dynamic_size_cases v sq) as [Hh Hv].
  destruct (dynamic_size_cases w sq) as [_ Hw].
  split; [exact Hh|].
  revert Hv Hw.
  generalize (Dims.width (getDynamicImageDimensions v sq)).
  generalize (Dims.width (getDynamicImageDimensions w sq)).
  intros sw sv Hv Hw.
  split; [|split; [|split; [|split]]].
  - destruct Hv as [Hv | [Hv | Hv]]; lra.
  - destruct Hv as [Hv | [Hv | Hv]]; lra.
  - intros Hle.
    destruct Hv as [(V1 & V2 & V3 & V4 & V5) | [(V1 & V2) | (V1 & V2 & V3 & V4 & V5)]];
      destruct Hw as [(W1 & W2 & W3 & W4 & W5) | [(W1 & W2) | (W1 & W2 & W3 & W4 & W5)]];
      try lra;
      try (destruct V4, V5, W4, W5; lra).
  - intros H1 H2. destruct Hv as [Hv | [Hv | Hv]]; lra.
  - intros H1 H2.
    destruct Hv as [Hv | [Hv | (V1 & V2 & V3 & V4 & V5)]]; try lra;
      try (destruct V5; lra).
Qed.

Lemma dynamic_dimensions_bounded_monotone_witness :
  Dims.width (getDynamicImageDimensions 375 true)
  <= Dims.width (getDynamicImageDimensions 1440 true)
  /\ Dims.width (getDynamicImageDimensions 800 true) == 500
  /\ Dims.width (getDynamicImageDimensions 1440 true) == 600.
Proof.
  split; [|split].
  - apply (dynamic_dimensions_bounded_monotone 375 1440 true). discriminate.
  - apply (dynamic_dimensions_bounded_monotone 800 800 true); [discriminate | reflexivity].
  - apply (dynamic_dimensions_bounded_monotone 1440 1440 true); discriminate.
Defined.

Lemma Math_round_Z (a : Z) : JS.Math_round (inject_Z a) = a.
Proof.
  unfold JS.Math_round. apply Qfloor_unique.
  - lra.
  - lra.
Qed.

Lemma Math_round_le_Z (x : Q) (a : Z) :
  x <= inject_Z a -> inject_Z (JS.Math_round x) <= inject_Z a.
Proof.
  intros H. rewrite <- Zle_Qle.
  apply Z.le_trans with (JS.Math_round (inject_Z a)).
  - unfold JS.Math_round. apply Qfloor_resp_le. lra.
  - rewrite Math_round_Z. lia.
Qed.

(** Without [enforceSquare], and for positive sizes with a whole-pixel
    target, [calculateOptimalDimensions] fits the image into the target
    box: neither side exceeds the target's, and one side is exactly the
    target's. *)
Theorem optimal_dimensions_fit_target
    (originalWidth originalHeight : Q) (targetWidth targetHeight : Z) :
  0 < originalWidth -> 0 < originalHeight ->
  (0 < targetWidth)%Z -> (0 < targetHeight)%Z ->
  let d := calculateOptimalDimensions originalWidth originalHeight
             (inject_Z targetWidth) (inject_Z targetHeight) false in
  Dims.width d <= inject_Z targetWidth
  /\ Dims.height d <= inject_Z targetHeight
  /\ (Dims.width d == inject_Z targetWidth
      \/ Dims.height d == inject_Z targetHeight).
Proof.
  intros How Hoh Htw Hth. cbv zeta.
  rewrite Zlt_Qlt in Htw, Hth. change (inject_Z 0) with 0 in Htw, Hth.
  unfold calculateOptimalDimensions. cbv zeta.
  set (tw := inject_Z targetWidth) in *. set (th := inject_Z targetHeight) in *.
  assert (Ha : 0 < originalWidth / originalHeight)
    by (apply Qlt_shift_div_l; lra).
  assert (Et : tw / th * th == tw) by (field; lra).
  destruct (JS.ltb (tw / th) (originalWidth / originalHeight)) eqn:E.
  - apply ltb_lt in E. cbn [Dims.width Dims.height].
    subst tw. rewrite Math_round_Z.
    split; [lra|]. split; [|left; reflexivity].
    apply Math_round_le_Z. apply Qlt_le_weak.
    apply Qlt_shift_div_r; [exact Ha|].
    assert (M : inject_Z targetWidth / th * th
                < originalWidth / originalHeight * th)
      by (apply Qmult_lt_compat_r; assumption).
    rewrite Et in M. rewrite Qmult_comm. exact M.
  - apply ltb_ge in E. cbn [Dims.width Dims.height].
    subst th. rewrite Math_round_Z.
    split; [|split; [lra | right; reflexivity]].
    apply Math_round_le_Z.
    assert (M : originalWidth / originalHeight * inject_Z targetHeight
                <= tw / inject_Z targetHeight * inject_Z targetHeight)
      by (apply Qmult_le_compat_r; lra).
    rewrite Et in M. rewrite Qmult_comm. exact M.
Qed.

Lemma optimal_dimensions_fit_target_witness :
  let d := calculateOptimalDimensions 1600 900 600 600 false in
  Dims.width d <= 600 /\ Dims.height d <= 600
  /\ (Dims.width d == 600 \/ Dims.height d == 600).
Proof.
  apply (optimal_dimensions_fit_target 1600 900 600 600); reflexivity.
Defined.

(** ** Cropping *)

Lemma mainRegion_is_best (rest : list Region.t) :
  forall first : Region.t,
    In (mainRegion first rest) (first :: rest)
    /\ Region.confidence first <= Region.confidence (mainRegion first rest)
    /\ forall r, In r rest ->
         Region.confidence r <= Region.confidence (mainRegion first rest).
Proof.
  unfold mainRegion.
  induction rest as [|a rest IH]; intros first; cbn [fold_left].
  - split; [now left|]. split; [lra | intros r []].
  - destruct (JS.ltb (Region.confidence first) (Region.confidence a)) eqn:E.
    + apply ltb_lt in E. destruct (IH a) as (Hin & Hfirst & Hall).
      split; [right; exact Hin|]. split; [lra|].
      intros r [<- | Hr]; [exact Hfirst | auto].
    + apply ltb_ge in E. destruct (IH first) as (Hin & Hfirst & Hall).
      split; [destruct Hin as [Hin | Hin]; [now left | right; now right]|].
      split; [exact Hfirst|].
      intros r [<- | Hr]; [lra | auto].
Qed.

(** [calculateOptimalCrop] never leaves the target: its origin is not
    negative and its size is at most the target's.  With no region it is
    the whole target; otherwise it is built around a region of the list
    whose confidence no other region exceeds, with a margin of 50 on each
    side. *)
Theorem optimal_crop_within_target (regions : list Region.t)
    (targetDimensions : Dims.t) :
  0 <= Dims.width targetDimensions ->
  0 <= Dims.height targetDimensions ->
  let crop := calculateOptimalCrop regions targetDimensions in
  0 <= Crop.x crop /\ 0 <= Crop.y crop
  /\ Crop.width crop <= Dims.width targetDimensions
  /\ Crop.height crop <= Dims.height targetDimensions
  /\ (regions = [] ->
      Crop.x crop = 0 /\ Crop.y crop = 0
      /\ Crop.width crop = Dims.width targetDimensions
      /\ Crop.height crop = Dims.height targetDimensions)
  /\ (regions <> [] ->
      exists best,
        In best regions
        /\ (forall r, In r regions ->
              Region.confidence r <= Region.confidence best)
        /\ Crop.x crop = Qmax 0 (Region.x best - 50)
        /\ Crop.y crop = Qmax 0 (Region.y best - 50)
        /\ Crop.width crop
           = Qmin (Dims.width targetDimensions) (Region.width best + 100)
        /\ Crop.height crop
           = Qmin (Dims.height targetDimensions) (Region.height best + 100)).
Proof.
  intros Hw Hh. cbv zeta. unfold calculateOptimalCrop.
  destruct regions as [|first rest]; cbn [Crop.x Crop.y Crop.width Crop.height].
  - repeat split; try lra. intros H. now destruct H.
  - destruct (mainRegion_is_best rest first) as (Hin & Hfirst & Hall).
    unfold JS.Math_max, JS.Math_min.
    split; [apply Q.le_max_l|]. split; [apply Q.le_max_l|].
    split; [apply Q.le_min_l|]. split; [apply Q.le_min_l|].
    split; [discriminate|].
    intros _. exists (mainRegion first rest).
    split; [exact Hin|].
    split; [intros r [<- | Hr]; auto|].
    repeat split.
Qed.

Lemma optimal_crop_within_target_witness :
  let crop := calculateOptimalCrop [subject_region; product_region]
                {| Dims.width := 400; Dims.height := 400;
                   Dims.aspectRatio := None |} in
  Crop.x crop == 70 /\ Crop.y crop == 30
  /\ Crop.width crop <= 400 /\ Crop.height crop <= 400.
Proof.
  destruct (optimal_crop_within_target [subject_region; product_region]
              {| Dims.width := 400; Dims.height := 400;
                 Dims.aspectRatio := None |})
    as (_ & _ & Hw & Hh & _ & _); [discriminate | discriminate |].
  cbv zeta. repeat split; try assumption; reflexivity.
Defined.

(** ** The page's margin and the service's *)

Lemma margin_sign (x pp : Q) :
  0 < pp ->
  (x <= pp -> ((x - pp) / pp) * 100 <= 0)
  /\ (pp < x -> 0 < ((x - pp) / pp) * 100).
Proof.
  intros Hpp.
  assert (E : ((x - pp) / pp) * 100 * pp == (x - pp) * 100) by (field; lra).
  split; intros H.
  - apply Qnot_lt_le. intros C.
    assert (M : 0 * pp < ((x - pp) / pp) * 100 * pp)
      by (apply Qmult_lt_compat_r; lra).
    rewrite E in M. lra.
  - apply Qnot_le_lt. intros C.
    assert (M : ((x - pp) / pp) * 100 * pp <= 0 * pp)
      by (apply Qmult_le_compat_r; lra).
    rewrite E in M. lra.
Qed.

Lemma round2_nonpos (x : Q) : x <= 0 -> JS.round2 x <= 0.
Proof.
  intros H. apply Qle_trans with (JS.round2 0); [now apply round2_mono|].
  apply Qle_lteq. right. reflexivity.
Qed.

Lemma round2_nonneg (x : Q) : 0 <= x -> 0 <= JS.round2 x.
Proof.
  intros H. apply Qle_trans with (JS.round2 0); [|now apply round2_mono].
  apply Qle_lteq. right. reflexivity.
Qed.

(** The margin the bulk price page shows is never negative, and it is
    positive exactly when the cost is positive and below the base price.
    For a product with a positive price and no discount, rounded to 2
    decimals it is the margin [calculateProfitMetrics] reports, with a
    loss shown as 0. *)
Theorem page_margin_clips_service_margin (product : Product) :
  let shown := calculateMargin (Some (price product)) (purchasePrice product) in
  0 <= shown
  /\ (0 < shown
      <-> 0 < JS.parseFloat_or (purchasePrice product) 0
          /\ JS.parseFloat_or (purchasePrice product) 0
             < JS.parseFloat_or (Some (price product)) 0)
  /\ (0 < price product -> JS.gt0 (discountValue product) = false ->
      JS.round2 shown
      == Qmax 0 (Metrics.profitMargin (calculateProfitMetrics product))).
Proof.
  cbv zeta. unfold calculateMargin.
  set (base := JS.parseFloat_or (Some (price product)) 0).
  set (cost := JS.parseFloat_or (purchasePrice product) 0).
  assert (Hsplit :
            (cost <= 0 /\ JS.leb cost 0 = true)
            \/ (0 < cost /\ JS.leb cost 0 = false /\ base <= cost
                /\ JS.leb base cost = true)
            \/ (0 < cost /\ JS.leb cost 0 = false /\ cost < base
                /\ JS.leb base cost = false)).
  { destruct (JS.leb cost 0) eqn:E1; [left; split; [now apply leb_le|reflexivity]|].
    apply leb_gt in E1. right.
    destruct (JS.leb base cost) eqn:E2.
    - left. apply leb_le in E2. repeat split; trivial.
    - right. apply leb_gt in E2. repeat split; trivial. }
  assert (R0 : JS.round2 0 == 0) by reflexivity.
  split; [|split].
  - destruct Hsplit as [(H1 & ->) | [(H1 & -> & H2 & ->) | (H1 & -> & H2 & ->)]];
      cbn [orb]; try lra.
    apply Qlt_le_weak, margin_sign; assumption.
  - destruct Hsplit as [(H1 & ->) | [(H1 & -> & H2 & ->) | (H1 & -> & H2 & ->)]];
      cbn [orb].
    + split; [lra | intros [? ?]; lra].
    + split; [lra | intros [? ?]; lra].
    + split; [intros _; split; assumption|].
      intros _. apply margin_sign; assumption.
  - intros Hprice Hnd.
    assert (Hnz : ~ price product == 0) by lra.
    assert (Hb : base = price product) by (apply parseFloat_or_nonzero, Hnz).
    unfold calculateProfitMetrics. cbv zeta. cbn [Metrics.profitMargin].
    fold base cost. rewrite gt0_parseFloat_or, Hnd.
    assert (Mx : JS.Math_max 0 base == base)
      by (apply Q.max_r; rewrite Hb; lra).
    assert (Hfp : JS.ltb 0 (JS.Math_max 0 base) = true)
      by (apply ltb_lt; rewrite Mx, Hb; exact Hprice).
    rewrite Hfp, andb_true_r.
    destruct Hsplit as [(H1 & ->) | [(H1 & -> & H2 & ->) | (H1 & -> & H2 & ->)]];
      cbn [orb].
    + assert (Hc : JS.ltb 0 cost = false) by (now apply ltb_ge).
      rewrite Hc. reflexivity.
    + assert (Hc : JS.ltb 0 cost = true) by (now apply ltb_lt).
      rewrite Hc.
      transitivity 0; [exact R0|]. symmetry. apply Q.max_l.
      apply round2_nonpos.
      assert (E : ((JS.Math_max 0 base - cost) / cost) * 100
                  == ((base - cost) / cost) * 100) by (now rewrite Mx).
      rewrite E. now apply margin_sign.
    + assert (Hc : JS.ltb 0 cost = true) by (now apply ltb_lt).
      rewrite Hc.
      assert (E : ((JS.Math_max 0 base - cost) / cost) * 100
                  == ((base - cost) / cost) * 100) by (now rewrite Mx).
      rewrite (round2_comp _ _ E). symmetry. apply Q.max_r.
      apply round2_nonneg.
      apply Qlt_le_weak, margin_sign; assumption.
Qed.

Lemma page_margin_clips_service_margin_witness :
  JS.round2 (calculateMargin (Some (price margin_product))
                             (purchasePrice margin_product))
  == Qmax 0 (Metrics.profitMargin (calculateProfitMetrics margin_product))
  /\ calculateMargin (Some (price margin_product))
                     (purchasePrice margin_product) == 25.
Proof.
  split.
  - apply (page_margin_clips_service_margin margin_product); reflexivity.
  - reflexivity.
Defined.

(** ** Bulk price update: the guards and the conflict list *)

Lemma price_guards_between (updateData : Req.t) (lo hi x : Q) :
  Req.minPrice updateData = Some lo -> Req.maxPrice updateData = Some hi ->
  1 <= lo -> lo <= hi -> hi <= 100000 ->
  lo <= price_guards updateData x /\ price_guards updateData x <= hi.
Proof.
  intros Hmin Hmax H1 H2 H3. unfold price_guards. rewrite Hmin, Hmax.
  cbv zeta. unfold JS.Math_max, JS.Math_min.
  set (a := if (JS.truthy_num lo && JS.ltb x lo)%bool then lo else x).
  assert (Ha : lo <= a).
  { unfold a. destruct (JS.truthy_num lo) eqn:Ht; cbn [andb].
    - destruct (JS.ltb x lo) eqn:Hl; [lra|]. now apply ltb_ge in Hl.
    - unfold JS.truthy_num in Ht. apply negb_false_iff, eqb_eq in Ht. lra. }
  clearbody a.
  set (b := if (JS.truthy_num hi && JS.ltb hi a)%bool then hi else a).
  assert (Hb : lo <= b /\ b <= hi).
  { unfold b. destruct (JS.truthy_num hi) eqn:Ht; cbn [andb].
    - destruct (JS.ltb hi a) eqn:Hl; [lra|]. apply ltb_ge in Hl. lra.
    - unfold JS.truthy_num in Ht. apply negb_false_iff, eqb_eq in Ht. lra. }
  clearbody b. destruct Hb as [Hb1 Hb2].
  destruct (Q.min_spec b 100000) as [[L1 E1] | [L1 E1]];
    destruct (Q.max_spec 1 (Qmin b 100000)) as [[L2 E2] | [L2 E2]];
    rewrite E1 in L2; rewrite E2, ?E1; split; lra.
Qed.

(** With a lower guard [minPrice] and an upper guard [maxPrice] inside the
    accepted range, [1 <= minPrice <= maxPrice <= 100000], every record a
    bulk price update writes is priced between the two guards, whatever
    the tab, the strategy or the discount of the request asks for. *)
Theorem bulk_price_guards_hold (updateData : Req.t) (lo hi : Q)
    (st st' : Store) (report : Bulk.Report.t) :
  Req.minPrice updateData = Some lo -> Req.maxPrice updateData = Some hi ->
  1 <= lo -> lo <= hi -> hi <= 100000 ->
  bulkUpdatePrices updateData st = (Normal report, st') ->
  Forall2 (price_within lo hi) (products st) (products st').
Proof.
  intros Hmin Hmax H1 H2 H3.
  apply bulkUpdatePrices_invariant.
  - intros p. now left.
  - intros p q r Hpq [-> | Hqr]; [exact Hpq | right; exact Hqr].
  - intros product current np pushed Hd _. right.
    cbn [price committed_record].
    unfold decide_price in Hd. cbv zeta in Hd.
    destruct (category_discount updateData product
                (pricing_update updateData (price product)))
      as [[x su] pu].
    injection Hd as <- _ _.
    destruct (price_guards_between updateData lo hi x Hmin Hmax H1 H2 H3).
    split; now apply round2_mono.
Qed.

Lemma bulk_price_guards_hold_witness :
  exists report st',
    bulkUpdatePrices range_request_50_80 margin_store = (Normal report, st')
    /\ Forall2 (price_within 50 80) (products margin_store) (products st').
Proof.
  destruct (bulkUpdatePrices range_request_50_80 margin_store)
    as [[report|msg] st'] eqn:E.
  - exists report, st'. split; [reflexivity|].
    apply (bulk_price_guards_hold range_request_50_80 50 80 margin_store st'
             report eq_refl eq_refl); [lra | lra | lra | exact E].
  - vm_compute in E. discriminate E.
Defined.

Lemma resolve_conflict_skip (updateData : Req.t) (product : Product) :
  snd (resolve_conflict updateData product)
  = JS.str_is (Req.conflictResolution updateData) "skip".
Proof.
  unfold resolve_conflict, JS.str_is. cbv zeta.
  destruct (Req.conflictResolution updateData) as [r|]; [|reflexivity].
  destruct (String.eqb r "skip"); [reflexivity|].
  destruct (String.eqb r "override"); [reflexivity|].
  destruct (String.eqb r "merge"); [|reflexivity].
  destruct (match Req.discountType updateData with
            | Some t => String.eqb t "percentage" | None => false end);
    [|reflexivity].
  destruct (JS.leb _ _); reflexivity.
Qed.

Lemma decide_price_skipped (updateData : Req.t) (product : Product) :
  snd (decide_price updateData product) = skipped updateData product.
Proof.
  unfold decide_price, category_discount, skipped. cbv zeta.
  destruct (JS.str_is (Req.activeTab updateData) "discounts"
            && Req.categoryDiscount updateData)%bool; [|reflexivity].
  cbn [andb].
  destruct (JS.gt0 (discountValue product)); cbn [andb].
  - pose proof (resolve_conflict_skip updateData product) as H.
    destruct (resolve_conflict updateData product) as [su pushed].
    exact H.
  - reflexivity.
Qed.

Lemma bulk_iteration_conflicts (updateData : Req.t) (product : Product)
    (s : Bulk.locals) (st : Store) :
  exists s' st',
    bulk_iteration updateData product s st = (Normal s', st')
    /\ Bulk.conflictProducts s'
       = (Bulk.conflictProducts s
          ++ filter (skipped updateData) [product])%list.
Proof.
  pose proof (decide_price_skipped updateData product) as Hs.
  destruct (decide_price updateData product) as [[np su] pushed] eqn:Hd.
  cbn [snd] in Hs. cbn [filter]. rewrite <- Hs.
  assert (E : (if pushed then (Bulk.conflictProducts s ++ [product])%list
               else Bulk.conflictProducts s)
              = (Bulk.conflictProducts s
                 ++ (if pushed then [product] else []))%list)
    by (destruct pushed; [reflexivity | now rewrite app_nil_r]).
  destruct (su && JS.ltb (1 # 100) (JS.Math_abs (np - price product)))%bool eqn:Hg.
  - apply andb_true_iff in Hg. destruct Hg as [-> Hg].
    destruct (JS.findIndex (fun q => (id q =? id product)%Z) (products st))
      as [i|] eqn:Hfi.
    + destruct (findIndex_Some _ _ _ Hfi) as (current & Hnth & _).
      rewrite (bulk_iteration_commit _ _ _ _ _ _ _ _ Hd Hg Hfi Hnth).
      eexists _, _. split; [reflexivity | exact E].
    + unfold bulk_iteration. rewrite Hd, Hg. cbn [andb].
      unfold bind, get_products, ret. rewrite Hfi.
      eexists _, _. split; [reflexivity | exact E].
  - rewrite (bulk_iteration_skip _ _ _ _ _ _ _ Hd Hg).
    eexists _, _. split; [reflexivity | exact E].
Qed.

Lemma bulk_loop_conflicts (updateData : Req.t) (l : list Product) :
  forall (s : Bulk.locals) (st : Store),
  exists s' st',
    for_of l (bulk_iteration updateData) s st = (Normal s', st')
    /\ Bulk.conflictProducts s'
       = (Bulk.conflictProducts s ++ filter (skipped updateData) l)%list.
Proof.
  induction l as [|p l IH]; intros s st.
  - exists s, st. split; [reflexivity | now rewrite app_nil_r].
  - destruct (bulk_iteration_conflicts updateData p s st)
      as (s1 & st1 & Hrun & H1).
    destruct (IH s1 st1) as (s2 & st2 & Hrest & H2).
    exists s2, st2. cbn [for_of]. erewrite bind_run by exact Hrun.
    split; [exact Hrest|].
    rewrite H2, H1, <- app_assoc. f_equal.
    change (p :: l) with ([p] ++ l)%list. now rewrite filter_app.
Qed.

Lemma bulk_outcome_skipped (updateData : Req.t) (q : Product) :
  skipped updateData q = true -> bulk_outcome updateData q = q.
Proof.
  intros Hs. rewrite <- decide_price_skipped in Hs. unfold bulk_outcome.
  destruct (decide_price updateData q) as [[np su] pushed] eqn:Hd.
  cbn [snd] in Hs. subst pushed.
  now rewrite (decide_price_pushed _ _ _ _ Hd).
Qed.

(** The conflict list of a bulk price update holds exactly the selected
    products that already carry a discount when a category-wide discount
    on the discounts tab resolves conflicts by skipping, in catalog order;
    any other request reports no conflict.  The report counts them all and
    returns the first five.  On a catalog with unique ids the skipped
    products stay as they were. *)
Theorem bulk_conflicts_are_the_skipped (updateData : Req.t) (st st' : Store)
    (report : Bulk.Report.t) :
  bulkUpdatePrices updateData st = (Normal report, st') ->
  let conflicts :=
    filter (skipped updateData) (filter_products updateData (products st)) in
  Bulk.Report.conflictCount report = List.length conflicts
  /\ Bulk.Report.conflictProducts report = firstn 5 conflicts
  /\ (NoDup (map id (products st)) ->
      Forall2 (fun old new => skipped updateData old = true -> new = old)
              (products st) (products st')).
Proof.
  intros Hrun conflicts.
  destruct (isValid (validateBulkPriceUpdate updateData)) eqn:Hv.
  - split; [|split].
    + revert Hrun. unfold bulkUpdatePrices.
      erewrite bind_run by reflexivity. rewrite Hv. cbn [negb].
      erewrite bind_run by reflexivity. cbn [products]. cbv zeta.
      match goal with
      | |- context [bind (for_of ?l _ ?s) _ ?t] =>
          destruct (bulk_loop_conflicts updateData l s t)
            as (s' & st1 & Hloop & H)
      end.
      erewrite bind_run by exact Hloop.
      intros [= <- _]. cbn [Bulk.Report.conflictCount]. now rewrite H.
    + revert Hrun. unfold bulkUpdatePrices.
      erewrite bind_run by reflexivity. rewrite Hv. cbn [negb].
      erewrite bind_run by reflexivity. cbn [products]. cbv zeta.
      match goal with
      | |- context [bind (for_of ?l _ ?s) _ ?t] =>
          destruct (bulk_loop_conflicts updateData l s t)
            as (s' & st1 & Hloop & H)
      end.
      erewrite bind_run by exact Hloop.
      intros [= <- _]. cbn [Bulk.Report.conflictProducts]. now rewrite H.
    + intros Hnd.
      destruct (bulkUpdatePrices_unique_ids updateData st Hnd Hv)
        as (report' & Hrun').
      rewrite Hrun in Hrun'. injection Hrun' as _ ->. cbn [products].
      generalize (products st). intros ps.
      induction ps as [|q ps IH]; cbn [map]; constructor; [|exact IH].
      intros Hs. destruct (selected updateData q); [|reflexivity].
      now apply bulk_outcome_skipped.
  - revert Hrun. unfold bulkUpdatePrices.
    erewrite bind_run by reflexivity. rewrite Hv. discriminate.
Qed.

Lemma bulk_conflicts_are_the_skipped_witness :
  exists report st',
    bulkUpdatePrices skip_request mixed_store = (Normal report, st')
    /\ Bulk.Report.conflictProducts report
       = [discounted_product 1 100 "Percentage" 50]
    /\ nth_error (products st') 0
       = Some (discounted_product 1 100 "Percentage" 50).
Proof.
  destruct (bulkUpdatePrices skip_request mixed_store)
    as [[report|msg] st'] eqn:E.
  - destruct (bulk_conflicts_are_the_skipped _ _ _ _ E) as (_ & Hc & Hkeep).
    exists report, st'. split; [reflexivity|]. split; [exact Hc|].
    assert (Hnd : NoDup (map id (products mixed_store)))
      by (repeat constructor; simpl; intuition discriminate).
    specialize (Hkeep Hnd).
    unfold mixed_store in Hkeep. cbn [products] in Hkeep.
    inversion Hkeep as [|old new olds news Hhd _ Ho Hn].
    cbn [nth_error]. now rewrite (Hhd eq_refl).
  - vm_compute in E. discriminate E.
Defined.

(** ** Bounds on the profit metrics *)

Lemma margin_above_minus_100 (f c : Q) :
  0 < c -> 0 <= f -> -100 <= ((f - c) / c) * 100.
Proof.
  intros Hc Hf.
  assert (E : ((f - c) / c) * 100 == f * / c * 100 - 100)
    by (field; intros H; rewrite H in Hc; lra).
  rewrite E.
  assert (Hi : 0 <= / c) by (apply Qinv_le_0_compat; lra).
  pose proof (Qmult_le_0_compat _ _ Hf Hi) as H.
  lra.
Qed.

(** For a price that is not negative, the metrics of
    [calculateProfitMetrics] stay in bounds whatever the discount and the
    purchase price are: the final price is between 0 and the price (a
    discount never raises it, and an oversized one stops at 0), the
    minimum selling price is not negative, and the margin is never below
    -100. *)
Theorem profit_metrics_bounds (productData : Product) :
  0 <= price productData ->
  let m := calculateProfitMetrics productData in
  0 <= Metrics.finalPrice m
  /\ Metrics.finalPrice m <= JS.round2 (price productData)
  /\ 0 <= Metrics.minSellingPrice m
  /\ -100 <= Metrics.profitMargin m.
Proof.
  intros Hp. cbv zeta. unfold calculateProfitMetrics. cbv zeta.
  cbn [Metrics.finalPrice Metrics.minSellingPrice Metrics.profitMargin].
  pose proof (parseFloat_or_0 (price productData)) as Eb.
  set (base := JS.parseFloat_or (Some (price productData)) 0) in *.
  set (c := JS.parseFloat_or (purchasePrice productData) 0).
  set (d := JS.parseFloat_or (discountValue productData) 0).
  set (f0 := if JS.ltb 0 d
             then if JS.str_is (discountType productData) "Percentage"
                  then base - base * d / 100 else base - d
             else base).
  assert (Hf0 : f0 <= price productData).
  { unfold f0. destruct (JS.ltb 0 d) eqn:Hd; [|lra].
    apply ltb_lt in Hd.
    destruct (JS.str_is (discountType productData) "Percentage"); [|lra].
    assert (E : base * d / 100 == base * d * (1 # 100))
      by (unfold Qdiv; reflexivity).
    rewrite E.
    assert (Hb : 0 <= base) by lra.
    assert (Hd' : 0 <= d) by lra.
    pose proof (Qmult_le_0_compat _ _ Hb Hd') as H. lra. }
  clearbody f0. unfold JS.Math_max.
  assert (Hf : 0 <= Qmax 0 f0 /\ Qmax 0 f0 <= price productData).
  { destruct (Q.max_spec 0 f0) as [[L E] | [L E]]; rewrite E; split; lra. }
  destruct Hf as [Hf1 Hf2].
  split; [now apply round2_nonneg|].
  split; [now apply round2_mono|].
  split.
  - apply round2_nonneg. destruct (JS.ltb 0 c) eqn:Hc; [|lra].
    apply ltb_lt in Hc. lra.
  - apply Qle_trans with (JS.round2 (-100)).
    { apply Qle_lteq. right. reflexivity. }
    apply round2_mono.
    destruct (JS.ltb 0 c) eqn:Hc; cbn [andb]; [|lra].
    apply ltb_lt in Hc.
    destruct (JS.ltb 0 (Qmax 0 f0)); [|lra].
    now apply margin_above_minus_100.
Qed.

Lemma profit_metrics_bounds_witness :
  0 <= Metrics.finalPrice (calculateProfitMetrics discounted_margin_product)
  /\ Metrics.finalPrice (calculateProfitMetrics discounted_margin_product)
     <= JS.round2 (price discounted_margin_product).
Proof.
  destruct (profit_metrics_bounds discounted_margin_product) as (H1 & H2 & _).
  - vm_compute. discriminate.
  - split; [exact H1 | exact H2].
Defined.

(** ** The rounding of the engine *)



Lemma rounds_half_up_comp (x y r : Q) :
  x == y -> rounds_half_up x r -> rounds_half_up y r.
Proof.
  intros E (Hn & Hlo & Hhi). split; [exact Hn|]. rewrite <- E. now split.
Qed.






(** ** Partial batch update: every entry is processed *)

Lemma for_of_app {A S : Type} (l1 l2 : list A) (body : A -> S -> Eff S) :
  forall (s : S) (st : Store),
    for_of (l1 ++ l2) body s st
    = bind (for_of l1 body s) (fun s1 => for_of l2 body s1) st.
Proof.
  induction l1 as [|x l1 IH]; intros s st; [reflexivity|].
  cbn [app for_of]. unfold bind.
  destruct (body x s st) as [[s1|msg] st1]; [|reflexivity].
  rewrite IH. reflexivity.
Qed.

(** One iteration, whatever the tallies are: the entry is turned down, or
    [update] is called on it and its outcome decides. *)
Lemma partial_iteration_cases (u : PartialUpdate.t) (s : Batch.locals)
    (st : Store) :
  partial_iteration u s st
  = match entry_rejection u with
    | Some msg => (Normal (Batch.fail s (PartialUpdate.productId u) msg), st)
    | None =>
        match update (PartialUpdate.productId u) (entry_patch u) st with
        | (Normal _, st1) => (Normal (Batch.succeed s), st1)
        | (Thrown msg, st1) =>
            (Normal (Batch.fail s (PartialUpdate.productId u) msg), st1)
        end
    end.
Proof.
  unfold partial_iteration, try_catch, entry_rejection.
  cbn [Patch.price Patch.purchasePrice].
  fold (entry_patch u).
  destruct (PartialUpdate.basePrice u) as [b|] eqn:Hb; cbn [JS.opt_leb_l].
  - destruct (JS.leb b 0); [reflexivity|].
    destruct (PartialUpdate.costPrice u) as [c|] eqn:Hc.
    + destruct (JS.leb b c); [reflexivity|].
      unfold bind, ret.
      destruct (update _ _ st) as [[p|msg] st1]; reflexivity.
    + unfold bind, ret.
      destruct (update _ _ st) as [[p|msg] st1]; reflexivity.
  - destruct (PartialUpdate.costPrice u) as [c|] eqn:Hc;
      unfold bind, ret;
      destruct (update _ _ st) as [[p|msg] st1]; reflexivity.
Qed.

(** The loop adds to the tallies it is given what it would have counted
    from empty ones, and what it does to the store does not depend on
    them. *)
Lemma partial_loop_adds (updates : list PartialUpdate.t) :
  forall st : Store,
  exists n es st',
    forall s : Batch.locals,
      for_of updates partial_iteration s st
      = (Normal {| Batch.successCount := Batch.successCount s + n;
                   Batch.errors := (Batch.errors s ++ es)%list |}, st').
Proof.
  induction updates as [|u rest IH]; intros st.
  - exists 0%nat, [], st. intros [n0 e0]. cbn [for_of]. unfold ret.
    cbn [Batch.successCount Batch.errors].
    now rewrite Nat.add_0_r, app_nil_r.
  - pose proof (fun s => partial_iteration_cases u s st) as Hit.
    destruct (entry_rejection u) as [msg|].
    + destruct (IH st) as (n & es & st' & Hrest).
      exists n,
        ({| Batch.productId := PartialUpdate.productId u; Batch.error := msg |}
           :: es), st'.
      intros s. cbn [for_of]. erewrite bind_run by apply Hit.
      rewrite Hrest. cbn [Batch.fail Batch.successCount Batch.errors].
      now rewrite <- app_assoc.
    + destruct (update (PartialUpdate.productId u) (entry_patch u) st)
        as [[p|msg] st1].
      * destruct (IH st1) as (n & es & st' & Hrest).
        exists (S n), es, st'.
        intros s. cbn [for_of]. erewrite bind_run by apply Hit.
        rewrite Hrest. cbn [Batch.succeed Batch.successCount Batch.errors].
        now rewrite Nat.add_succ_r.
      * destruct (IH st1) as (n & es & st' & Hrest).
        exists n,
          ({| Batch.productId := PartialUpdate.productId u; Batch.error := msg |}
             :: es), st'.
        intros s. cbn [for_of]. erewrite bind_run by apply Hit.
        rewrite Hrest. cbn [Batch.fail Batch.successCount Batch.errors].
        now rewrite <- app_assoc.
Qed.

Lemma after_before_delay (st : Store) : after_delay (before_delay st) = st.
Proof.
  destruct st as [ps t]. unfold after_delay, before_delay.
  cbn [products clock]. f_equal. lia.
Qed.

Lemma bulkPartialUpdate_loop (updates : list PartialUpdate.t) (st : Store) :
  bulkPartialUpdate updates st
  = bind (for_of updates partial_iteration
            {| Batch.successCount := 0; Batch.errors := [] |})
         (fun s =>
            ret {| Batch.Summary.successCount := Batch.successCount s;
                   Batch.Summary.totalUpdates := List.length updates;
                   Batch.Summary.errors := Batch.errors s |})
         (after_delay st).
Proof. reflexivity. Qed.

(** C9.  [bulkPartialUpdate] returns for every list of entries, and the
    returned [successCount] plus the number of [errors] is
    [totalUpdates], the length of the list; an entry whose base price is
    not positive has its error in the list wherever it stands.  The
    entries are processed one after another, each as if the batch began
    with it: the summary of a list [before ++ after] is the summary of
    [before] joined with the summary that [after] gets as a batch of its
    own on the store [before] left, whatever failed in [before].  And a
    batch of one entry either turns the entry down before any call, or
    calls [update] on it and reports the outcome of that call, keeping
    the store [update] left. *)
Theorem bulkPartialUpdate_processes_every_entry :
  (forall (updates : list PartialUpdate.t) (st : Store),
      exists summary st',
        bulkPartialUpdate updates st = (Normal summary, st')
        /\ (Batch.Summary.successCount summary
            + List.length (Batch.Summary.errors summary)
            = Batch.Summary.totalUpdates summary)%nat
        /\ Batch.Summary.totalUpdates summary = List.length updates
        /\ (forall u b, In u updates ->
              PartialUpdate.basePrice u = Some b -> b <= 0 ->
              In {| Batch.productId := PartialUpdate.productId u;
                    Batch.error := "Base price must be greater than 0" |}
                 (Batch.Summary.errors summary)))
  /\ (forall (before after : list PartialUpdate.t) (st : Store),
        exists s1 st1 s2 st2,
          bulkPartialUpdate before st = (Normal s1, st1)
          /\ bulkPartialUpdate after (before_delay st1) = (Normal s2, st2)
          /\ bulkPartialUpdate (before ++ after) st
             = (Normal (joined s1 s2), st2))
  /\ (forall (u : PartialUpdate.t) (st : Store),
        bulkPartialUpdate [u] st
        = match entry_rejection u with
          | Some msg => (Normal (one_failure u msg), after_delay st)
          | None =>
              match update (PartialUpdate.productId u) (entry_patch u)
                      (after_delay st) with
              | (Normal _, st1) => (Normal one_success, st1)
              | (Thrown msg, st1) => (Normal (one_failure u msg), st1)
              end
          end).
Proof.
  split; [|split].
  - intros updates st. unfold bulkPartialUpdate, bind, delay.
    match goal with
    | |- context [for_of updates partial_iteration ?s ?t] =>
        destruct (partial_loop_tally updates s t)
          as (s' & st' & Hrun & Hcount & _ & Hin)
    end.
    rewrite Hrun. eexists _, st'. split; [reflexivity|].
    simpl in *. repeat split; [lia | exact Hin].
  - intros before after st.
    destruct (partial_loop_adds before (after_delay st)) as (n1 & e1 & st1 & H1).
    destruct (partial_loop_adds after st1) as (n2 & e2 & st2 & H2).
    eexists _, st1, _, st2. split; [|split].
    + rewrite bulkPartialUpdate_loop. erewrite bind_run by apply H1.
      reflexivity.
    + rewrite bulkPartialUpdate_loop, after_before_delay.
      erewrite bind_run by apply H2. reflexivity.
    + rewrite bulkPartialUpdate_loop. unfold bind at 1. rewrite for_of_app.
      erewrite bind_run by apply H1. rewrite H2.
      unfold ret, joined.
      cbn [Batch.Summary.successCount Batch.Summary.totalUpdates
           Batch.Summary.errors Batch.successCount Batch.errors].
      now rewrite length_app.
  - intros u st. rewrite bulkPartialUpdate_loop. cbn [for_of].
    unfold bind at 1 2. rewrite partial_iteration_cases.
    destruct (entry_rejection u) as [msg|]; [reflexivity|].
    destruct (update _ _ (after_delay st)) as [[p|msg] st1]; reflexivity.
Qed.

(** A batch whose second entry names no product and whose third has a
    negative price: the first entry succeeds, and the two failures do not
    keep one another from being reported. *)
Lemma bulkPartialUpdate_processes_every_entry_witness :
  exists summary st',
    bulkPartialUpdate sample_updates margin_store = (Normal summary, st')
    /\ (Batch.Summary.successCount summary
        + List.length (Batch.Summary.errors summary) = 3)%nat
    /\ In {| Batch.productId := 1;
             Batch.error := "Base price must be greater than 0" |}
          (Batch.Summary.errors summary)
    /\ Batch.Summary.successCount summary = 1%nat.
Proof.
  destruct (proj1 bulkPartialUpdate_processes_every_entry
              sample_updates margin_store)
    as (summary & st' & Hrun & Hsum & Hlen & Hin).
  exists summary, st'. split; [exact Hrun|]. split; [|split].
  - rewrite Hsum, Hlen. reflexivity.
  - apply (Hin {| PartialUpdate.productId := 1;
                  PartialUpdate.basePrice := Some (-5);
                  PartialUpdate.costPrice := None |} (-5)).
    + right. right. left. reflexivity.
    + reflexivity.
    + discriminate.
  - vm_compute in Hrun. injection Hrun as <- _. reflexivity.
Defined.
